(** * ILI9225 LCD driver for the RP2040: protocol, start-up and pixel paths

    A shallow embedding of [libs/ili9225/src/ili9225.c].  The driver talks
    to the panel through the Pico SDK (GPIO, SPI, DMA, interrupts, sleep);
    every SDK call the C code makes is recorded as an [event], and the
    driver's file-scope variables are the fields of [driver].  A C function
    [f] becomes a computation [f : M A] over that state. *)

From Stdlib Require Import ZArith List Bool Lia.
From Stdlib Require Ascii String.
Import Ascii.AsciiSyntax String.StringSyntax.
Import ListNotations.
Local Open Scope Z_scope.
Delimit Scope char_scope with char.
Delimit Scope string_scope with string.

(** ** Machine integers

    [uint8_t], [uint16_t] and [unsigned] (32 bits on the Cortex-M0+) are
    integers of [Z]; a conversion to one of them is the remainder it
    takes. *)

Definition to_uint8 (z : Z) : Z := z mod 2 ^ 8.
Definition to_uint16 (z : Z) : Z := z mod 2 ^ 16.
Definition to_unsigned (z : Z) : Z := z mod 2 ^ 32.

Definition is_uint8 (z : Z) : Prop := 0 <= z < 2 ^ 8.

Definition Z_of_bool (b : bool) : Z := if b then 1 else 0.

(** ** ili9225.h *)

Inductive spi_inst_t := spi0 | spi1.

Record ili9225_config := mk_config {
  spi : option spi_inst_t;   (* [None] is the null pointer *)
  gpio_din : Z;
  gpio_clk : Z;
  gpio_cs : Z;
  gpio_rs : Z;
  gpio_rst : Z;
  gpio_bl : Z;
  gpio_led : Z
}.

Definition SCREEN_SIZE_X : Z := 176.
Definition SCREEN_SIZE_Y : Z := 220.

Inductive ili9225_color_mode_e := ILI9225_COLOR_MODE_FULL | ILI9225_COLOR_MODE_8COLOR.

Definition color_mode_value (m : ili9225_color_mode_e) : Z :=
  match m with
  | ILI9225_COLOR_MODE_FULL => 0
  | ILI9225_COLOR_MODE_8COLOR => 1
  end.

(** ** Register addresses *)

Definition MK_ILI9225_REG_DRIVER_CODE_READ : Z := 0x00.
Definition MK_ILI9225_REG_DRIVER_OUTPUT_CTRL : Z := 0x01.
Definition MK_ILI9225_REG_LCD_AC_DRIVING_CTRL : Z := 0x02.
Definition MK_ILI9225_REG_ENTRY_MODE : Z := 0x03.
Definition MK_ILI9225_REG_DISPLAY_CTRL : Z := 0x07.
Definition MK_ILI9225_REG_BLANK_PERIOD_CTRL : Z := 0x08.
Definition MK_ILI9225_REG_FRAME_CYCLE_CTRL : Z := 0x0B.
Definition MK_ILI9225_REG_INTERFACE_CTRL : Z := 0x0C.
Definition MK_ILI9225_REG_OSC_CTRL : Z := 0x0F.
Definition MK_ILI9225_REG_PWR_CTRL1 : Z := 0x10.
Definition MK_ILI9225_REG_PWR_CTRL2 : Z := 0x11.
Definition MK_ILI9225_REG_PWR_CTRL3 : Z := 0x12.
Definition MK_ILI9225_REG_PWR_CTRL4 : Z := 0x13.
Definition MK_ILI9225_REG_PWR_CTRL5 : Z := 0x14.
Definition MK_ILI9225_REG_VCI_RECYCLING : Z := 0x15.
Definition MK_ILI9225_REG_RAM_ADDR_SET1 : Z := 0x20.
Definition MK_ILI9225_REG_RAM_ADDR_SET2 : Z := 0x21.
Definition MK_ILI9225_REG_GRAM_RW : Z := 0x22.
Definition MK_ILI9225_REG_GATE_SCAN_CTRL : Z := 0x30.
Definition MK_ILI9225_REG_VERT_SCROLL_CTRL1 : Z := 0x31.
Definition MK_ILI9225_REG_VERT_SCROLL_CTRL2 : Z := 0x32.
Definition MK_ILI9225_REG_VERT_SCROLL_CTRL3 : Z := 0x33.
Definition MK_ILI9225_REG_PART_DRIVING_POS1 : Z := 0x34.
Definition MK_ILI9225_REG_PART_DRIVING_POS2 : Z := 0x35.
Definition MK_ILI9225_REG_HORI_WIN_ADDR1 : Z := 0x36.
Definition MK_ILI9225_REG_HORI_WIN_ADDR2 : Z := 0x37.
Definition MK_ILI9225_REG_VERT_WIN_ADDR1 : Z := 0x38.
Definition MK_ILI9225_REG_VERT_WIN_ADDR2 : Z := 0x39.
Definition MK_ILI9225_REG_GAMMA_CTRL1 : Z := 0x50.
Definition MK_ILI9225_REG_GAMMA_CTRL2 : Z := 0x51.
Definition MK_ILI9225_REG_GAMMA_CTRL3 : Z := 0x52.
Definition MK_ILI9225_REG_GAMMA_CTRL4 : Z := 0x53.
Definition MK_ILI9225_REG_GAMMA_CTRL5 : Z := 0x54.
Definition MK_ILI9225_REG_GAMMA_CTRL6 : Z := 0x55.
Definition MK_ILI9225_REG_GAMMA_CTRL7 : Z := 0x56.
Definition MK_ILI9225_REG_GAMMA_CTRL8 : Z := 0x57.
Definition MK_ILI9225_REG_GAMMA_CTRL9 : Z := 0x58.
Definition MK_ILI9225_REG_GAMMA_CTRL10 : Z := 0x59.

(** ** The Pico SDK as seen by the driver *)

Inductive gpio_function := GPIO_FUNC_SPI | GPIO_FUNC_SIO.
Inductive gpio_slew_rate := GPIO_SLEW_RATE_SLOW | GPIO_SLEW_RATE_FAST.
Inductive spi_cpol_t := SPI_CPOL_0 | SPI_CPOL_1.
Inductive spi_cpha_t := SPI_CPHA_0 | SPI_CPHA_1.
Inductive spi_order_t := SPI_LSB_FIRST | SPI_MSB_FIRST.
Inductive dma_channel_transfer_size := DMA_SIZE_8 | DMA_SIZE_16 | DMA_SIZE_32.

(** The pacing signal of a channel: [spi_get_dreq spi is_tx], or none. *)
Inductive dreq_t := DREQ_FORCE | DREQ_SPI (inst : option spi_inst_t) (is_tx : bool).

Record dma_channel_config := mk_dma_config {
  transfer_data_size : dma_channel_transfer_size;
  dreq : dreq_t;
  chain_to : Z
}.

(** [dma_channel_get_default_config]: 32-bit transfers, unpaced, chained
    to itself. *)
Definition dma_channel_get_default_config (channel : Z) : dma_channel_config :=
  mk_dma_config DMA_SIZE_32 DREQ_FORCE channel.

Definition channel_config_set_transfer_data_size
    (cfg : dma_channel_config) (size : dma_channel_transfer_size) : dma_channel_config :=
  mk_dma_config size (dreq cfg) (chain_to cfg).

Definition channel_config_set_dreq (cfg : dma_channel_config) (d : dreq_t) : dma_channel_config :=
  mk_dma_config (transfer_data_size cfg) d (chain_to cfg).

Definition spi_get_dreq (inst : option spi_inst_t) (is_tx : bool) : dreq_t := DREQ_SPI inst is_tx.

(** A buffer the caller hands over: the 16-bit words found from the
    pointer onwards. *)
Definition buffer := nat -> Z.

Definition read_words (buf : buffer) (len : Z) : list Z :=
  map buf (seq 0 (Z.to_nat len)).

(** The interrupt service routine the driver installs. *)
Inductive irq_handler_t := ISR_ili9225_dma_finish_callback.

(** One constructor per SDK call (or register store) of the driver, with
    the arguments of the call; [call_user] is the call through the
    registered function pointer. *)
Inductive event :=
| gpio_set_function (gpio : Z) (fn : gpio_function)
| gpio_set_dir (gpio : Z) (out : bool)
| gpio_set_slew_rate (gpio : Z) (slew : gpio_slew_rate)
| clock_configure_clk_peri (src_freq freq : Z)
| spi_init (inst : option spi_inst_t) (baudrate : Z)
| spi_set_format (inst : option spi_inst_t) (data_bits : Z)
    (cpol : spi_cpol_t) (cpha : spi_cpha_t) (order : spi_order_t)
| gpio_put (gpio : Z) (value : bool)
| spi_write16_blocking (inst : option spi_inst_t) (src : list Z)
| spi_read16 (value : Z)
| sleep_ms (ms : Z)
| dma_channel_set_irq0_enabled (channel : Z) (enabled : bool)
| dma_channel_set_irq1_enabled (channel : Z) (enabled : bool)
| dma_hw_ints0 (value : Z)
| dma_hw_ints1 (value : Z)
| irq_set_exclusive_handler (num : Z) (handler : irq_handler_t)
| irq_set_enabled (num : Z) (enabled : bool)
| dma_channel_configure (channel : Z) (config : dma_channel_config)
    (write_addr : option spi_inst_t) (read_addr : option buffer)
    (transfer_count : Z) (trigger : bool)
| dma_start_channel_mask (chan_mask : Z)
| call_user (callback : Z).

(** ** Driver state: the file-scope variables of ili9225.c *)

Record driver := mk_driver {
  ili9225_cfg : ili9225_config;
  dma_irq : Z;
  dma_tx : Z;
  c : dma_channel_config;
  f_dma_finish_callback : Z;
  log : list event   (* SDK calls made so far, latest first *)
}.

(** The calls in the order they were made. *)
Definition trace (s : driver) : list event := rev (log s).

(** [s] after the calls [evs], made in that order. *)
Definition after (evs : list event) (s : driver) : driver :=
  mk_driver (ili9225_cfg s) (dma_irq s) (dma_tx s) (c s) (f_dma_finish_callback s)
    (rev evs ++ log s).

Definition set_ili9225_cfg (cfg : ili9225_config) (s : driver) : driver :=
  mk_driver cfg (dma_irq s) (dma_tx s) (c s) (f_dma_finish_callback s) (log s).

Definition set_dma_irq (num : Z) (s : driver) : driver :=
  mk_driver (ili9225_cfg s) num (dma_tx s) (c s) (f_dma_finish_callback s) (log s).

Definition set_c (cfg : dma_channel_config) (s : driver) : driver :=
  mk_driver (ili9225_cfg s) (dma_irq s) (dma_tx s) cfg (f_dma_finish_callback s) (log s).

Definition set_f_dma_finish_callback (cb : Z) (s : driver) : driver :=
  mk_driver (ili9225_cfg s) (dma_irq s) (dma_tx s) (c s) cb (log s).

(** Statics are zero-initialised. *)
Definition zero_config : ili9225_config := mk_config None 0 0 0 0 0 0 0.

Definition power_on : driver :=
  mk_driver zero_config 0 0 (mk_dma_config DMA_SIZE_8 DREQ_FORCE 0) 0 [].

(** ** Computations

    A call returns ([Done]), dies in a failed [assert] ([AssertionFailed],
    with the state at that point), or exhausts the iteration budget of a
    loop ([OutOfFuel]). *)

Inductive outcome (A : Type) : Type :=
| Done (a : A) (s : driver)
| AssertionFailed (s : driver)
| OutOfFuel.

Arguments Done {A} a s.
Arguments AssertionFailed {A} s.
Arguments OutOfFuel {A}.

Definition M (A : Type) : Type := driver -> outcome A.

Definition ret {A} (a : A) : M A := fun s => Done a s.

Definition bind {A B} (m : M A) (k : A -> M B) : M B :=
  fun s =>
    match m s with
    | Done a s' => k a s'
    | AssertionFailed s' => AssertionFailed s'
    | OutOfFuel => OutOfFuel
    end.

Declare Scope drv_scope.
Delimit Scope drv_scope with drv.
Notation "x <- m ;; k" := (bind m (fun x => k))
  (at level 61, m at next level, right associativity) : drv_scope.
Notation "m ;; k" := (bind m (fun _ => k))
  (at level 61, right associativity) : drv_scope.
Local Open Scope drv_scope.

Definition get {A} (field : driver -> A) : M A := fun s => Done (field s) s.
Definition modify (f : driver -> driver) : M unit := fun s => Done tt (f s).

(** An SDK call: logged, returns nothing the driver uses. *)
Definition sdk (e : event) : M unit := modify (after [e]).

(** [assert(cond)] of <assert.h>; the sources leave [NDEBUG] undefined. *)
Definition assert (cond : bool) : M unit :=
  fun s => if cond then Done tt s else AssertionFailed s.

(** [for (i = 0; i < n; i++) body(a[i])] over a constant array [a]. *)
Fixpoint for_each {A} (a : list A) (body : A -> M unit) : M unit :=
  match a with
  | [] => ret tt
  | x :: a' => body x ;; for_each a' body
  end.

(** [for (uint16_t i = i0; i < bound; i++) body], at most [fuel] tests of
    the condition; the counter wraps as a [uint16_t] does. *)
Fixpoint for_uint16 (fuel : nat) (i bound : Z) (body : M unit) : M unit :=
  match fuel with
  | O => fun _ => OutOfFuel
  | S fuel' =>
      if i <? bound
      then body ;; for_uint16 fuel' (to_uint16 (i + 1)) bound body
      else ret tt
  end.

(** A [uint16_t] counter takes 65536 values: a loop still running after
    that many increments never ends. *)
Definition uint16_fuel : nat := Z.to_nat (2 ^ 16 + 1).

(** The words at a pointer; nothing is read through a null pointer. *)
Definition words_at (p : option buffer) (len : Z) : list Z :=
  match p with
  | Some buf => read_words buf len
  | None => []
  end.

(** [&v] for a local [uint16_t v]. *)
Definition address_of (v : Z) : option buffer := Some (fun _ => v).

Definition is_null {A} (p : option A) : bool :=
  match p with
  | Some _ => false
  | None => true
  end.

Section Driver.

(** The capability flag of ili9225.h ([0] unless the build defines it). *)
Variable MK_ILI9225_READ_AVAILABLE : bool.

(** [ili9225_spi_read16] is declared [extern] and left to the platform:
    [chip_answer] is the word the panel shifts out after the calls made so
    far. *)
Variable chip_answer : list event -> Z.

(** Interrupt numbers of the two DMA lines (hardware/irq.h). *)
Variable DMA_IRQ_0 : Z.
Variable DMA_IRQ_1 : Z.

(** *** Pins, bus and delay *)

Definition ili9225_set_led (state : bool) : M unit :=
  cfg <- get ili9225_cfg ;; sdk (gpio_put (gpio_led cfg) state).

Definition ili9225_set_rst (state : bool) : M unit :=
  cfg <- get ili9225_cfg ;; sdk (gpio_put (gpio_rst cfg) state).

Definition ili9225_set_rs (state : bool) : M unit :=
  cfg <- get ili9225_cfg ;; sdk (gpio_put (gpio_rs cfg) state).

Definition ili9225_set_cs (state : bool) : M unit :=
  cfg <- get ili9225_cfg ;; sdk (gpio_put (gpio_cs cfg) state).

Definition ili9225_spi_write16 (halfwords : option buffer) (len : Z) : M unit :=
  cfg <- get ili9225_cfg ;;
  sdk (spi_write16_blocking (spi cfg) (words_at halfwords len)).

Definition ili9225_spi_read16 : M Z :=
  tr <- get trace ;;
  let value := to_uint16 (chip_answer tr) in
  sdk (spi_read16 value) ;;
  ret value.

Definition ili9225_delay_ms (ms : Z) : M unit := sdk (sleep_ms ms).

(** *** Register protocol *)

Definition write_register (cmd : Z) : M unit :=
  ili9225_set_rs false ;;
  ili9225_set_cs false ;;
  ili9225_spi_write16 (address_of cmd) 1 ;;
  ili9225_set_cs true.

Definition write_data (dat : Z) : M unit :=
  ili9225_set_rs true ;;
  ili9225_set_cs false ;;
  ili9225_spi_write16 (address_of dat) 1 ;;
  ili9225_set_cs true.

Definition read_data : M Z :=
  ili9225_set_rs true ;;
  ili9225_set_cs false ;;
  r <- ili9225_spi_read16 ;;
  ili9225_set_cs true ;;
  ret r.

Definition get_register (reg : Z) : M Z :=
  write_register reg ;;
  read_data.

Definition set_register (reg dat : Z) : M unit :=
  write_register reg ;;
  write_data dat.

Definition ili9225_read_driving_line : M Z :=
  ili9225_set_rs false ;;
  ili9225_set_cs false ;;
  line <- read_data ;;
  ili9225_set_cs true ;;
  ret (Z.shiftr line 8).

(** *** Completion interrupt of the DMA channel *)

Definition ili9225_write_pixels_start : M unit :=
  write_register MK_ILI9225_REG_GRAM_RW ;;
  ili9225_set_rs true ;;
  ili9225_set_cs false.

Definition ili9225_write_pixels_end : M unit :=
  ili9225_set_cs true.

(** The last [else] of the C function returns before the callback; here
    the call closes each of the two branches that reach it. *)
Definition _ili9225_dma_finish_callback : M unit :=
  ili9225_write_pixels_end ;;
  irq <- get dma_irq ;;
  tx <- get dma_tx ;;
  if irq =? DMA_IRQ_0 then
    sdk (dma_channel_set_irq0_enabled tx true) ;;
    sdk (dma_hw_ints0 (to_unsigned (Z.shiftl 1 tx))) ;;
    cb <- get f_dma_finish_callback ;;
    sdk (call_user cb)
  else if irq =? DMA_IRQ_1 then
    sdk (dma_channel_set_irq0_enabled tx true) ;;
    sdk (dma_hw_ints1 (to_unsigned (Z.shiftl 1 tx))) ;;
    cb <- get f_dma_finish_callback ;;
    sdk (call_user cb)
  else
    ret tt.

Definition ili9225_set_dma_irq_handler (num cb : Z) : M unit :=
  tx <- get dma_tx ;;
  let install : M unit :=
    modify (set_dma_irq num) ;;
    modify (set_f_dma_finish_callback cb) ;;
    sdk (irq_set_exclusive_handler num ISR_ili9225_dma_finish_callback) ;;
    sdk (irq_set_enabled num true) in
  if num =? DMA_IRQ_0 then
    sdk (dma_channel_set_irq0_enabled tx true) ;; install
  else if num =? DMA_IRQ_1 then
    sdk (dma_channel_set_irq1_enabled tx true) ;; install
  else
    ret tt.

Definition ili9225_dma_write (data : option buffer) (len : Z) : M unit :=
  ili9225_write_pixels_start ;;
  tx <- get dma_tx ;;
  config <- get c ;;
  cfg <- get ili9225_cfg ;;
  sdk (dma_channel_configure tx config (spi cfg) data len false) ;;
  sdk (dma_start_channel_mask (to_unsigned (Z.shiftl 1 tx))).

(** *** Start-up *)

(** The pin, clock and SPI set-up that opens [ili9225_init]. *)
Definition platform_setup : M unit :=
  cfg <- get ili9225_cfg ;;
  sdk (gpio_set_function (gpio_din cfg) GPIO_FUNC_SPI) ;;
  sdk (gpio_set_function (gpio_clk cfg) GPIO_FUNC_SPI) ;;
  sdk (gpio_set_function (gpio_cs cfg) GPIO_FUNC_SIO) ;;
  sdk (gpio_set_function (gpio_clk cfg) GPIO_FUNC_SPI) ;;
  sdk (gpio_set_function (gpio_din cfg) GPIO_FUNC_SPI) ;;
  sdk (gpio_set_function (gpio_rs cfg) GPIO_FUNC_SIO) ;;
  sdk (gpio_set_function (gpio_rst cfg) GPIO_FUNC_SIO) ;;
  sdk (gpio_set_function (gpio_led cfg) GPIO_FUNC_SIO) ;;
  sdk (gpio_set_dir (gpio_cs cfg) true) ;;
  sdk (gpio_set_dir (gpio_rs cfg) true) ;;
  sdk (gpio_set_dir (gpio_rst cfg) true) ;;
  sdk (gpio_set_dir (gpio_led cfg) true) ;;
  sdk (gpio_set_slew_rate (gpio_clk cfg) GPIO_SLEW_RATE_FAST) ;;
  sdk (gpio_set_slew_rate (gpio_din cfg) GPIO_SLEW_RATE_FAST) ;;
  sdk (clock_configure_clk_peri (125 * 1000 * 1000) (125 * 1000 * 1000)) ;;
  sdk (spi_init (spi cfg) (30 * 1000 * 1000)) ;;
  sdk (spi_set_format (spi cfg) 16 SPI_CPOL_0 SPI_CPHA_0 SPI_MSB_FIRST).

(** The constant arrays of [ili9225_init]. *)
Definition power_regs_zeroed : list Z :=
  [ MK_ILI9225_REG_PWR_CTRL1; MK_ILI9225_REG_PWR_CTRL2;
    MK_ILI9225_REG_PWR_CTRL3; MK_ILI9225_REG_PWR_CTRL4;
    MK_ILI9225_REG_PWR_CTRL5 ].

(** [regs[i]] paired with [dat[i]]. *)
Definition power_regs_on : list (Z * Z) :=
  [ (MK_ILI9225_REG_PWR_CTRL2, 0x0018); (MK_ILI9225_REG_PWR_CTRL3, 0x6121);
    (MK_ILI9225_REG_PWR_CTRL4, 0x006F); (MK_ILI9225_REG_PWR_CTRL5, 0x495F);
    (MK_ILI9225_REG_PWR_CTRL1, 0x0800) ].

Definition cmds : list (Z * Z) :=
  [ (MK_ILI9225_REG_DRIVER_OUTPUT_CTRL, 0x011C);
    (MK_ILI9225_REG_LCD_AC_DRIVING_CTRL, 0x0100);
    (MK_ILI9225_REG_ENTRY_MODE, 0x1018);
    (MK_ILI9225_REG_DISPLAY_CTRL, 0x0000);
    (MK_ILI9225_REG_BLANK_PERIOD_CTRL, 0x0808);
    (MK_ILI9225_REG_FRAME_CYCLE_CTRL, 0x1100);
    (MK_ILI9225_REG_INTERFACE_CTRL, 0x0000);
    (MK_ILI9225_REG_OSC_CTRL, 0x0701);
    (MK_ILI9225_REG_VCI_RECYCLING, 0x0020);
    (MK_ILI9225_REG_RAM_ADDR_SET1, 0x0000);
    (MK_ILI9225_REG_RAM_ADDR_SET2, 0x0000);
    (MK_ILI9225_REG_GATE_SCAN_CTRL, 0x0000);
    (MK_ILI9225_REG_VERT_SCROLL_CTRL1, 0x00DB);
    (MK_ILI9225_REG_VERT_SCROLL_CTRL2, 0x0000);
    (MK_ILI9225_REG_VERT_SCROLL_CTRL3, 0x0000);
    (MK_ILI9225_REG_PART_DRIVING_POS1, 0x00DB);
    (MK_ILI9225_REG_PART_DRIVING_POS2, 0x0000);
    (MK_ILI9225_REG_HORI_WIN_ADDR1, 0x00AF);
    (MK_ILI9225_REG_HORI_WIN_ADDR2, 0x0000);
    (MK_ILI9225_REG_VERT_WIN_ADDR1, 0x00DB);
    (MK_ILI9225_REG_VERT_WIN_ADDR2, 0x0000);
    (MK_ILI9225_REG_GAMMA_CTRL1, 0x0000);
    (MK_ILI9225_REG_GAMMA_CTRL2, 0x0808);
    (MK_ILI9225_REG_GAMMA_CTRL3, 0x080A);
    (MK_ILI9225_REG_GAMMA_CTRL4, 0x000A);
    (MK_ILI9225_REG_GAMMA_CTRL5, 0x0A08);
    (MK_ILI9225_REG_GAMMA_CTRL6, 0x0808);
    (MK_ILI9225_REG_GAMMA_CTRL7, 0x0000);
    (MK_ILI9225_REG_GAMMA_CTRL8, 0x0A00);
    (MK_ILI9225_REG_GAMMA_CTRL9, 0x0710);
    (MK_ILI9225_REG_GAMMA_CTRL10, 0x0710);
    (MK_ILI9225_REG_DISPLAY_CTRL, 0x0012) ].

Definition ili9225_init (config : ili9225_config) : M Z :=
  modify (set_ili9225_cfg config) ;;
  platform_setup ;;
  let ret0 := 0x9225 in
  ili9225_set_rst true ;;
  ili9225_set_cs true ;;
  ili9225_set_rs false ;;
  ili9225_delay_ms 1 ;;
  ili9225_set_rst false ;;
  ili9225_delay_ms 10 ;;
  ili9225_set_rst true ;;
  ili9225_delay_ms 50 ;;
  ili9225_set_led false ;;
  for_each power_regs_zeroed (fun reg => set_register reg 0x0000) ;;
  ili9225_delay_ms 40 ;;
  for_each power_regs_on (fun rd => set_register (fst rd) (snd rd)) ;;
  ili9225_delay_ms 10 ;;
  set_register MK_ILI9225_REG_PWR_CTRL2 0x103B ;;
  ili9225_delay_ms 50 ;;
  for_each cmds (fun rd => set_register (fst rd) (snd rd)) ;;
  ili9225_delay_ms 50 ;;
  set_register MK_ILI9225_REG_DISPLAY_CTRL 0x1017 ;;
  ili9225_delay_ms 50 ;;
  ili9225_set_led true ;;
  result <-
    (if MK_ILI9225_READ_AVAILABLE
     then id <- get_register MK_ILI9225_REG_DRIVER_CODE_READ ;;
          ret (to_unsigned (ret0 - id))
     else ret 0) ;;
  tx <- get dma_tx ;;
  cfg <- get ili9225_cfg ;;
  modify (set_c (dma_channel_get_default_config tx)) ;;
  modify (fun s => set_c (channel_config_set_transfer_data_size (c s) DMA_SIZE_16) s) ;;
  modify (fun s => set_c (channel_config_set_dreq (c s) (spi_get_dreq (spi cfg) true)) s) ;;
  ret result.

(** *** Control setters *)

Definition ili9225_display_control (invert : bool) (colour_mode : ili9225_color_mode_e) : M unit :=
  let dat := 0x0013 in
  let dat := to_uint16 (Z.lor dat (Z.shiftl (Z_of_bool invert) 2)) in
  let dat := to_uint16 (Z.lor dat (Z.shiftl (color_mode_value colour_mode) 3)) in
  set_register MK_ILI9225_REG_DISPLAY_CTRL dat.

Definition ili9225_power_control (drive_power : Z) (sleep : bool) : M unit :=
  let data := to_uint16 (Z.shiftl drive_power 8) in
  let data := to_uint16 (Z.lor data (Z_of_bool sleep)) in
  set_register MK_ILI9225_REG_PWR_CTRL1 data.

Definition ili9225_set_gate_scan (hor_start hor_end : Z) : M unit :=
  let dat := 0x0100 in
  let lcd_line_start := hor_end / 8 in
  set_register MK_ILI9225_REG_DRIVER_OUTPUT_CTRL (to_uint16 (Z.lor dat lcd_line_start)) ;;
  set_register MK_ILI9225_REG_GATE_SCAN_CTRL (to_uint16 (hor_start / 8)).

Definition ili9225_set_drive_freq (f : Z) : M unit :=
  let f := to_uint16 (Z.land f 0x000F) in
  let f := to_uint16 (Z.shiftl f 8) in
  let f := to_uint16 (Z.lor f 1) in
  set_register MK_ILI9225_REG_OSC_CTRL f.

Definition ili9225_exit : M unit := ret tt.

(** *** Window and address *)

Definition ili9225_set_window (hor_start hor_end vert_start vert_end : Z) : M unit :=
  assert (hor_start <? hor_end) ;;
  assert (hor_end <? SCREEN_SIZE_X) ;;
  assert (vert_start <? vert_end) ;;
  assert (vert_end <? SCREEN_SIZE_Y) ;;
  set_register MK_ILI9225_REG_HORI_WIN_ADDR1 hor_end ;;
  set_register MK_ILI9225_REG_HORI_WIN_ADDR2 hor_start ;;
  set_register MK_ILI9225_REG_VERT_WIN_ADDR1 vert_end ;;
  set_register MK_ILI9225_REG_VERT_WIN_ADDR2 vert_start ;;
  set_register MK_ILI9225_REG_RAM_ADDR_SET1 hor_start ;;
  set_register MK_ILI9225_REG_RAM_ADDR_SET2 vert_start.

Definition ili9225_set_x (x : Z) : M unit :=
  set_register MK_ILI9225_REG_RAM_ADDR_SET1 x.

Definition ili9225_set_address (x y : Z) : M unit :=
  set_register MK_ILI9225_REG_RAM_ADDR_SET1 x ;;
  set_register MK_ILI9225_REG_RAM_ADDR_SET2 y.

(** *** Synchronous pixel path *)

Definition ili9225_write_pixels (pixels : option buffer) (nmemb : Z) : M unit :=
  assert (negb (is_null pixels)) ;;
  assert (0 <? nmemb) ;;
  write_register MK_ILI9225_REG_GRAM_RW ;;
  ili9225_set_rs true ;;
  ili9225_set_cs false ;;
  ili9225_spi_write16 pixels nmemb ;;
  ili9225_set_cs true.

(** The arguments of [set_register] are [uint16_t]: the [int] expressions
    of the callers are converted on the way in. *)
Definition ili9225_fill_rect (x y w h color : Z) : M unit :=
  set_register MK_ILI9225_REG_ENTRY_MODE 0x1018 ;;
  set_register MK_ILI9225_REG_HORI_WIN_ADDR1 (to_uint16 (y + h - 1)) ;;
  set_register MK_ILI9225_REG_HORI_WIN_ADDR2 y ;;
  set_register MK_ILI9225_REG_VERT_WIN_ADDR1 (to_uint16 (219 - x)) ;;
  set_register MK_ILI9225_REG_VERT_WIN_ADDR2 (to_uint16 (219 - (x + w - 1))) ;;
  set_register MK_ILI9225_REG_RAM_ADDR_SET1 y ;;
  set_register MK_ILI9225_REG_RAM_ADDR_SET2 (to_uint16 (219 - x)) ;;
  write_register MK_ILI9225_REG_GRAM_RW ;;
  ili9225_set_rs true ;;
  ili9225_set_cs false ;;
  for_uint16 uint16_fuel 0 (w * h) (ili9225_spi_write16 (address_of color) 1) ;;
  ili9225_set_cs true.

Definition ili9225_fill (color : Z) : M unit :=
  ili9225_fill_rect 0 0 220 176 color.

Definition ili9225_pixel (x y color : Z) : M unit :=
  set_register MK_ILI9225_REG_RAM_ADDR_SET1 y ;;
  set_register MK_ILI9225_REG_RAM_ADDR_SET2 (to_uint16 (219 - x)) ;;
  set_register MK_ILI9225_REG_GRAM_RW color.

Definition ili9225_blit (fbuf : option buffer) (x y w h : Z) : M unit :=
  set_register MK_ILI9225_REG_ENTRY_MODE 0x1018 ;;
  set_register MK_ILI9225_REG_HORI_WIN_ADDR1 (to_uint16 (y + h - 1)) ;;
  set_register MK_ILI9225_REG_HORI_WIN_ADDR2 y ;;
  set_register MK_ILI9225_REG_VERT_WIN_ADDR1 (to_uint16 (219 - x)) ;;
  set_register MK_ILI9225_REG_VERT_WIN_ADDR2 (to_uint16 (219 - (x + w - 1))) ;;
  set_register MK_ILI9225_REG_RAM_ADDR_SET1 y ;;
  set_register MK_ILI9225_REG_RAM_ADDR_SET2 (to_uint16 (219 - x)) ;;
  write_register MK_ILI9225_REG_GRAM_RW ;;
  ili9225_set_rs true ;;
  ili9225_set_cs false ;;
  ili9225_spi_write16 fbuf (w * h) ;;
  ili9225_set_cs true.

(** ** What the panel sees

    The comments of the register list describe the bus: a word sent with
    RS low loads the index register, a word sent with RS high goes to the
    register the index selects (GRAM data for index 22h), and the panel
    listens only while CS is low.  A transfer is what passes between a
    falling and the next rising edge of CS.  The two lines are told apart
    by their pin numbers: the view is the panel's on a board where
    [gpio_cs] and [gpio_rs] are different pins. *)

Inductive bus_word :=
| Index (reg : Z)
| Write (reg value : Z)
| Read (reg value : Z).

Record bus := mk_bus {
  cs_level : bool;
  rs_level : bool;
  index_reg : Z;
  current : list bus_word;          (* the transfer in progress *)
  closed : list (list bus_word)     (* the finished transfers, oldest first *)
}.

(** Levels as [ili9225_init] leaves the pins before its first access. *)
Definition idle_bus : bus := mk_bus true false 0 [] [].

Definition shift_out (b : bus) (w : Z) : bus :=
  if rs_level b
  then mk_bus (cs_level b) (rs_level b) (index_reg b)
         (current b ++ [Write (index_reg b) w]) (closed b)
  else mk_bus (cs_level b) (rs_level b) w (current b ++ [Index w]) (closed b).

Definition drive_rs (v : bool) (b : bus) : bus :=
  mk_bus (cs_level b) v (index_reg b) (current b) (closed b).

Definition drive_cs (v : bool) (b : bus) : bus :=
  match cs_level b, v with
  | true, false => mk_bus false (rs_level b) (index_reg b) [] (closed b)
  | false, true => mk_bus true (rs_level b) (index_reg b) [] (closed b ++ [current b])
  | _, _ => b
  end.

Definition bus_step (cfg : ili9225_config) (b : bus) (e : event) : bus :=
  match e with
  | gpio_put gpio value =>
      let b := if gpio =? gpio_rs cfg then drive_rs value b else b in
      if gpio =? gpio_cs cfg then drive_cs value b else b
  | spi_write16_blocking _ src =>
      if cs_level b then b else fold_left shift_out src b
  | spi_read16 value =>
      if cs_level b then b
      else mk_bus (cs_level b) (rs_level b) (index_reg b)
             (current b ++ [Read (index_reg b) value]) (closed b)
  | _ => b
  end.

Definition run_bus (cfg : ili9225_config) (evs : list event) (b : bus) : bus :=
  fold_left (bus_step cfg) evs b.

(** The finished transfers of a run of calls that starts with CS high. *)
Definition transfers (cfg : ili9225_config) (evs : list event) : list (list bus_word) :=
  closed (run_bus cfg evs idle_bus).

Definition written (w : bus_word) : list (Z * Z) :=
  match w with
  | Write reg value => [(reg, value)]
  | _ => []
  end.

(** The (register, value) pairs the panel receives, in order. *)
Definition register_writes (cfg : ili9225_config) (evs : list event) : list (Z * Z) :=
  flat_map (flat_map written) (transfers cfg evs).

(** The values written to one register. *)
Definition writes_to (reg : Z) (ws : list (Z * Z)) : list Z :=
  map snd (filter (fun rv => fst rv =? reg) ws).

(** A transfer is in the data phase when it carries a word with RS high. *)
Definition is_write (w : bus_word) : bool :=
  match w with
  | Write _ _ => true
  | _ => false
  end.

Definition data_phase (t : list bus_word) : bool := existsb is_write t.

(** GRAM data: the words written through register 22h. *)
Definition gram_word (w : bus_word) : list Z :=
  match w with
  | Write reg value => if reg =? MK_ILI9225_REG_GRAM_RW then [value] else []
  | _ => []
  end.

Definition carries_pixels (t : list bus_word) : bool :=
  negb (length (flat_map gram_word t) =? 0)%nat.

(** Each register of a batch is selected in one transfer and written in
    the next. *)
Definition batch_transfers (rds : list (Z * Z)) : list (list bus_word) :=
  flat_map (fun rd => [[Index (fst rd)]; [Write (fst rd) (snd rd)]]) rds.

(** ** Views of a trace *)

Definition delay (e : event) : list Z :=
  match e with
  | sleep_ms ms => [ms]
  | _ => []
  end.

Definition delays (evs : list event) : list Z := flat_map delay evs.

Definition is_call_user (e : event) : bool :=
  match e with
  | call_user _ => true
  | _ => false
  end.

Definition is_spi_read16 (e : event) : bool :=
  match e with
  | spi_read16 _ => true
  | _ => false
  end.

(** ** The calls each protocol step makes *)

Definition write_register_events (cfg : ili9225_config) (cmd : Z) : list event :=
  [ gpio_put (gpio_rs cfg) false;
    gpio_put (gpio_cs cfg) false;
    spi_write16_blocking (spi cfg) [cmd];
    gpio_put (gpio_cs cfg) true ].

Definition write_data_events (cfg : ili9225_config) (dat : Z) : list event :=
  [ gpio_put (gpio_rs cfg) true;
    gpio_put (gpio_cs cfg) false;
    spi_write16_blocking (spi cfg) [dat];
    gpio_put (gpio_cs cfg) true ].

Definition set_register_events (cfg : ili9225_config) (reg dat : Z) : list event :=
  write_register_events cfg reg ++ write_data_events cfg dat.

Definition set_registers_events (cfg : ili9225_config) (rds : list (Z * Z)) : list event :=
  flat_map (fun rd => set_register_events cfg (fst rd) (snd rd)) rds.

Definition platform_setup_events (cfg : ili9225_config) : list event :=
  [ gpio_set_function (gpio_din cfg) GPIO_FUNC_SPI;
    gpio_set_function (gpio_clk cfg) GPIO_FUNC_SPI;
    gpio_set_function (gpio_cs cfg) GPIO_FUNC_SIO;
    gpio_set_function (gpio_clk cfg) GPIO_FUNC_SPI;
    gpio_set_function (gpio_din cfg) GPIO_FUNC_SPI;
    gpio_set_function (gpio_rs cfg) GPIO_FUNC_SIO;
    gpio_set_function (gpio_rst cfg) GPIO_FUNC_SIO;
    gpio_set_function (gpio_led cfg) GPIO_FUNC_SIO;
    gpio_set_dir (gpio_cs cfg) true;
    gpio_set_dir (gpio_rs cfg) true;
    gpio_set_dir (gpio_rst cfg) true;
    gpio_set_dir (gpio_led cfg) true;
    gpio_set_slew_rate (gpio_clk cfg) GPIO_SLEW_RATE_FAST;
    gpio_set_slew_rate (gpio_din cfg) GPIO_SLEW_RATE_FAST;
    clock_configure_clk_peri 125000000 125000000;
    spi_init (spi cfg) 30000000;
    spi_set_format (spi cfg) 16 SPI_CPOL_0 SPI_CPHA_0 SPI_MSB_FIRST ].

(** The register batch that opens [ili9225_fill_rect] and [ili9225_blit]. *)
Definition rect_batch (x y w h : Z) : list (Z * Z) :=
  [ (MK_ILI9225_REG_ENTRY_MODE, 0x1018);
    (MK_ILI9225_REG_HORI_WIN_ADDR1, to_uint16 (y + h - 1));
    (MK_ILI9225_REG_HORI_WIN_ADDR2, y);
    (MK_ILI9225_REG_VERT_WIN_ADDR1, to_uint16 (219 - x));
    (MK_ILI9225_REG_VERT_WIN_ADDR2, to_uint16 (219 - (x + w - 1)));
    (MK_ILI9225_REG_RAM_ADDR_SET1, y);
    (MK_ILI9225_REG_RAM_ADDR_SET2, to_uint16 (219 - x)) ].

(** [ili9225_write_pixels_start]: select GRAM, then RS high and CS low. *)
Definition write_pixels_start_events (cfg : ili9225_config) : list event :=
  write_register_events cfg MK_ILI9225_REG_GRAM_RW
  ++ [ gpio_put (gpio_rs cfg) true; gpio_put (gpio_cs cfg) false ].

Definition fill_rect_events (cfg : ili9225_config) (x y w h color : Z) : list event :=
  set_registers_events cfg (rect_batch x y w h)
  ++ write_pixels_start_events cfg
  ++ repeat (spi_write16_blocking (spi cfg) [color]) (Z.to_nat (w * h))
  ++ [ gpio_put (gpio_cs cfg) true ].

Definition blit_events (cfg : ili9225_config) (fbuf : option buffer) (x y w h : Z) : list event :=
  set_registers_events cfg (rect_batch x y w h)
  ++ write_pixels_start_events cfg
  ++ [ spi_write16_blocking (spi cfg) (words_at fbuf (w * h));
       gpio_put (gpio_cs cfg) true ].

(** The ten stages of [ili9225_init] that follow the pin set-up. *)
Definition reset_events (cfg : ili9225_config) : list event :=
  [ gpio_put (gpio_rst cfg) true; gpio_put (gpio_cs cfg) true;
    gpio_put (gpio_rs cfg) false; sleep_ms 1;
    gpio_put (gpio_rst cfg) false; sleep_ms 10;
    gpio_put (gpio_rst cfg) true; sleep_ms 50;
    gpio_put (gpio_led cfg) false ].

Definition startup_events (cfg : ili9225_config) : list event :=
  platform_setup_events cfg
  ++ reset_events cfg
  ++ set_registers_events cfg (map (fun reg => (reg, 0x0000)) power_regs_zeroed)
  ++ [ sleep_ms 40 ]
  ++ set_registers_events cfg power_regs_on
  ++ [ sleep_ms 10 ]
  ++ set_register_events cfg MK_ILI9225_REG_PWR_CTRL2 0x103B
  ++ [ sleep_ms 50 ]
  ++ set_registers_events cfg cmds
  ++ [ sleep_ms 50 ]
  ++ set_register_events cfg MK_ILI9225_REG_DISPLAY_CTRL 0x1017
  ++ [ sleep_ms 50 ]
  ++ [ gpio_put (gpio_led cfg) true ].

(** [get_register] up to the moment the panel answers. *)
Definition read_request_events (cfg : ili9225_config) (reg : Z) : list event :=
  write_register_events cfg reg
  ++ [ gpio_put (gpio_rs cfg) true; gpio_put (gpio_cs cfg) false ].

(** The channel configuration [ili9225_init] leaves in [c]. *)
Definition init_dma_config (config : ili9225_config) (tx : Z) : dma_channel_config :=
  mk_dma_config DMA_SIZE_16 (DREQ_SPI (spi config) true) tx.

(** ** The board of tests/hello-display and tests/hello-dma *)

Definition lcd_config : ili9225_config :=
  mk_config (Some spi0) 19 18 17 20 21 0 22.

(** The driver once [ili9225_init] has copied that configuration. *)
Definition lcd_driver : driver := set_ili9225_cfg lcd_config power_on.

(** A framebuffer whose word [i] is [i]. *)
Definition ramp : buffer := fun i => Z.of_nat i.

(** ** Histories of the driver

    What an application can do with the driver: call its functions, and,
    once [ili9225_set_dma_irq_handler] has installed the handler, have
    the interrupt enter it. *)

Inductive api_call :=
| call_init (config : ili9225_config)
| call_set_dma_irq_handler (num cb : Z)
| call_dma_write (data : option buffer) (len : Z)
| call_set_window (hor_start hor_end vert_start vert_end : Z)
| call_set_x (x : Z)
| call_set_address (x y : Z)
| call_write_pixels (pixels : option buffer) (nmemb : Z)
| call_write_pixels_start
| call_write_pixels_end
| call_display_control (invert : bool) (colour_mode : ili9225_color_mode_e)
| call_power_control (drive_power : Z) (sleep : bool)
| call_set_gate_scan (hor_start hor_end : Z)
| call_set_drive_freq (f : Z)
| call_exit
| call_fill_rect (x y w h color : Z)
| call_fill (color : Z)
| call_pixel (x y color : Z)
| call_blit (fbuf : option buffer) (x y w h : Z).

Definition perform (call : api_call) : M unit :=
  match call with
  | call_init config => ili9225_init config ;; ret tt
  | call_set_dma_irq_handler num cb => ili9225_set_dma_irq_handler num cb
  | call_dma_write data len => ili9225_dma_write data len
  | call_set_window hs he vs ve => ili9225_set_window hs he vs ve
  | call_set_x x => ili9225_set_x x
  | call_set_address x y => ili9225_set_address x y
  | call_write_pixels pixels nmemb => ili9225_write_pixels pixels nmemb
  | call_write_pixels_start => ili9225_write_pixels_start
  | call_write_pixels_end => ili9225_write_pixels_end
  | call_display_control invert colour_mode => ili9225_display_control invert colour_mode
  | call_power_control drive_power sleep => ili9225_power_control drive_power sleep
  | call_set_gate_scan hs he => ili9225_set_gate_scan hs he
  | call_set_drive_freq f => ili9225_set_drive_freq f
  | call_exit => ili9225_exit
  | call_fill_rect x y w h color => ili9225_fill_rect x y w h color
  | call_fill color => ili9225_fill color
  | call_pixel x y color => ili9225_pixel x y color
  | call_blit fbuf x y w h => ili9225_blit fbuf x y w h
  end.

Definition installs_handler (e : event) : bool :=
  match e with
  | irq_set_exclusive_handler _ ISR_ili9225_dma_finish_callback => true
  | _ => false
  end.

(** The interrupt can enter the handler only after a call installed it. *)
Definition handler_installed (s : driver) : bool := existsb installs_handler (log s).

Inductive reachable : driver -> Prop :=
| reach_power_on : reachable power_on
| reach_call call s s' :
    reachable s -> perform call s = Done tt s' -> reachable s'
| reach_interrupt s s' :
    reachable s -> handler_installed s = true ->
    _ili9225_dma_finish_callback s = Done tt s' -> reachable s'.

(** A computation that leaves the interrupt line, the callback slot and
    the installed handler alone. *)
Definition quiet {A} (m : M A) : Prop :=
  forall s a s',
    m s = Done a s' ->
    dma_irq s' = dma_irq s /\
    f_dma_finish_callback s' = f_dma_finish_callback s /\
    handler_installed s' = handler_installed s.

(** The state a call leaves behind. *)
Definition exec {A} (m : M A) (s : driver) : driver :=
  match m s with
  | Done _ s' => s'
  | AssertionFailed s' => s'
  | OutOfFuel => s
  end.

(** tests/hello-dma up to its main loop: [ili9225_init], then
    [ili9225_set_dma_irq_handler DMA_IRQ_0 my_display_flush]. *)
Definition hello_dma_boot (my_display_flush : Z) : driver :=
  exec (ili9225_set_dma_irq_handler DMA_IRQ_0 my_display_flush)
    (exec (ili9225_init lcd_config) power_on).

(** tests/hello-display: one round of the [while (1)] of [main], and the
    first [n] rounds. *)
Definition hello_display_round : M unit :=
  ili9225_fill 0x0000 ;;
  sdk (sleep_ms 1000) ;;
  ili9225_fill 0xffff ;;
  sdk (sleep_ms 1000).

Fixpoint hello_display_rounds (n : nat) : M unit :=
  match n with
  | O => ret tt
  | S n' => hello_display_round ;; hello_display_rounds n'
  end.

Definition hello_display_round_events (cfg : ili9225_config) : list event :=
  fill_rect_events cfg 0 0 220 176 0x0000 ++ [ sleep_ms 1000 ]
  ++ fill_rect_events cfg 0 0 220 176 0xffff ++ [ sleep_ms 1000 ].

(** ** Text

    [ili9225_get_letter] and [ili9225_text] of ili9225.c. *)

(** The [switch] of [ili9225_get_letter]: the eight rows copied into
    [letter], most significant bit leftmost. *)
Definition letter_rows (l : Ascii.ascii) : list Z :=
  match l with
  | "a" | "A" =>
      [ 0x3C; 0x66; 0x66; 0x7E; 0x66; 0x66; 0x66; 0x00 ]
  | "b" | "B" =>
      [ 0x7C; 0x66; 0x66; 0x7C; 0x66; 0x66; 0x7C; 0x00 ]
  | "c" | "C" =>
      [ 0x1E; 0x30; 0x60; 0x60; 0x60; 0x30; 0x1E; 0x00 ]
  | "d" | "D" =>
      [ 0x78; 0x6C; 0x66; 0x66; 0x66; 0x6C; 0x78; 0x00 ]
  | "e" | "E" =>
      [ 0x7E; 0x60; 0x60; 0x78; 0x60; 0x60; 0x7E; 0x00 ]
  | "f" | "F" =>
      [ 0x7E; 0x60; 0x60; 0x78; 0x60; 0x60; 0x60; 0x00 ]
  | "g" | "G" =>
      [ 0x3C; 0x66; 0x60; 0x6E; 0x66; 0x66; 0x3E; 0x00 ]
  | "h" | "H" =>
      [ 0x66; 0x66; 0x66; 0x7E; 0x66; 0x66; 0x66; 0x00 ]
  | "i" | "I" =>
      [ 0x3C; 0x18; 0x18; 0x18; 0x18; 0x18; 0x3C; 0x00 ]
  | "j" | "J" =>
      [ 0x06; 0x06; 0x06; 0x06; 0x06; 0x66; 0x3C; 0x00 ]
  | "k" | "K" =>
      [ 0xC6; 0xCC; 0xD8; 0xF0; 0xD8; 0xCC; 0xC6; 0x00 ]
  | "l" | "L" =>
      [ 0x60; 0x60; 0x60; 0x60; 0x60; 0x60; 0x7E; 0x00 ]
  | "m" | "M" =>
      [ 0xC6; 0xEE; 0xFE; 0xD6; 0xC6; 0xC6; 0xC6; 0x00 ]
  | "n" | "N" =>
      [ 0xC6; 0xE6; 0xF6; 0xDE; 0xCE; 0xC6; 0xC6; 0x00 ]
  | "o" | "O" =>
      [ 0x3C; 0x66; 0x66; 0x66; 0x66; 0x66; 0x3C; 0x00 ]
  | "p" | "P" =>
      [ 0x7C; 0x66; 0x66; 0x7C; 0x60; 0x60; 0x60; 0x00 ]
  | "q" | "Q" =>
      [ 0x78; 0xCC; 0xCC; 0xCC; 0xCC; 0xDC; 0x7E; 0x00 ]
  | "r" | "R" =>
      [ 0x7C; 0x66; 0x66; 0x7C; 0x6C; 0x66; 0x66; 0x00 ]
  | "s" | "S" =>
      [ 0x3C; 0x66; 0x70; 0x3C; 0x0E; 0x66; 0x3C; 0x00 ]
  | "t" | "T" =>
      [ 0x7E; 0x18; 0x18; 0x18; 0x18; 0x18; 0x18; 0x00 ]
  | "u" | "U" =>
      [ 0x66; 0x66; 0x66; 0x66; 0x66; 0x66; 0x3C; 0x00 ]
  | "v" | "V" =>
      [ 0x66; 0x66; 0x66; 0x66; 0x3C; 0x3C; 0x18; 0x00 ]
  | "w" | "W" =>
      [ 0xC6; 0xC6; 0xC6; 0xD6; 0xFE; 0xEE; 0xC6; 0x00 ]
  | "x" | "X" =>
      [ 0xC3; 0x66; 0x3C; 0x18; 0x3C; 0x66; 0xC3; 0x00 ]
  | "y" | "Y" =>
      [ 0xC3; 0x66; 0x3C; 0x18; 0x18; 0x18; 0x18; 0x00 ]
  | "z" | "Z" =>
      [ 0xFE; 0x0C; 0x18; 0x30; 0x60; 0xC0; 0xFE; 0x00 ]
  | "-" =>
      [ 0x00; 0x00; 0x00; 0x7E; 0x00; 0x00; 0x00; 0x00 ]
  | "(" | "[" | "{" =>
      [ 0x0C; 0x18; 0x30; 0x30; 0x30; 0x18; 0x0C; 0x00 ]
  | ")" | "]" | "}" =>
      [ 0x30; 0x18; 0x0C; 0x0C; 0x0C; 0x18; 0x30; 0x00 ]
  | "," =>
      [ 0x00; 0x00; 0x00; 0x00; 0x00; 0x18; 0x18; 0x30 ]
  | "." =>
      [ 0x00; 0x00; 0x00; 0x00; 0x00; 0x18; 0x18; 0x00 ]
  | "!" =>
      [ 0x18; 0x18; 0x18; 0x18; 0x18; 0x00; 0x18; 0x00 ]
  | "&" =>
      [ 0x38; 0x6C; 0x68; 0x76; 0xDC; 0xCE; 0x7B; 0x00 ]
  | "'" =>
      [ 0x18; 0x18; 0x30; 0x00; 0x00; 0x00; 0x00; 0x00 ]
  | "0" =>
      [ 0x3C; 0x66; 0x6E; 0x7E; 0x76; 0x66; 0x3C; 0x00 ]
  | "1" =>
      [ 0x18; 0x38; 0x78; 0x18; 0x18; 0x18; 0x18; 0x00 ]
  | "2" =>
      [ 0x3C; 0x66; 0x06; 0x0C; 0x18; 0x30; 0x7E; 0x00 ]
  | "3" =>
      [ 0x3C; 0x66; 0x06; 0x1C; 0x06; 0x66; 0x3C; 0x00 ]
  | "4" =>
      [ 0x1C; 0x3C; 0x6C; 0xCC; 0xFE; 0x0C; 0x0C; 0x00 ]
  | "5" =>
      [ 0x7E; 0x60; 0x7C; 0x06; 0x06; 0x66; 0x3C; 0x00 ]
  | "6" =>
      [ 0x1C; 0x30; 0x60; 0x7C; 0x66; 0x66; 0x3C; 0x00 ]
  | "7" =>
      [ 0x7E; 0x06; 0x06; 0x0C; 0x18; 0x18; 0x18; 0x00 ]
  | "8" =>
      [ 0x3C; 0x66; 0x66; 0x3C; 0x66; 0x66; 0x3C; 0x00 ]
  | "9" =>
      [ 0x3C; 0x66; 0x66; 0x3E; 0x06; 0x0C; 0x38; 0x00 ]
  | _ =>
      [ 0x00; 0x00; 0x00; 0x00; 0x00; 0x00; 0x00; 0x00 ]
  end%char.

(** [a[i] = v] on an array held as a list; the callers stay in range. *)
Fixpoint store {A} (i : nat) (v : A) (a : list A) : list A :=
  match a, i with
  | [], _ => []
  | _ :: a', O => v :: a'
  | x :: a', S i' => x :: store i' v a'
  end.

(** The inner loop of [ili9225_get_letter]: columns [x], [x + 1], ... of
    line [y], [n] of them, [row] shifted left as a [uint8_t] after each. *)
Fixpoint letter_row (n : nat) (x y row color bgcolor : Z) (fbuf : list Z) : list Z :=
  match n with
  | O => fbuf
  | S n' =>
      let fbuf :=
        if Z.land row 128 =? 0
        then store (Z.to_nat (y * 8 + x)) bgcolor fbuf
        else store (Z.to_nat (y * 8 + x)) color fbuf in
      letter_row n' (x + 1) y (to_uint8 (Z.shiftl row 1)) color bgcolor fbuf
  end.

(** The outer loop: lines [y], [y + 1], ..., [n] of them. *)
Fixpoint letter_lines (n : nat) (y : Z) (letter : list Z) (color bgcolor : Z)
    (fbuf : list Z) : list Z :=
  match n with
  | O => fbuf
  | S n' =>
      let row := nth (Z.to_nat y) letter 0 in
      letter_lines n' (y + 1) letter color bgcolor
        (letter_row 8 0 y row color bgcolor fbuf)
  end.

(** [fbuf] is the caller's array; the result is the array afterwards. *)
Definition ili9225_get_letter (fbuf : list Z) (l : Ascii.ascii) (color bgcolor : Z) : list Z :=
  letter_lines 8 0 (letter_rows l) color bgcolor fbuf.

(** An array passed as a pointer to its first word. *)
Definition pointer_to (a : list Z) : option buffer := Some (fun i => nth i a 0).

(** [strlen]: the characters before the first zero byte; a string
    without one ends at its terminator. *)
Fixpoint strlen (s : String.string) : nat :=
  match s with
  | String.EmptyString => O
  | String.String ch rest => if Ascii.eqb ch Ascii.zero then O else S (strlen rest)
  end.

(** [s[i]]; the byte past the end is the terminating zero. *)
Definition char_at (s : String.string) (i : Z) : Ascii.ascii :=
  match String.get (Z.to_nat i) s with
  | Some ch => ch
  | None => Ascii.zero
  end.

(** The loop of [ili9225_text]: [i] and [x] are [uint8_t], [fbuf] is the
    local array. *)
Fixpoint text_loop (fuel : nat) (s : String.string) (i x y color bgcolor : Z)
    (fbuf : list Z) : M unit :=
  match fuel with
  | O => fun _ => OutOfFuel
  | S fuel' =>
      if i <? Z.of_nat (strlen s) then
        let fbuf := ili9225_get_letter fbuf (char_at s i) color bgcolor in
        ili9225_blit (pointer_to fbuf) x y 8 8 ;;
        let x := to_uint8 (x + 8) in
        if 27 * 8 <? x
        then ret tt
        else text_loop fuel' s (to_uint8 (i + 1)) x y color bgcolor fbuf
      else ret tt
  end.

(** [fbuf] stands for what the uninitialised local array holds on entry.
    Two [uint8_t] counters take 65536 states between them: a loop still
    running after that many rounds never ends. *)
Definition ili9225_text (s : String.string) (x y color bgcolor : Z) (fbuf : list Z) : M unit :=
  text_loop uint16_fuel s 0 x y color bgcolor fbuf.



(** What a glyph looks like, read off its rows: line by line, bit 7 of a
    row first. *)
Definition row_pixels (row color bgcolor : Z) : list Z :=
  map (fun x => if Z.testbit row (7 - x) then color else bgcolor) [0; 1; 2; 3; 4; 5; 6; 7].

Definition glyph (l : Ascii.ascii) (color bgcolor : Z) : list Z :=
  flat_map (fun row => row_pixels row color bgcolor) (letter_rows l).

(** The calls that draw one glyph at column [x]. *)
Definition glyph_events (cfg : ili9225_config) (l : Ascii.ascii) (x y color bgcolor : Z)
    : list event :=
  set_registers_events cfg (rect_batch x y 8 8)
  ++ write_pixels_start_events cfg
  ++ [ spi_write16_blocking (spi cfg) (glyph l color bgcolor);
       gpio_put (gpio_cs cfg) true ].

(** ** More views of a trace *)

(** The calls made between two states of one run. *)
Definition new_events (s s' : driver) : list event :=
  skipn (length (trace s)) (trace s').

(** The level the CS line is left at. *)
Definition cs_after (cfg : ili9225_config) (evs : list event) (b : bus) : bool :=
  cs_level (run_bus cfg evs b).

Definition touches_window (rv : Z * Z) : bool :=
  (fst rv =? MK_ILI9225_REG_ENTRY_MODE)
  || (fst rv =? MK_ILI9225_REG_HORI_WIN_ADDR1) || (fst rv =? MK_ILI9225_REG_HORI_WIN_ADDR2)
  || (fst rv =? MK_ILI9225_REG_VERT_WIN_ADDR1) || (fst rv =? MK_ILI9225_REG_VERT_WIN_ADDR2).

Definition is_spi_write16 (e : event) : bool :=
  match e with
  | spi_write16_blocking _ _ => true
  | _ => false
  end.

(** The calls that keep CS low when they return. *)
Definition keeps_bus (call : api_call) : bool :=
  match call with
  | call_dma_write _ _ => true
  | call_write_pixels_start => true
  | _ => false
  end.

(** Every function ili9225.c defines with external linkage: the calls of
    [api_call] and the rest.  [ili9225_get_letter] writes the caller's
    array and nothing of the driver. *)
Inductive driver_function :=
| fn_call (call : api_call)
| fn_set_rst (state : bool)
| fn_set_rs (state : bool)
| fn_set_cs (state : bool)
| fn_set_led (state : bool)
| fn_spi_write16 (halfwords : option buffer) (len : Z)
| fn_delay_ms (ms : Z)
| fn_read_driving_line
| fn_get_letter (fbuf : list Z) (l : Ascii.ascii) (color bgcolor : Z)
| fn_text (s : String.string) (x y color bgcolor : Z) (fbuf : list Z).

Definition run_function (f : driver_function) : M unit :=
  match f with
  | fn_call call => perform call
  | fn_set_rst state => ili9225_set_rst state
  | fn_set_rs state => ili9225_set_rs state
  | fn_set_cs state => ili9225_set_cs state
  | fn_set_led state => ili9225_set_led state
  | fn_spi_write16 halfwords len => ili9225_spi_write16 halfwords len
  | fn_delay_ms ms => ili9225_delay_ms ms
  | fn_read_driving_line => ili9225_read_driving_line ;; ret tt
  | fn_get_letter fbuf l color bgcolor =>
      let _ := ili9225_get_letter fbuf l color bgcolor in ret tt
  | fn_text s x y color bgcolor fbuf => ili9225_text s x y color bgcolor fbuf
  end.

(** The functions that are there to drive one pin, and those that keep CS
    low when they return. *)
Definition drives_a_pin_or_keeps_bus (f : driver_function) : bool :=
  match f with
  | fn_call call => keeps_bus call
  | fn_set_rst _ | fn_set_rs _ | fn_set_cs _ | fn_set_led _ => true
  | _ => false
  end.

(** * Properties *)

(** ** States and traces *)

Lemma trace_after evs s : trace (after evs s) = trace s ++ evs.
Proof.
  unfold trace, after; simpl.
  now rewrite rev_app_distr, rev_involutive.
Qed.

Lemma after_after evs1 evs2 s : after evs2 (after evs1 s) = after (evs1 ++ evs2) s.
Proof.
  unfold after; simpl.
  now rewrite rev_app_distr, app_assoc.
Qed.

Lemma after_nil s : after [] s = s.
Proof. now destruct s. Qed.

Lemma bind_done {A B} (m : M A) (k : A -> M B) s a s' :
  m s = Done a s' -> bind m k s = k a s'.
Proof. unfold bind; now intros ->. Qed.

(** ** Register protocol *)

Lemma write_register_run cmd s :
  write_register cmd s = Done tt (after (write_register_events (ili9225_cfg s) cmd) s).
Proof. reflexivity. Qed.

Lemma write_data_run dat s :
  write_data dat s = Done tt (after (write_data_events (ili9225_cfg s) dat) s).
Proof. reflexivity. Qed.

Lemma set_register_run reg dat s :
  set_register reg dat s = Done tt (after (set_register_events (ili9225_cfg s) reg dat) s).
Proof. reflexivity. Qed.

(** ** The bus view of the protocol steps *)

Lemma run_bus_app cfg evs1 evs2 b :
  run_bus cfg (evs1 ++ evs2) b = run_bus cfg evs2 (run_bus cfg evs1 b).
Proof. apply fold_left_app. Qed.

Lemma pins_eqb cfg :
  gpio_cs cfg <> gpio_rs cfg ->
  (gpio_cs cfg =? gpio_rs cfg) = false /\ (gpio_rs cfg =? gpio_cs cfg) = false.
Proof. intros H; split; apply Z.eqb_neq; congruence. Qed.

Ltac bus_steps H :=
  destruct (pins_eqb _ H) as [?Hcr ?Hrc];
  unfold run_bus, write_register_events, write_data_events; simpl;
  repeat (rewrite ?Z.eqb_refl, ?Hcr, ?Hrc; simpl).

Lemma run_bus_write_register cfg reg r i cur cl :
  gpio_cs cfg <> gpio_rs cfg ->
  run_bus cfg (write_register_events cfg reg) (mk_bus true r i cur cl)
  = mk_bus true false reg [] (cl ++ [[Index reg]]).
Proof. intros H. bus_steps H. reflexivity. Qed.

Lemma run_bus_write_data cfg dat r i cur cl :
  gpio_cs cfg <> gpio_rs cfg ->
  run_bus cfg (write_data_events cfg dat) (mk_bus true r i cur cl)
  = mk_bus true true i [] (cl ++ [[Write i dat]]).
Proof. intros H. bus_steps H. reflexivity. Qed.

Lemma run_bus_set_register cfg reg dat r i cur cl :
  gpio_cs cfg <> gpio_rs cfg ->
  run_bus cfg (set_register_events cfg reg dat) (mk_bus true r i cur cl)
  = mk_bus true true reg [] (cl ++ [[Index reg]; [Write reg dat]]).
Proof.
  intros H. unfold set_register_events.
  rewrite run_bus_app, run_bus_write_register, run_bus_write_data by assumption.
  now rewrite <- app_assoc.
Qed.

Lemma shift_out_data ws i cur cl :
  fold_left shift_out ws (mk_bus false true i cur cl)
  = mk_bus false true i (cur ++ map (Write i) ws) cl.
Proof.
  revert cur; induction ws as [|w ws IH]; intros cur; simpl.
  - now rewrite app_nil_r.
  - unfold shift_out at 2; simpl. rewrite IH, <- app_assoc. reflexivity.
Qed.

Lemma run_bus_burst cfg inst ws i cur cl :
  run_bus cfg [spi_write16_blocking inst ws] (mk_bus false true i cur cl)
  = mk_bus false true i (cur ++ map (Write i) ws) cl.
Proof. unfold run_bus; simpl. apply shift_out_data. Qed.

Lemma run_bus_repeat cfg inst w n i cur cl :
  run_bus cfg (repeat (spi_write16_blocking inst [w]) n) (mk_bus false true i cur cl)
  = mk_bus false true i (cur ++ repeat (Write i w) n) cl.
Proof.
  revert cur; induction n as [|n IH]; intros cur; simpl.
  - now rewrite app_nil_r.
  - change (run_bus cfg (repeat (spi_write16_blocking inst [w]) n)
              (mk_bus false true i (cur ++ [Write i w]) cl) = 
            mk_bus false true i (cur ++ Write i w :: repeat (Write i w) n) cl).
    rewrite IH, <- app_assoc. reflexivity.
Qed.

Lemma run_bus_open cfg r i cur cl :
  gpio_cs cfg <> gpio_rs cfg ->
  run_bus cfg [gpio_put (gpio_rs cfg) true; gpio_put (gpio_cs cfg) false]
    (mk_bus true r i cur cl)
  = mk_bus false true i [] cl.
Proof. intros H. bus_steps H. reflexivity. Qed.

Lemma run_bus_close cfg r i cur cl :
  gpio_cs cfg <> gpio_rs cfg ->
  run_bus cfg [gpio_put (gpio_cs cfg) true] (mk_bus false r i cur cl)
  = mk_bus true r i [] (cl ++ [cur]).
Proof. intros H. bus_steps H. reflexivity. Qed.

Lemma set_registers_events_cons cfg rd rds :
  set_registers_events cfg (rd :: rds)
  = set_register_events cfg (fst rd) (snd rd) ++ set_registers_events cfg rds.
Proof. reflexivity. Qed.

Lemma batch_transfers_cons rd rds :
  batch_transfers (rd :: rds)
  = [[Index (fst rd)]; [Write (fst rd) (snd rd)]] ++ batch_transfers rds.
Proof. reflexivity. Qed.

Lemma last_cons_default {A} (a : A) l d d' : last (a :: l) d = last (a :: l) d'.
Proof.
  revert a; induction l as [|b l IH]; intros a; [reflexivity|].
  change (last (b :: l) d = last (b :: l) d'). apply IH.
Qed.

Lemma run_bus_set_registers cfg rds r i cl :
  gpio_cs cfg <> gpio_rs cfg ->
  run_bus cfg (set_registers_events cfg rds) (mk_bus true r i [] cl)
  = mk_bus true (match rds with [] => r | _ => true end) (last (map fst rds) i) []
      (cl ++ batch_transfers rds).
Proof.
  intros H. revert r i cl; induction rds as [|rd rds IH]; intros r i cl.
  - simpl. now rewrite app_nil_r.
  - rewrite set_registers_events_cons, batch_transfers_cons.
    rewrite run_bus_app, run_bus_set_register, IH by assumption.
    rewrite <- app_assoc.
    f_equal; destruct rds; try reflexivity.
    simpl map. rewrite (last_cons_default (fst p) _ (fst rd) i). reflexivity.
Qed.

(** ** Running the pixel paths *)

Ltac step L := erewrite bind_done by (apply L); cbv beta.

Lemma ili9225_set_rs_run v s :
  ili9225_set_rs v s = Done tt (after [gpio_put (gpio_rs (ili9225_cfg s)) v] s).
Proof. reflexivity. Qed.

Lemma ili9225_set_cs_run v s :
  ili9225_set_cs v s = Done tt (after [gpio_put (gpio_cs (ili9225_cfg s)) v] s).
Proof. reflexivity. Qed.

Lemma ili9225_spi_write16_run p len s :
  ili9225_spi_write16 p len s
  = Done tt (after [spi_write16_blocking (spi (ili9225_cfg s)) (words_at p len)] s).
Proof. reflexivity. Qed.

Lemma write_pixels_start_run s :
  ili9225_write_pixels_start s
  = Done tt (after (write_pixels_start_events (ili9225_cfg s)) s).
Proof. reflexivity. Qed.

(** The fill loop stops after [bound - i] words, well within its budget. *)
Lemma for_uint16_run color k :
  forall fuel i bound s,
    0 <= i -> k = Z.to_nat (bound - i) -> bound <= 65535 -> (k < fuel)%nat ->
    for_uint16 fuel i bound (ili9225_spi_write16 (address_of color) 1) s
    = Done tt (after (repeat (spi_write16_blocking (spi (ili9225_cfg s)) [color]) k) s).
Proof.
  induction k as [|k IH]; intros fuel i bound s Hi Hk Hb Hf;
    (destruct fuel as [|fuel]; [lia|]); simpl for_uint16.
  - replace (i <? bound) with false by (symmetry; apply Z.ltb_ge; lia).
    simpl repeat. now rewrite after_nil.
  - replace (i <? bound) with true by (symmetry; apply Z.ltb_lt; lia).
    step ili9225_spi_write16_run.
    assert (Hw : to_uint16 (i + 1) = i + 1).
    { unfold to_uint16. apply Z.mod_small. change (2 ^ 16) with 65536. lia. }
    rewrite Hw, IH by lia.
    rewrite after_after. reflexivity.
Qed.

Lemma fill_rect_run x y w h color s :
  w * h <= 65535 ->
  ili9225_fill_rect x y w h color s
  = Done tt (after (fill_rect_events (ili9225_cfg s) x y w h color) s).
Proof.
  intros Hwh. unfold ili9225_fill_rect.
  do 7 step set_register_run.
  step write_register_run. step ili9225_set_rs_run. step ili9225_set_cs_run.
  erewrite bind_done;
    [| apply (for_uint16_run color (Z.to_nat (w * h)));
       [lia | f_equal; lia | lia | unfold uint16_fuel; change (2 ^ 16 + 1) with 65537; lia]].
  rewrite ili9225_set_cs_run, !after_after.
  reflexivity.
Qed.

Lemma blit_run fbuf x y w h s :
  ili9225_blit fbuf x y w h s
  = Done tt (after (blit_events (ili9225_cfg s) fbuf x y w h) s).
Proof. reflexivity. Qed.

(** ** The bus view of the pixel paths *)

Lemma transfers_set_registers cfg rds :
  gpio_cs cfg <> gpio_rs cfg ->
  transfers cfg (set_registers_events cfg rds) = batch_transfers rds.
Proof.
  intros H. unfold transfers, idle_bus.
  now rewrite run_bus_set_registers.
Qed.

Lemma run_bus_write_pixels_start cfg r i cl :
  gpio_cs cfg <> gpio_rs cfg ->
  run_bus cfg (write_pixels_start_events cfg) (mk_bus true r i [] cl)
  = mk_bus false true MK_ILI9225_REG_GRAM_RW [] (cl ++ [[Index MK_ILI9225_REG_GRAM_RW]]).
Proof.
  intros H. unfold write_pixels_start_events.
  now rewrite run_bus_app, run_bus_write_register, run_bus_open.
Qed.

Lemma transfers_fill_rect cfg x y w h color :
  gpio_cs cfg <> gpio_rs cfg ->
  transfers cfg (fill_rect_events cfg x y w h color)
  = batch_transfers (rect_batch x y w h)
    ++ [ [Index MK_ILI9225_REG_GRAM_RW];
         repeat (Write MK_ILI9225_REG_GRAM_RW color) (Z.to_nat (w * h)) ].
Proof.
  intros H. unfold transfers, idle_bus, fill_rect_events.
  rewrite run_bus_app, run_bus_set_registers by assumption.
  rewrite run_bus_app, run_bus_write_pixels_start by assumption.
  rewrite run_bus_app, run_bus_repeat, run_bus_close by assumption.
  cbn [closed]. now rewrite <- app_assoc.
Qed.

Lemma transfers_blit cfg fbuf x y w h :
  gpio_cs cfg <> gpio_rs cfg ->
  transfers cfg (blit_events cfg fbuf x y w h)
  = batch_transfers (rect_batch x y w h)
    ++ [ [Index MK_ILI9225_REG_GRAM_RW];
         map (Write MK_ILI9225_REG_GRAM_RW) (words_at fbuf (w * h)) ].
Proof.
  intros H. unfold transfers, idle_bus, blit_events.
  rewrite run_bus_app, run_bus_set_registers by assumption.
  rewrite run_bus_app, run_bus_write_pixels_start by assumption.
  change [spi_write16_blocking (spi cfg) (words_at fbuf (w * h)); gpio_put (gpio_cs cfg) true]
    with ([spi_write16_blocking (spi cfg) (words_at fbuf (w * h))] ++ [gpio_put (gpio_cs cfg) true]).
  rewrite run_bus_app, run_bus_burst, run_bus_close by assumption.
  cbn [closed]. now rewrite <- app_assoc.
Qed.

Lemma written_batch rds : flat_map (flat_map written) (batch_transfers rds) = rds.
Proof.
  induction rds as [|[reg dat] rds IH]; [reflexivity|].
  rewrite batch_transfers_cons, flat_map_app, IH. reflexivity.
Qed.

Lemma written_repeat reg v n :
  flat_map written (repeat (Write reg v) n) = repeat (reg, v) n.
Proof. induction n as [|n IH]; simpl; [reflexivity | now rewrite IH]. Qed.

Lemma written_map reg ws :
  flat_map written (map (Write reg) ws) = map (pair reg) ws.
Proof. induction ws as [|w ws IH]; simpl; [reflexivity | now rewrite IH]. Qed.

Lemma writes_to_app reg ws1 ws2 :
  writes_to reg (ws1 ++ ws2) = writes_to reg ws1 ++ writes_to reg ws2.
Proof. unfold writes_to. now rewrite filter_app, map_app. Qed.

Lemma writes_to_repeat_other reg reg' v n :
  reg' <> reg -> writes_to reg (repeat (reg', v) n) = [].
Proof.
  intros H. unfold writes_to.
  induction n as [|n IH]; simpl; [reflexivity|].
  now replace (reg' =? reg) with false by (symmetry; apply Z.eqb_neq; exact H).
Qed.

Lemma writes_to_map_other reg reg' ws :
  reg' <> reg -> writes_to reg (map (pair reg') ws) = [].
Proof.
  intros H. unfold writes_to.
  induction ws as [|w ws IH]; simpl; [reflexivity|].
  now replace (reg' =? reg) with false by (symmetry; apply Z.eqb_neq; exact H).
Qed.

Lemma register_writes_fill_rect cfg x y w h color :
  gpio_cs cfg <> gpio_rs cfg ->
  register_writes cfg (fill_rect_events cfg x y w h color)
  = rect_batch x y w h ++ repeat (MK_ILI9225_REG_GRAM_RW, color) (Z.to_nat (w * h)).
Proof.
  intros H. unfold register_writes.
  rewrite transfers_fill_rect, flat_map_app, written_batch by assumption.
  cbn [flat_map written app]. now rewrite written_repeat, app_nil_r.
Qed.

Lemma register_writes_blit cfg fbuf x y w h :
  gpio_cs cfg <> gpio_rs cfg ->
  register_writes cfg (blit_events cfg fbuf x y w h)
  = rect_batch x y w h ++ map (pair MK_ILI9225_REG_GRAM_RW) (words_at fbuf (w * h)).
Proof.
  intros H. unfold register_writes.
  rewrite transfers_blit, flat_map_app, written_batch by assumption.
  cbn [flat_map written app]. now rewrite written_map, app_nil_r.
Qed.

(** ** Conversions to [uint16_t] *)

Lemma to_uint16_small z : 0 <= z < 65536 -> to_uint16 z = z.
Proof. intros H. unfold to_uint16. apply Z.mod_small. change (2 ^ 16) with 65536. lia. Qed.

Lemma to_uint16_negative z : -65536 <= z < 0 -> to_uint16 z = z + 65536.
Proof.
  intros H. unfold to_uint16. change (2 ^ 16) with 65536.
  symmetry. apply Z.mod_unique with (q := -1); lia.
Qed.

(** ** Register protocol *)

(** C7. [set_register addr value] is [write_register addr] followed by
    [write_data value].  The address phase drives RS low, CS low, sends
    one 16-bit word and raises CS; the data phase does the same with RS
    high.  The panel therefore sees two transfers of one word each, CS
    going high between them: the register index, then the value written to
    that register. *)
Theorem set_register_address_then_data reg dat s :
  let cfg := ili9225_cfg s in
  gpio_cs cfg <> gpio_rs cfg ->
  let address_phase :=
    [ gpio_put (gpio_rs cfg) false; gpio_put (gpio_cs cfg) false;
      spi_write16_blocking (spi cfg) [reg]; gpio_put (gpio_cs cfg) true ] in
  let data_phase :=
    [ gpio_put (gpio_rs cfg) true; gpio_put (gpio_cs cfg) false;
      spi_write16_blocking (spi cfg) [dat]; gpio_put (gpio_cs cfg) true ] in
  write_register reg s = Done tt (after address_phase s) /\
  write_data dat s = Done tt (after data_phase s) /\
  set_register reg dat s = Done tt (after (address_phase ++ data_phase) s) /\
  transfers cfg (address_phase ++ data_phase) = [[Index reg]; [Write reg dat]].
Proof.
  intros cfg H address_phase data_phase.
  repeat split.
  change (address_phase ++ data_phase) with (set_registers_events cfg [(reg, dat)]).
  now rewrite transfers_set_registers.
Qed.

(** ** Window and address *)

(** C4. [ili9225_set_window] tests [hor_start < hor_end < SCREEN_SIZE_X]
    and [vert_start < vert_end < SCREEN_SIZE_Y] first.  When the test
    fails the call dies in the assertion with the driver state, and so the
    trace, as it found them: nothing was sent.  When it holds the call
    writes the four window bounds and then the address pointer, set to
    [(hor_start, vert_start)]. *)
Theorem set_window_checked_before_writes hor_start hor_end vert_start vert_end s :
  let cfg := ili9225_cfg s in
  gpio_cs cfg <> gpio_rs cfg ->
  let batch :=
    [ (MK_ILI9225_REG_HORI_WIN_ADDR1, hor_end);
      (MK_ILI9225_REG_HORI_WIN_ADDR2, hor_start);
      (MK_ILI9225_REG_VERT_WIN_ADDR1, vert_end);
      (MK_ILI9225_REG_VERT_WIN_ADDR2, vert_start);
      (MK_ILI9225_REG_RAM_ADDR_SET1, hor_start);
      (MK_ILI9225_REG_RAM_ADDR_SET2, vert_start) ] in
  (hor_start < hor_end < SCREEN_SIZE_X /\ vert_start < vert_end < SCREEN_SIZE_Y ->
   ili9225_set_window hor_start hor_end vert_start vert_end s
   = Done tt (after (set_registers_events cfg batch) s)
   /\ register_writes cfg (set_registers_events cfg batch) = batch)
  /\
  (~ (hor_start < hor_end < SCREEN_SIZE_X /\ vert_start < vert_end < SCREEN_SIZE_Y) ->
   ili9225_set_window hor_start hor_end vert_start vert_end s = AssertionFailed s).
Proof.
  intros cfg H batch. split.
  - intros [[H1 H2] [H3 H4]]. split.
    + unfold ili9225_set_window.
      apply Z.ltb_lt in H1, H2, H3, H4. rewrite H1, H2, H3, H4. reflexivity.
    + unfold register_writes. rewrite transfers_set_registers by assumption.
      apply written_batch.
  - intros Hbad. unfold ili9225_set_window.
    destruct (Z.ltb_spec hor_start hor_end); [|reflexivity].
    destruct (Z.ltb_spec hor_end SCREEN_SIZE_X); [|reflexivity].
    destruct (Z.ltb_spec vert_start vert_end); [|reflexivity].
    destruct (Z.ltb_spec vert_end SCREEN_SIZE_Y); [|reflexivity].
    exfalso. apply Hbad. lia.
Qed.

(** C9. [ili9225_set_address x y] puts [x] in RAM address register 1 and
    [y] in register 2 as they come.  [ili9225_pixel x y color] puts [y] in
    register 1 and the [uint16_t] value of [219 - x] in register 2, which
    is [219 - x] itself for [x] up to 219.  For no byte pair [(x, y)] do
    the two leave the same address pointer. *)
Theorem set_address_and_pixel_conventions x y color s :
  let cfg := ili9225_cfg s in
  gpio_cs cfg <> gpio_rs cfg ->
  is_uint8 x -> is_uint8 y ->
  let address := [ (MK_ILI9225_REG_RAM_ADDR_SET1, x); (MK_ILI9225_REG_RAM_ADDR_SET2, y) ] in
  let pixel :=
    [ (MK_ILI9225_REG_RAM_ADDR_SET1, y);
      (MK_ILI9225_REG_RAM_ADDR_SET2, to_uint16 (219 - x));
      (MK_ILI9225_REG_GRAM_RW, color) ] in
  ili9225_set_address x y s = Done tt (after (set_registers_events cfg address) s) /\
  register_writes cfg (set_registers_events cfg address) = address /\
  ili9225_pixel x y color s = Done tt (after (set_registers_events cfg pixel) s) /\
  register_writes cfg (set_registers_events cfg pixel) = pixel /\
  (x <= 219 -> to_uint16 (219 - x) = 219 - x) /\
  (219 < x -> to_uint16 (219 - x) = 219 - x + 65536) /\
  (x, y) <> (y, to_uint16 (219 - x)).
Proof.
  intros cfg H Hx Hy address pixel. unfold is_uint8 in Hx, Hy.
  change (2 ^ 8) with 256 in Hx, Hy.
  assert (Hsmall : x <= 219 -> to_uint16 (219 - x) = 219 - x)
    by (intros; apply to_uint16_small; lia).
  assert (Hwrap : 219 < x -> to_uint16 (219 - x) = 219 - x + 65536)
    by (intros; apply to_uint16_negative; lia).
  repeat split; try assumption.
  - unfold register_writes. rewrite transfers_set_registers by assumption.
    apply written_batch.
  - unfold register_writes. rewrite transfers_set_registers by assumption.
    apply written_batch.
  - intros E.
    pose proof (f_equal fst E) as E1. pose proof (f_equal snd E) as E2.
    cbn [fst snd] in E1, E2.
    destruct (Z.le_gt_cases x 219) as [Hle | Hgt].
    + rewrite (Hsmall Hle) in E2. lia.
    + rewrite Hwrap in E2; lia.
Qed.

(** ** Synchronous pixel path *)

Lemma read_words_length buf len : length (read_words buf len) = Z.to_nat len.
Proof. unfold read_words. now rewrite length_map, length_seq. Qed.

Lemma data_phase_map reg ws : ws <> [] -> data_phase (map (Write reg) ws) = true.
Proof. destruct ws; [congruence | reflexivity]. Qed.

(** C5. [ili9225_write_pixels buffer n], for a buffer that is not null
    and [n > 0], first selects the GRAM register in a transfer of its own
    with RS low; then, with RS high, CS falls once, the [n] words of the
    buffer go out, and CS rises once.  Of the transfers the panel sees,
    exactly one is in the data phase, and it carries exactly those [n]
    words. *)
Theorem write_pixels_one_data_transfer buf nmemb s :
  let cfg := ili9225_cfg s in
  gpio_cs cfg <> gpio_rs cfg ->
  0 < nmemb ->
  let pixels := read_words buf nmemb in
  let evs :=
    [ gpio_put (gpio_rs cfg) false; gpio_put (gpio_cs cfg) false;
      spi_write16_blocking (spi cfg) [MK_ILI9225_REG_GRAM_RW];
      gpio_put (gpio_cs cfg) true;
      gpio_put (gpio_rs cfg) true; gpio_put (gpio_cs cfg) false;
      spi_write16_blocking (spi cfg) pixels;
      gpio_put (gpio_cs cfg) true ] in
  ili9225_write_pixels (Some buf) nmemb s = Done tt (after evs s) /\
  length pixels = Z.to_nat nmemb /\
  transfers cfg evs
  = [ [Index MK_ILI9225_REG_GRAM_RW]; map (Write MK_ILI9225_REG_GRAM_RW) pixels ] /\
  filter data_phase (transfers cfg evs) = [ map (Write MK_ILI9225_REG_GRAM_RW) pixels ].
Proof.
  intros cfg H Hn pixels evs.
  assert (Htr : transfers cfg evs
                = [ [Index MK_ILI9225_REG_GRAM_RW];
                    map (Write MK_ILI9225_REG_GRAM_RW) pixels ]).
  { unfold transfers, idle_bus.
    change evs with (write_pixels_start_events cfg
                     ++ [spi_write16_blocking (spi cfg) pixels]
                     ++ [gpio_put (gpio_cs cfg) true]).
    rewrite run_bus_app, run_bus_write_pixels_start by assumption.
    rewrite run_bus_app, run_bus_burst, run_bus_close by assumption.
    reflexivity. }
  split; [|split; [|split]].
  - unfold ili9225_write_pixels.
    apply Z.ltb_lt in Hn. rewrite Hn. reflexivity.
  - apply read_words_length.
  - exact Htr.
  - rewrite Htr. cbn [filter]. change (data_phase [Index MK_ILI9225_REG_GRAM_RW]) with false.
    rewrite data_phase_map; [reflexivity|].
    intros E. apply (f_equal (@length Z)) in E.
    unfold pixels in E. rewrite read_words_length in E. simpl in E. lia.
Qed.

Lemma gram_words_repeat v n :
  flat_map gram_word (repeat (Write MK_ILI9225_REG_GRAM_RW v) n) = repeat v n.
Proof. induction n as [|n IH]; [reflexivity|]. simpl repeat. cbn [flat_map]. now rewrite IH. Qed.

Lemma gram_words_batch rds :
  forallb (fun rd => negb (fst rd =? MK_ILI9225_REG_GRAM_RW)) rds = true ->
  flat_map gram_word (concat (batch_transfers rds)) = []
  /\ filter carries_pixels (batch_transfers rds) = [].
Proof.
  induction rds as [|[reg dat] rds IH]; [now split|].
  cbn [forallb fst]. intros Hall. apply andb_true_iff in Hall as [Hreg Hrest].
  apply negb_true_iff in Hreg. destruct (IH Hrest) as [IH1 IH2].
  rewrite batch_transfers_cons. cbn [fst snd]. split.
  - rewrite concat_app, flat_map_app, IH1.
    cbn [concat app flat_map gram_word]. now rewrite Hreg.
  - rewrite filter_app, IH2. unfold carries_pixels.
    cbn [filter app flat_map gram_word]. now rewrite Hreg.
Qed.

Lemma carries_pixels_repeat v n :
  (0 < n)%nat -> carries_pixels (repeat (Write MK_ILI9225_REG_GRAM_RW v) n) = true.
Proof.
  intros Hn. unfold carries_pixels.
  rewrite gram_words_repeat, repeat_length.
  destruct n; [lia | reflexivity].
Qed.

(** A rectangle of [w * h] pixels, for any position and size the loop
    counter can reach. *)
Lemma fill_rect_one_transfer x y w h color s :
  let cfg := ili9225_cfg s in
  gpio_cs cfg <> gpio_rs cfg ->
  0 < w * h <= 65535 ->
  let n := Z.to_nat (w * h) in
  let evs :=
    set_registers_events cfg (rect_batch x y w h)
    ++ write_register_events cfg MK_ILI9225_REG_GRAM_RW
    ++ [ gpio_put (gpio_rs cfg) true; gpio_put (gpio_cs cfg) false ]
    ++ repeat (spi_write16_blocking (spi cfg) [color]) n
    ++ [ gpio_put (gpio_cs cfg) true ] in
  ili9225_fill_rect x y w h color s = Done tt (after evs s) /\
  flat_map gram_word (concat (transfers cfg evs)) = repeat color n /\
  filter carries_pixels (transfers cfg evs)
  = [ repeat (Write MK_ILI9225_REG_GRAM_RW color) n ].
Proof.
  intros cfg H Hwh n evs.
  assert (Hevs : evs = fill_rect_events cfg x y w h color).
  { unfold evs, n, fill_rect_events, write_pixels_start_events.
    now rewrite <- app_assoc. }
  assert (Hrun : ili9225_fill_rect x y w h color s = Done tt (after evs s)).
  { rewrite Hevs. apply fill_rect_run. lia. }
  assert (Htr : transfers cfg evs
                = batch_transfers (rect_batch x y w h)
                  ++ [ [Index MK_ILI9225_REG_GRAM_RW];
                       repeat (Write MK_ILI9225_REG_GRAM_RW color) n ]).
  { rewrite Hevs. now apply transfers_fill_rect. }
  assert (Hn : (0 < n)%nat) by (unfold n; lia).
  destruct (gram_words_batch (rect_batch x y w h) eq_refl) as [Hw Hf].
  clearbody evs n.
  split; [exact Hrun | split].
  - rewrite Htr, concat_app, flat_map_app, Hw.
    cbn [concat app flat_map gram_word]. now rewrite app_nil_r, gram_words_repeat.
  - rewrite Htr, filter_app, Hf.
    cbn [filter app]. rewrite carries_pixels_repeat by assumption.
    reflexivity.
Qed.

(** C8. [ili9225_fill_rect 0 0 220 176 color], which is what
    [ili9225_fill color] calls, returns after sending, behind the window
    set-up and the selection of the GRAM register, one burst: CS falls,
    [220 * 176] words go out one by one, each equal to [color], and CS
    rises.  The panel receives exactly that many GRAM words, all [color],
    and all in one transfer. *)
Theorem fill_full_screen_one_transfer color s :
  let cfg := ili9225_cfg s in
  gpio_cs cfg <> gpio_rs cfg ->
  let n := Z.to_nat (220 * 176) in
  let evs :=
    set_registers_events cfg (rect_batch 0 0 220 176)
    ++ write_register_events cfg MK_ILI9225_REG_GRAM_RW
    ++ [ gpio_put (gpio_rs cfg) true; gpio_put (gpio_cs cfg) false ]
    ++ repeat (spi_write16_blocking (spi cfg) [color]) n
    ++ [ gpio_put (gpio_cs cfg) true ] in
  ili9225_fill_rect 0 0 220 176 color s = Done tt (after evs s) /\
  ili9225_fill color s = Done tt (after evs s) /\
  flat_map gram_word (concat (transfers cfg evs)) = repeat color n /\
  filter carries_pixels (transfers cfg evs)
  = [ repeat (Write MK_ILI9225_REG_GRAM_RW color) n ].
Proof.
  intros cfg H n evs.
  assert (Hwh : 0 < 220 * 176 <= 65535) by lia.
  destruct (fill_rect_one_transfer 0 0 220 176 color s H Hwh) as (Hrun & Hwords & Hone).
  unfold ili9225_fill.
  exact (conj Hrun (conj Hrun (conj Hwords Hone))).
Qed.
Lemma writes_to_rect_batch x y w h :
  writes_to MK_ILI9225_REG_VERT_WIN_ADDR1 (rect_batch x y w h) = [to_uint16 (219 - x)]
  /\ writes_to MK_ILI9225_REG_VERT_WIN_ADDR2 (rect_batch x y w h)
     = [to_uint16 (219 - (x + w - 1))].
Proof. split; reflexivity. Qed.

(** C3. For [x] on the 220-pixel axis and any byte sizes [w], [h],
    [ili9225_fill_rect] and [ili9225_blit] each write the vertical window
    once: [219 - x] to the first vertical-window register and the
    [uint16_t] value of [219 - (x + w - 1)] to the second.  That value is
    [219 - (x + w - 1)] itself as long as the rectangle ends on the screen
    ([x + w <= 220]); past it the negative difference wraps by [65536]. *)
Theorem rect_vertical_window_inverted fbuf x y w h color s :
  let cfg := ili9225_cfg s in
  gpio_cs cfg <> gpio_rs cfg ->
  0 <= x < SCREEN_SIZE_Y ->
  is_uint8 w -> is_uint8 h ->
  let fill := fill_rect_events cfg x y w h color in
  let blit := blit_events cfg fbuf x y w h in
  ili9225_fill_rect x y w h color s = Done tt (after fill s) /\
  ili9225_blit fbuf x y w h s = Done tt (after blit s) /\
  writes_to MK_ILI9225_REG_VERT_WIN_ADDR1 (register_writes cfg fill) = [219 - x] /\
  writes_to MK_ILI9225_REG_VERT_WIN_ADDR2 (register_writes cfg fill)
  = [to_uint16 (219 - (x + w - 1))] /\
  writes_to MK_ILI9225_REG_VERT_WIN_ADDR1 (register_writes cfg blit) = [219 - x] /\
  writes_to MK_ILI9225_REG_VERT_WIN_ADDR2 (register_writes cfg blit)
  = [to_uint16 (219 - (x + w - 1))] /\
  (x + w <= 220 -> to_uint16 (219 - (x + w - 1)) = 219 - (x + w - 1)) /\
  (220 < x + w -> to_uint16 (219 - (x + w - 1)) = 219 - (x + w - 1) + 65536).
Proof.
  intros cfg H Hx Hw Hh fill blit.
  unfold is_uint8 in Hw, Hh. change (2 ^ 8) with 256 in Hw, Hh.
  unfold SCREEN_SIZE_Y in Hx.
  destruct (writes_to_rect_batch x y w h) as [H1 H2].
  assert (Hx' : to_uint16 (219 - x) = 219 - x) by (apply to_uint16_small; lia).
  assert (Hgram1 : MK_ILI9225_REG_GRAM_RW <> MK_ILI9225_REG_VERT_WIN_ADDR1) by discriminate.
  assert (Hgram2 : MK_ILI9225_REG_GRAM_RW <> MK_ILI9225_REG_VERT_WIN_ADDR2) by discriminate.
  split; [apply fill_rect_run; nia|].
  split; [apply blit_run|].
  unfold fill, blit.
  rewrite register_writes_fill_rect, register_writes_blit by assumption.
  rewrite !writes_to_app, H1, H2, Hx'.
  rewrite !writes_to_repeat_other, !writes_to_map_other by assumption.
  repeat split.
  - intros; apply to_uint16_small; lia.
  - intros; apply to_uint16_negative; lia.
Qed.

(** ** Completion of a DMA transfer *)

Lemma dma_write_run data len s :
  ili9225_dma_write data len s
  = Done tt
      (after (write_pixels_start_events (ili9225_cfg s)
              ++ [ dma_channel_configure (dma_tx s) (c s) (spi (ili9225_cfg s)) data len false;
                   dma_start_channel_mask (to_unsigned (Z.shiftl 1 (dma_tx s))) ]) s).
Proof. reflexivity. Qed.

Lemma set_dma_irq_handler_run num cb s :
  num = DMA_IRQ_0 \/ num = DMA_IRQ_1 ->
  exists enable,
    (enable = dma_channel_set_irq0_enabled (dma_tx s) true
     \/ enable = dma_channel_set_irq1_enabled (dma_tx s) true) /\
    ili9225_set_dma_irq_handler num cb s
    = Done tt
        (after [ enable;
                 irq_set_exclusive_handler num ISR_ili9225_dma_finish_callback;
                 irq_set_enabled num true ]
           (set_f_dma_finish_callback cb (set_dma_irq num s))).
Proof.
  intros Hnum. unfold ili9225_set_dma_irq_handler, bind, get.
  destruct (Z.eqb_spec num DMA_IRQ_0) as [E0 | N0].
  - eexists; split; [left; reflexivity | reflexivity].
  - destruct (Z.eqb_spec num DMA_IRQ_1) as [E1 | N1]; [|tauto].
    eexists; split; [right; reflexivity | reflexivity].
Qed.

(** A number that is neither line leaves the driver as it was: no
    handler is installed. *)
Lemma set_dma_irq_handler_other num cb s :
  num <> DMA_IRQ_0 -> num <> DMA_IRQ_1 ->
  ili9225_set_dma_irq_handler num cb s = Done tt s.
Proof.
  intros N0 N1. unfold ili9225_set_dma_irq_handler, bind, get.
  apply Z.eqb_neq in N0, N1. now rewrite N0, N1.
Qed.

(** A registration on one of the two lines fills the slot, selects the
    line and installs the handler. *)
Lemma set_dma_irq_handler_registers num cb s s' :
  num = DMA_IRQ_0 \/ num = DMA_IRQ_1 ->
  ili9225_set_dma_irq_handler num cb s = Done tt s' ->
  f_dma_finish_callback s' = cb /\ dma_irq s' = num /\ handler_installed s' = true.
Proof.
  intros Hnum Hrun.
  destruct (set_dma_irq_handler_run num cb s Hnum) as (enable & _ & E).
  rewrite E in Hrun. injection Hrun as <-. repeat split.
Qed.

Lemma dma_finish_callback_run s :
  let cfg := ili9225_cfg s in
  let flag := to_unsigned (Z.shiftl 1 (dma_tx s)) in
  _ili9225_dma_finish_callback s
  = if dma_irq s =? DMA_IRQ_0 then
      Done tt (after [ gpio_put (gpio_cs cfg) true;
                       dma_channel_set_irq0_enabled (dma_tx s) true;
                       dma_hw_ints0 flag;
                       call_user (f_dma_finish_callback s) ] s)
    else if dma_irq s =? DMA_IRQ_1 then
      Done tt (after [ gpio_put (gpio_cs cfg) true;
                       dma_channel_set_irq0_enabled (dma_tx s) true;
                       dma_hw_ints1 flag;
                       call_user (f_dma_finish_callback s) ] s)
    else
      Done tt (after [ gpio_put (gpio_cs cfg) true ] s).
Proof.
  intros cfg flag.
  unfold _ili9225_dma_finish_callback, bind, get,
    ili9225_write_pixels_end, ili9225_set_cs, sdk, modify; simpl.
  destruct (dma_irq s =? DMA_IRQ_0); [reflexivity|].
  destruct (dma_irq s =? DMA_IRQ_1); reflexivity.
Qed.

(** *** What leaves the registration alone *)

Create HintDb quiet.

Lemma quiet_ret {A} (a : A) : quiet (ret a).
Proof. intros s a' s' E. injection E as _ <-. now repeat split. Qed.

Lemma quiet_bind {A B} (m : M A) (k : A -> M B) :
  quiet m -> (forall a, quiet (k a)) -> quiet (bind m k).
Proof.
  intros Hm Hk s b s' E. unfold bind in E.
  destruct (m s) as [a s1 | s1 |] eqn:Em; try discriminate.
  destruct (Hm _ _ _ Em) as (H1 & H2 & H3).
  destruct (Hk a _ _ _ E) as (K1 & K2 & K3).
  repeat split; congruence.
Qed.

Lemma quiet_get {A} (field : driver -> A) : quiet (get field).
Proof. intros s a s' E. injection E as _ <-. now repeat split. Qed.

Lemma quiet_sdk e : installs_handler e = false -> quiet (sdk e).
Proof.
  intros He s a s' E. injection E as _ <-.
  repeat split. unfold handler_installed, after.
  cbn [log rev app existsb]. now rewrite He.
Qed.

Lemma quiet_assert cond : quiet (assert cond).
Proof.
  intros s a s' E. unfold assert in E.
  destruct cond; [|discriminate]. injection E as _ <-. now repeat split.
Qed.

Lemma quiet_set_ili9225_cfg cfg : quiet (modify (set_ili9225_cfg cfg)).
Proof. intros s a s' E. injection E as _ <-. now repeat split. Qed.

Lemma quiet_set_c f : quiet (modify (fun s => set_c (f s) s)).
Proof. intros s a s' E. injection E as _ <-. now repeat split. Qed.

Lemma quiet_for_each {A} (a : list A) body :
  (forall x, quiet (body x)) -> quiet (for_each a body).
Proof.
  intros Hb. induction a as [|x a IH]; simpl.
  - apply quiet_ret.
  - apply quiet_bind; [apply Hb | intros _; exact IH].
Qed.

Lemma quiet_for_uint16 fuel i bound body :
  quiet body -> quiet (for_uint16 fuel i bound body).
Proof.
  intros Hb. revert i; induction fuel as [|fuel IH]; intros i; simpl.
  - intros s a s' E. discriminate.
  - destruct (i <? bound).
    + apply quiet_bind; [exact Hb | intros _; apply IH].
    + apply quiet_ret.
Qed.

Ltac quiet_step :=
  lazymatch goal with
  | |- quiet (bind _ _) => apply quiet_bind; [|intros ?]
  | |- quiet (ret _) => apply quiet_ret
  | |- quiet (get _) => apply quiet_get
  | |- quiet (assert _) => apply quiet_assert
  | |- quiet (sdk _) => apply quiet_sdk; reflexivity
  | |- quiet (modify (set_ili9225_cfg _)) => apply quiet_set_ili9225_cfg
  | |- quiet (modify (set_c _)) => apply (quiet_set_c (fun _ => _))
  | |- quiet (modify (fun s => set_c _ s)) => apply quiet_set_c
  | |- quiet (for_each _ _) => apply quiet_for_each; intros ?
  | |- quiet (for_uint16 _ _ _ _) => apply quiet_for_uint16
  | |- quiet (if ?b then _ else _) => destruct b
  | |- quiet (let _ := _ in _) => cbv zeta
  end.

Lemma quiet_set_rs v : quiet (ili9225_set_rs v).
Proof. unfold ili9225_set_rs. repeat quiet_step. Qed.

Lemma quiet_set_cs v : quiet (ili9225_set_cs v).
Proof. unfold ili9225_set_cs. repeat quiet_step. Qed.

Lemma quiet_set_rst v : quiet (ili9225_set_rst v).
Proof. unfold ili9225_set_rst. repeat quiet_step. Qed.

Lemma quiet_set_led v : quiet (ili9225_set_led v).
Proof. unfold ili9225_set_led. repeat quiet_step. Qed.

Lemma quiet_spi_write16 p len : quiet (ili9225_spi_write16 p len).
Proof. unfold ili9225_spi_write16. repeat quiet_step. Qed.

Lemma quiet_spi_read16 : quiet ili9225_spi_read16.
Proof. unfold ili9225_spi_read16. repeat quiet_step. Qed.

Lemma quiet_delay_ms ms : quiet (ili9225_delay_ms ms).
Proof. unfold ili9225_delay_ms. repeat quiet_step. Qed.

#[local] Hint Resolve quiet_set_rs quiet_set_cs quiet_set_rst quiet_set_led
  quiet_spi_write16 quiet_spi_read16 quiet_delay_ms : quiet.

Lemma quiet_write_register cmd : quiet (write_register cmd).
Proof. unfold write_register. repeat first [quiet_step | solve [auto with quiet]]. Qed.

Lemma quiet_write_data dat : quiet (write_data dat).
Proof. unfold write_data. repeat first [quiet_step | solve [auto with quiet]]. Qed.

#[local] Hint Resolve quiet_write_register quiet_write_data : quiet.

Lemma quiet_set_register reg dat : quiet (set_register reg dat).
Proof. unfold set_register. repeat first [quiet_step | solve [auto with quiet]]. Qed.

Lemma quiet_get_register reg : quiet (get_register reg).
Proof.
  unfold get_register, read_data. repeat first [quiet_step | solve [auto with quiet]].
Qed.

#[local] Hint Resolve quiet_set_register quiet_get_register : quiet.

Lemma quiet_platform_setup : quiet platform_setup.
Proof. unfold platform_setup. repeat quiet_step. Qed.

#[local] Hint Resolve quiet_platform_setup : quiet.

Lemma quiet_init config : quiet (ili9225_init config).
Proof.
  unfold ili9225_init. repeat first [quiet_step | solve [auto with quiet]].
Qed.

Lemma quiet_write_pixels_start : quiet ili9225_write_pixels_start.
Proof.
  unfold ili9225_write_pixels_start. repeat first [quiet_step | solve [auto with quiet]].
Qed.

Lemma quiet_write_pixels_end : quiet ili9225_write_pixels_end.
Proof. unfold ili9225_write_pixels_end. auto with quiet. Qed.

#[local] Hint Resolve quiet_init quiet_write_pixels_start quiet_write_pixels_end : quiet.

Lemma quiet_dma_finish_callback : quiet _ili9225_dma_finish_callback.
Proof.
  unfold _ili9225_dma_finish_callback. repeat first [quiet_step | solve [auto with quiet]].
Qed.

Lemma quiet_fill_rect x y w h color : quiet (ili9225_fill_rect x y w h color).
Proof.
  unfold ili9225_fill_rect. generalize uint16_fuel; intros fuel.
  repeat first [quiet_step | solve [auto with quiet]].
Qed.

#[local] Hint Resolve quiet_fill_rect : quiet.

Lemma quiet_perform call :
  (forall num cb, call <> call_set_dma_irq_handler num cb) ->
  quiet (perform call).
Proof.
  intros Hcall.
  destruct call; cbn [perform];
    [ | exfalso; eapply Hcall; reflexivity | .. ];
    unfold ili9225_dma_write, ili9225_set_window, ili9225_set_x, ili9225_set_address,
      ili9225_write_pixels, ili9225_display_control, ili9225_power_control,
      ili9225_set_gate_scan, ili9225_set_drive_freq, ili9225_exit, ili9225_fill,
      ili9225_pixel, ili9225_blit;
    repeat first [quiet_step | solve [auto with quiet]].
Qed.

(** Whenever the interrupt can enter the handler, [dma_irq] names one of
    the two lines. *)
Lemma installed_handler_has_line s :
  reachable s -> handler_installed s = true ->
  dma_irq s = DMA_IRQ_0 \/ dma_irq s = DMA_IRQ_1.
Proof.
  induction 1 as [| call s s' Hr IH Hcall | s s' Hr IH Hin Hrun]; intros Hinst.
  - discriminate.
  - assert (Hquiet : (forall num cb, call <> call_set_dma_irq_handler num cb) ->
                     dma_irq s' = DMA_IRQ_0 \/ dma_irq s' = DMA_IRQ_1).
    { intros Hother.
      destruct (quiet_perform call Hother _ _ _ Hcall) as (E1 & _ & E3).
      rewrite E1. apply IH. now rewrite <- E3. }
    destruct call as [| num cb | | | | | | | | | | | | | | | | ];
      try (apply Hquiet; discriminate).
    clear Hquiet. cbn [perform] in Hcall.
    destruct (Z.eq_dec num DMA_IRQ_0) as [E0 | N0];
      [| destruct (Z.eq_dec num DMA_IRQ_1) as [E1 | N1]].
    + destruct (set_dma_irq_handler_run num cb s (or_introl E0)) as (en & _ & Hrun).
      rewrite Hrun in Hcall. injection Hcall as <-. now left.
    + destruct (set_dma_irq_handler_run num cb s (or_intror E1)) as (en & _ & Hrun).
      rewrite Hrun in Hcall. injection Hcall as <-. now right.
    + rewrite set_dma_irq_handler_other in Hcall by assumption.
      injection Hcall as <-. now apply IH.
  - destruct (quiet_dma_finish_callback _ _ _ Hrun) as (E1 & _ & E3).
    rewrite E1. apply IH. now rewrite <- E3.
Qed.

(** C6. Take any state the driver can be in once a call has installed
    the interrupt handler.  [ili9225_dma_write] opens the GRAM transfer,
    arms the channel and returns with CS still low, having made no
    callback.  The interrupt that reports the end of the transfer enters
    the handler once; the handler raises CS (the end-of-write operation),
    acknowledges the channel's pending flag, and only then calls the
    callback held in the slot, so that the whole transfer makes exactly
    one callback. *)
Theorem dma_completion_calls_back_once data len s :
  reachable s ->
  handler_installed s = true ->
  let cfg := ili9225_cfg s in
  let flag := to_unsigned (Z.shiftl 1 (dma_tx s)) in
  exists s1 acknowledge,
    ili9225_dma_write data len s = Done tt s1 /\
    trace s1
    = trace s
      ++ write_register_events cfg MK_ILI9225_REG_GRAM_RW
      ++ [ gpio_put (gpio_rs cfg) true; gpio_put (gpio_cs cfg) false;
           dma_channel_configure (dma_tx s) (c s) (spi cfg) data len false;
           dma_start_channel_mask flag ] /\
    (acknowledge = dma_hw_ints0 flag \/ acknowledge = dma_hw_ints1 flag) /\
    let handler :=
      [ gpio_put (gpio_cs cfg) true;
        dma_channel_set_irq0_enabled (dma_tx s) true;
        acknowledge;
        call_user (f_dma_finish_callback s) ] in
    _ili9225_dma_finish_callback s1 = Done tt (after handler s1) /\
    filter is_call_user (skipn (length (trace s)) (trace (after handler s1)))
    = [ call_user (f_dma_finish_callback s) ].
Proof.
  intros Hreach Hinst cfg flag.
  pose proof (installed_handler_has_line s Hreach Hinst) as Hirq.
  set (s1 := after (write_pixels_start_events cfg
                    ++ [ dma_channel_configure (dma_tx s) (c s) (spi cfg) data len false;
                         dma_start_channel_mask flag ]) s).
  assert (Hack : exists acknowledge,
             (acknowledge = dma_hw_ints0 flag \/ acknowledge = dma_hw_ints1 flag) /\
             _ili9225_dma_finish_callback s1
             = Done tt (after [ gpio_put (gpio_cs cfg) true;
                                dma_channel_set_irq0_enabled (dma_tx s) true;
                                acknowledge;
                                call_user (f_dma_finish_callback s) ] s1)).
  { rewrite dma_finish_callback_run.
    change (dma_irq s1) with (dma_irq s).
    destruct (Z.eqb_spec (dma_irq s) DMA_IRQ_0) as [E0 | N0].
    - exists (dma_hw_ints0 flag). split; [now left | reflexivity].
    - destruct (Z.eqb_spec (dma_irq s) DMA_IRQ_1) as [E1 | N1]; [|tauto].
      exists (dma_hw_ints1 flag). split; [now right | reflexivity]. }
  destruct Hack as (acknowledge & Hwhich & Hrun).
  exists s1, acknowledge.
  split; [apply dma_write_run|].
  split; [unfold s1; rewrite trace_after; unfold write_pixels_start_events;
          now rewrite <- !app_assoc|].
  split; [exact Hwhich|].
  split; [exact Hrun|].
  unfold s1. rewrite !trace_after, <- !app_assoc.
  rewrite skipn_app, skipn_all, Nat.sub_diag.
  destruct Hwhich as [-> | ->]; reflexivity.
Qed.

(** ** Start-up *)

Lemma init_run config s :
  let s0 := set_ili9225_cfg config s in
  let asked :=
    after (startup_events config
           ++ read_request_events config MK_ILI9225_REG_DRIVER_CODE_READ) s0 in
  let id := to_uint16 (chip_answer (trace asked)) in
  ili9225_init config s
  = if MK_ILI9225_READ_AVAILABLE
    then Done (to_unsigned (0x9225 - id))
           (set_c (init_dma_config config (dma_tx s))
              (after [ spi_read16 id; gpio_put (gpio_cs config) true ] asked))
    else Done 0
           (set_c (init_dma_config config (dma_tx s))
              (after (startup_events config) s0)).
Proof.
  intros s0 asked id. unfold ili9225_init.
  destruct MK_ILI9225_READ_AVAILABLE; reflexivity.
Qed.

Lemma skipn_own_length {A} (l l' : list A) : skipn (length l) (l ++ l') = l'.
Proof. now rewrite skipn_app, skipn_all, Nat.sub_diag. Qed.

(** C1. [ili9225_init] returns, and what it does after the pin, clock and
    SPI set-up is, in this order: idle the pins and wait 1 ms; assert
    reset and wait 10 ms; release reset and wait 50 ms; backlight off;
    zero the five power-control registers and wait 40 ms; load them with
    their operating values and wait 10 ms; enable automatic boosting and
    wait 50 ms; write one batch of 32 registers (driver output, AC
    driving, entry mode, display off, blanking, frame cycle, interface,
    oscillator, VCI recycling, the RAM address, gate scan, scroll and
    partial areas, the window, the ten gamma registers, display control)
    and wait 50 ms; switch the display on and wait 50 ms; backlight on.
    Whatever follows (the identification read, when compiled in) sleeps
    no more, so the delays of the call are 1, 10, 50, 40, 10, 50, 50 and
    50 ms in that order. *)
Theorem init_startup_sequence config s :
  exists result s' identification,
    ili9225_init config s = Done result s' /\
    trace s'
    = trace s
      ++ platform_setup_events config
      ++ [ gpio_put (gpio_rst config) true; gpio_put (gpio_cs config) true;
           gpio_put (gpio_rs config) false; sleep_ms 1 ]
      ++ [ gpio_put (gpio_rst config) false; sleep_ms 10 ]
      ++ [ gpio_put (gpio_rst config) true; sleep_ms 50 ]
      ++ [ gpio_put (gpio_led config) false ]
      ++ set_registers_events config
           [ (MK_ILI9225_REG_PWR_CTRL1, 0); (MK_ILI9225_REG_PWR_CTRL2, 0);
             (MK_ILI9225_REG_PWR_CTRL3, 0); (MK_ILI9225_REG_PWR_CTRL4, 0);
             (MK_ILI9225_REG_PWR_CTRL5, 0) ]
      ++ [ sleep_ms 40 ]
      ++ set_registers_events config
           [ (MK_ILI9225_REG_PWR_CTRL2, 0x0018); (MK_ILI9225_REG_PWR_CTRL3, 0x6121);
             (MK_ILI9225_REG_PWR_CTRL4, 0x006F); (MK_ILI9225_REG_PWR_CTRL5, 0x495F);
             (MK_ILI9225_REG_PWR_CTRL1, 0x0800) ]
      ++ [ sleep_ms 10 ]
      ++ set_registers_events config [ (MK_ILI9225_REG_PWR_CTRL2, 0x103B) ]
      ++ [ sleep_ms 50 ]
      ++ set_registers_events config
           [ (MK_ILI9225_REG_DRIVER_OUTPUT_CTRL, 0x011C);
             (MK_ILI9225_REG_LCD_AC_DRIVING_CTRL, 0x0100);
             (MK_ILI9225_REG_ENTRY_MODE, 0x1018);
             (MK_ILI9225_REG_DISPLAY_CTRL, 0x0000);
             (MK_ILI9225_REG_BLANK_PERIOD_CTRL, 0x0808);
             (MK_ILI9225_REG_FRAME_CYCLE_CTRL, 0x1100);
             (MK_ILI9225_REG_INTERFACE_CTRL, 0x0000);
             (MK_ILI9225_REG_OSC_CTRL, 0x0701);
             (MK_ILI9225_REG_VCI_RECYCLING, 0x0020);
             (MK_ILI9225_REG_RAM_ADDR_SET1, 0x0000);
             (MK_ILI9225_REG_RAM_ADDR_SET2, 0x0000);
             (MK_ILI9225_REG_GATE_SCAN_CTRL, 0x0000);
             (MK_ILI9225_REG_VERT_SCROLL_CTRL1, 0x00DB);
             (MK_ILI9225_REG_VERT_SCROLL_CTRL2, 0x0000);
             (MK_ILI9225_REG_VERT_SCROLL_CTRL3, 0x0000);
             (MK_ILI9225_REG_PART_DRIVING_POS1, 0x00DB);
             (MK_ILI9225_REG_PART_DRIVING_POS2, 0x0000);
             (MK_ILI9225_REG_HORI_WIN_ADDR1, 0x00AF);
             (MK_ILI9225_REG_HORI_WIN_ADDR2, 0x0000);
             (MK_ILI9225_REG_VERT_WIN_ADDR1, 0x00DB);
             (MK_ILI9225_REG_VERT_WIN_ADDR2, 0x0000);
             (MK_ILI9225_REG_GAMMA_CTRL1, 0x0000);
             (MK_ILI9225_REG_GAMMA_CTRL2, 0x0808);
             (MK_ILI9225_REG_GAMMA_CTRL3, 0x080A);
             (MK_ILI9225_REG_GAMMA_CTRL4, 0x000A);
             (MK_ILI9225_REG_GAMMA_CTRL5, 0x0A08);
             (MK_ILI9225_REG_GAMMA_CTRL6, 0x0808);
             (MK_ILI9225_REG_GAMMA_CTRL7, 0x0000);
             (MK_ILI9225_REG_GAMMA_CTRL8, 0x0A00);
             (MK_ILI9225_REG_GAMMA_CTRL9, 0x0710);
             (MK_ILI9225_REG_GAMMA_CTRL10, 0x0710);
             (MK_ILI9225_REG_DISPLAY_CTRL, 0x0012) ]
      ++ [ sleep_ms 50 ]
      ++ set_registers_events config [ (MK_ILI9225_REG_DISPLAY_CTRL, 0x1017) ]
      ++ [ sleep_ms 50 ]
      ++ [ gpio_put (gpio_led config) true ]
      ++ identification /\
    delays identification = [] /\
    delays (skipn (length (trace s)) (trace s')) = [1; 10; 50; 40; 10; 50; 50; 50].
Proof.
  rewrite init_run. cbv zeta.
  destruct MK_ILI9225_READ_AVAILABLE.
  - eexists _, _, (write_register_events config MK_ILI9225_REG_DRIVER_CODE_READ
                   ++ [ gpio_put (gpio_rs config) true; gpio_put (gpio_cs config) false;
                        spi_read16 _; gpio_put (gpio_cs config) true ]).
    split; [reflexivity|].
    change (trace (set_c ?c ?s)) with (trace s).
    rewrite !trace_after.
    change (trace (set_ili9225_cfg config s)) with (trace s).
    rewrite <- !app_assoc.
    split; [reflexivity|]. split; [reflexivity|].
    rewrite skipn_own_length. reflexivity.
  - exists 0, (set_c (init_dma_config config (dma_tx s))
                 (after (startup_events config) (set_ili9225_cfg config s))), [].
    split; [reflexivity|].
    change (trace (set_c ?c ?s)) with (trace s).
    rewrite !trace_after.
    change (trace (set_ili9225_cfg config s)) with (trace s).
    split; [rewrite app_nil_r; reflexivity|]. split; [reflexivity|].
    rewrite skipn_own_length. reflexivity.
Qed.

(** * Further properties of the driver *)

(** ** Rectangles *)

Lemma gram_words_map ws :
  flat_map gram_word (map (Write MK_ILI9225_REG_GRAM_RW) ws) = ws.
Proof. induction ws as [|w ws IH]; [reflexivity|]. cbn [map flat_map]. now rewrite IH. Qed.

Lemma carries_pixels_nil : carries_pixels [] = false.
Proof. reflexivity. Qed.

(** X1. For byte sizes [w] and [h], [ili9225_fill_rect] always returns:
    the [uint16_t] counter reaches [w * h] without wrapping.  The panel
    receives exactly [w * h] GRAM words, all [color]; with [w] or [h]
    zero it receives the window set-up and an empty burst. *)
Theorem fill_rect_sends_w_times_h x y w h color s :
  let cfg := ili9225_cfg s in
  gpio_cs cfg <> gpio_rs cfg ->
  is_uint8 w -> is_uint8 h ->
  let evs := fill_rect_events cfg x y w h color in
  ili9225_fill_rect x y w h color s = Done tt (after evs s) /\
  flat_map gram_word (concat (transfers cfg evs)) = repeat color (Z.to_nat (w * h)) /\
  (w = 0 \/ h = 0 -> filter carries_pixels (transfers cfg evs) = []).
Proof.
  intros cfg H Hw Hh evs. unfold is_uint8 in Hw, Hh. change (2 ^ 8) with 256 in Hw, Hh.
  destruct (gram_words_batch (rect_batch x y w h) eq_refl) as [Hwords Hnone].
  split; [apply fill_rect_run; nia|].
  unfold evs. rewrite transfers_fill_rect by assumption. split.
  - rewrite concat_app, flat_map_app, Hwords.
    cbn [concat app flat_map gram_word]. now rewrite app_nil_r, gram_words_repeat.
  - intros Hzero. assert (E : w * h = 0) by nia. rewrite E.
    rewrite filter_app, Hnone. reflexivity.
Qed.

(** X2. [ili9225_blit] sends the first [w * h] words of the framebuffer,
    in order and in one transfer, behind the same window set-up. *)
Theorem blit_sends_the_framebuffer buf x y w h s :
  let cfg := ili9225_cfg s in
  gpio_cs cfg <> gpio_rs cfg ->
  0 < w * h ->
  let evs := blit_events cfg (Some buf) x y w h in
  ili9225_blit (Some buf) x y w h s = Done tt (after evs s) /\
  flat_map gram_word (concat (transfers cfg evs)) = map buf (seq 0 (Z.to_nat (w * h))) /\
  filter carries_pixels (transfers cfg evs)
  = [ map (Write MK_ILI9225_REG_GRAM_RW) (map buf (seq 0 (Z.to_nat (w * h)))) ].
Proof.
  intros cfg H Hwh evs.
  destruct (gram_words_batch (rect_batch x y w h) eq_refl) as [Hwords Hnone].
  split; [apply blit_run|].
  unfold evs. rewrite transfers_blit by assumption.
  change (words_at (Some buf) (w * h)) with (map buf (seq 0 (Z.to_nat (w * h)))).
  split.
  - rewrite concat_app, flat_map_app, Hwords.
    cbn [concat app flat_map gram_word]. now rewrite app_nil_r, gram_words_map.
  - rewrite filter_app, Hnone. cbn [filter app].
    change (carries_pixels [Index MK_ILI9225_REG_GRAM_RW]) with false. cbv iota.
    unfold carries_pixels. rewrite gram_words_map, length_map, length_seq.
    destruct (Z.to_nat (w * h)) eqn:E; [lia | reflexivity].
Qed.

Lemma writes_to_repeat_same reg v n : writes_to reg (repeat (reg, v) n) = repeat v n.
Proof.
  unfold writes_to. induction n as [|n IH]; [reflexivity|].
  cbn [repeat filter fst]. rewrite Z.eqb_refl. cbn [map snd]. now rewrite IH.
Qed.

Lemma writes_to_rect_batch_all x y w h :
  writes_to MK_ILI9225_REG_ENTRY_MODE (rect_batch x y w h) = [0x1018] /\
  writes_to MK_ILI9225_REG_HORI_WIN_ADDR1 (rect_batch x y w h) = [to_uint16 (y + h - 1)] /\
  writes_to MK_ILI9225_REG_HORI_WIN_ADDR2 (rect_batch x y w h) = [y] /\
  writes_to MK_ILI9225_REG_RAM_ADDR_SET1 (rect_batch x y w h) = [y] /\
  writes_to MK_ILI9225_REG_RAM_ADDR_SET2 (rect_batch x y w h) = [to_uint16 (219 - x)].
Proof. repeat split. Qed.

(** X3. For a rectangle that is not empty and lies on the screen
    ([x + w <= 220], [y + h <= 176]), [ili9225_fill_rect] returns, and
    what it writes is a window of exactly [h] by [w] cells inside the
    panel: horizontal bounds [y] and [y + h - 1], vertical bounds
    [219 - (x + w - 1)] and [219 - x], each written once, the address
    pointer on the corner [(y, 219 - x)], and then as many GRAM words as
    the window has cells. *)
Theorem fill_rect_window_on_screen x y w h color s :
  let cfg := ili9225_cfg s in
  gpio_cs cfg <> gpio_rs cfg ->
  0 <= x -> 0 <= y -> 1 <= w -> 1 <= h ->
  x + w <= SCREEN_SIZE_Y -> y + h <= SCREEN_SIZE_X ->
  exists evs,
    ili9225_fill_rect x y w h color s = Done tt (after evs s) /\
    let ws := register_writes cfg evs in
    let hor_start := y in
    let hor_end := y + h - 1 in
    let vert_start := 219 - (x + w - 1) in
    let vert_end := 219 - x in
    writes_to MK_ILI9225_REG_HORI_WIN_ADDR2 ws = [hor_start] /\
    writes_to MK_ILI9225_REG_HORI_WIN_ADDR1 ws = [hor_end] /\
    writes_to MK_ILI9225_REG_VERT_WIN_ADDR2 ws = [vert_start] /\
    writes_to MK_ILI9225_REG_VERT_WIN_ADDR1 ws = [vert_end] /\
    writes_to MK_ILI9225_REG_RAM_ADDR_SET1 ws = [hor_start] /\
    writes_to MK_ILI9225_REG_RAM_ADDR_SET2 ws = [vert_end] /\
    0 <= hor_start <= hor_end /\ hor_end < SCREEN_SIZE_X /\
    0 <= vert_start <= vert_end /\ vert_end < SCREEN_SIZE_Y /\
    (hor_end - hor_start + 1) * (vert_end - vert_start + 1) = w * h /\
    length (writes_to MK_ILI9225_REG_GRAM_RW ws) = Z.to_nat (w * h).
Proof.
  intros cfg H Hx Hy Hw Hh Hxw Hyh.
  unfold SCREEN_SIZE_X, SCREEN_SIZE_Y in *.
  exists (fill_rect_events cfg x y w h color).
  split; [apply fill_rect_run; nia|].
  cbv zeta.
  destruct (writes_to_rect_batch x y w h) as [V1 V2].
  destruct (writes_to_rect_batch_all x y w h) as (_ & H1 & H2 & A1 & A2).
  assert (E1 : to_uint16 (y + h - 1) = y + h - 1) by (apply to_uint16_small; lia).
  assert (E2 : to_uint16 (219 - x) = 219 - x) by (apply to_uint16_small; lia).
  assert (E3 : to_uint16 (219 - (x + w - 1)) = 219 - (x + w - 1))
    by (apply to_uint16_small; lia).
  rewrite register_writes_fill_rect by assumption.
  rewrite !writes_to_app, H1, H2, V1, V2, A1, A2, E1, E2, E3.
  rewrite !writes_to_repeat_other by discriminate.
  repeat split; try lia.
  replace (writes_to MK_ILI9225_REG_GRAM_RW (rect_batch x y w h))
    with (@nil Z) by reflexivity.
  rewrite writes_to_repeat_same. cbn [app]. apply repeat_length.
Qed.

(** X4. Drawing one pixel and filling a one-by-one rectangle at the same
    place differ only by the window set-up: both calls return, and what
    [ili9225_fill_rect x y 1 1 color] writes, with the entry-mode and
    window registers left out, is what [ili9225_pixel x y color] writes.
    [ili9225_pixel] itself never touches the window. *)
Theorem pixel_is_fill_rect_without_window x y color s :
  let cfg := ili9225_cfg s in
  gpio_cs cfg <> gpio_rs cfg ->
  exists pixel_evs rect_evs,
    ili9225_pixel x y color s = Done tt (after pixel_evs s) /\
    ili9225_fill_rect x y 1 1 color s = Done tt (after rect_evs s) /\
    filter touches_window (register_writes cfg pixel_evs) = [] /\
    filter (fun rv => negb (touches_window rv)) (register_writes cfg rect_evs)
    = register_writes cfg pixel_evs /\
    register_writes cfg pixel_evs
    = [ (MK_ILI9225_REG_RAM_ADDR_SET1, y);
        (MK_ILI9225_REG_RAM_ADDR_SET2, to_uint16 (219 - x));
        (MK_ILI9225_REG_GRAM_RW, color) ].
Proof.
  intros cfg H.
  exists (set_registers_events cfg
            [ (MK_ILI9225_REG_RAM_ADDR_SET1, y);
              (MK_ILI9225_REG_RAM_ADDR_SET2, to_uint16 (219 - x));
              (MK_ILI9225_REG_GRAM_RW, color) ]),
         (fill_rect_events cfg x y 1 1 color).
  split; [reflexivity|].
  split; [apply fill_rect_run; lia|].
  rewrite register_writes_fill_rect by assumption.
  unfold register_writes. rewrite transfers_set_registers, written_batch by assumption.
  repeat split.
Qed.

(** ** Synchronous writes *)

(** X5. [ili9225_write_pixels] refuses a null buffer and a count of zero
    before it touches the bus: the call dies in the assertion with the
    driver state, and the trace, as it found them. *)
Theorem write_pixels_rejects_null_and_empty pixels nmemb s :
  pixels = None \/ nmemb <= 0 ->
  ili9225_write_pixels pixels nmemb s = AssertionFailed s.
Proof.
  intros [-> | Hn]; [reflexivity|].
  unfold ili9225_write_pixels.
  destruct pixels; [|reflexivity].
  replace (0 <? nmemb) with false by (symmetry; apply Z.ltb_ge; lia).
  reflexivity.
Qed.

(** ** Registration and completion *)

Lemma new_events_after evs s : new_events s (after evs s) = evs.
Proof. unfold new_events. rewrite trace_after. apply skipn_own_length. Qed.

(** X6. A registration on a number that is neither DMA line is dropped
    without a trace: the call returns, and line, callback slot, interrupt
    controller and trace are as before. *)
Theorem registration_on_unknown_line_is_ignored num cb s :
  num <> DMA_IRQ_0 -> num <> DMA_IRQ_1 ->
  ili9225_set_dma_irq_handler num cb s = Done tt s.
Proof.
  intros N0 N1. unfold ili9225_set_dma_irq_handler, bind, get.
  apply Z.eqb_neq in N0, N1. now rewrite N0, N1.
Qed.

(** X7. There is one callback slot.  After two registrations, on whatever
    lines, the driver holds the second line and the second callback, and
    the completion handler calls the second callback only. *)
Theorem second_registration_replaces_the_first num1 cb1 num2 cb2 s :
  num1 = DMA_IRQ_0 \/ num1 = DMA_IRQ_1 ->
  num2 = DMA_IRQ_0 \/ num2 = DMA_IRQ_1 ->
  exists s1 s2 s3,
    ili9225_set_dma_irq_handler num1 cb1 s = Done tt s1 /\
    ili9225_set_dma_irq_handler num2 cb2 s1 = Done tt s2 /\
    dma_irq s2 = num2 /\ f_dma_finish_callback s2 = cb2 /\
    _ili9225_dma_finish_callback s2 = Done tt s3 /\
    filter is_call_user (new_events s2 s3) = [ call_user cb2 ].
Proof.
  intros H1 H2.
  destruct (set_dma_irq_handler_run num1 cb1 s H1) as (en1 & _ & R1).
  match type of R1 with _ = Done tt ?st => set (s1 := st) in * end.
  destruct (set_dma_irq_handler_run num2 cb2 s1 H2) as (en2 & _ & R2).
  match type of R2 with _ = Done tt ?st => set (s2 := st) in * end.
  assert (Hrun : exists ack,
             is_call_user ack = false /\
             _ili9225_dma_finish_callback s2
             = Done tt (after [ gpio_put (gpio_cs (ili9225_cfg s2)) true;
                                dma_channel_set_irq0_enabled (dma_tx s2) true;
                                ack; call_user cb2 ] s2)).
  { rewrite dma_finish_callback_run. cbv zeta.
    change (dma_irq s2) with num2.
    destruct (Z.eqb_spec num2 DMA_IRQ_0) as [E0 | N0].
    - eexists. split; [|reflexivity]. reflexivity.
    - destruct (Z.eqb_spec num2 DMA_IRQ_1) as [E1 | N1]; [|tauto].
      eexists. split; [|reflexivity]. reflexivity. }
  destruct Hrun as (ack & Hack & Hrun).
  exists s1, s2. eexists.
  split; [exact R1|]. split; [exact R2|].
  split; [reflexivity|]. split; [reflexivity|].
  split; [exact Hrun|].
  rewrite new_events_after. cbn [filter is_call_user]. now rewrite Hack.
Qed.

(** X8. With a callback registered on a line, the handler acknowledges
    the channel on that very line (INTS0 for line 0, INTS1 for line 1)
    and writes one bit, that of channel [dma_tx].  On either line it
    re-enables the channel's interrupt on line 0, and never on line 1. *)
Theorem handler_acknowledges_the_registered_line num cb s :
  DMA_IRQ_0 <> DMA_IRQ_1 ->
  num = DMA_IRQ_0 \/ num = DMA_IRQ_1 ->
  exists s1,
    ili9225_set_dma_irq_handler num cb s = Done tt s1 /\
    _ili9225_dma_finish_callback s1
    = Done tt
        (after [ gpio_put (gpio_cs (ili9225_cfg s)) true;
                 dma_channel_set_irq0_enabled (dma_tx s) true;
                 (if num =? DMA_IRQ_0
                  then dma_hw_ints0 (to_unsigned (Z.shiftl 1 (dma_tx s)))
                  else dma_hw_ints1 (to_unsigned (Z.shiftl 1 (dma_tx s))));
                 call_user cb ] s1).
Proof.
  intros Hlines Hnum.
  destruct (set_dma_irq_handler_run num cb s Hnum) as (en & _ & R).
  eexists. split; [exact R|].
  rewrite dma_finish_callback_run. cbv zeta.
  match goal with |- context [dma_irq ?st =? _] => change (dma_irq st) with num end.
  destruct (Z.eqb_spec num DMA_IRQ_0) as [E0 | N0]; [reflexivity|].
  destruct (Z.eqb_spec num DMA_IRQ_1) as [E1 | N1]; [reflexivity | tauto].
Qed.

(** ** Who holds the bus *)

Lemma cs_high_after_raise cfg b :
  cs_level (bus_step cfg b (gpio_put (gpio_cs cfg) true)) = true.
Proof.
  unfold bus_step. rewrite Z.eqb_refl.
  destruct (gpio_cs cfg =? gpio_rs cfg); unfold drive_cs, drive_rs; cbn [cs_level];
    destruct (cs_level b) eqn:E; cbn [cs_level]; congruence.
Qed.

Lemma released_by_raise cfg evs b :
  cs_after cfg (evs ++ [gpio_put (gpio_cs cfg) true]) b = true.
Proof.
  unfold cs_after. rewrite run_bus_app. apply cs_high_after_raise.
Qed.

Lemma cs_after_app cfg evs1 evs2 b :
  cs_after cfg (evs1 ++ evs2) b = cs_after cfg evs2 (run_bus cfg evs1 b).
Proof. unfold cs_after. now rewrite run_bus_app. Qed.

Lemma set_register_releases cfg reg dat b :
  cs_after cfg (set_register_events cfg reg dat) b = true.
Proof.
  change (set_register_events cfg reg dat)
    with ((write_register_events cfg reg
           ++ [ gpio_put (gpio_rs cfg) true; gpio_put (gpio_cs cfg) false;
                spi_write16_blocking (spi cfg) [dat] ])
          ++ [ gpio_put (gpio_cs cfg) true ]).
  apply released_by_raise.
Qed.

Lemma set_registers_release cfg rds b :
  rds <> [] -> cs_after cfg (set_registers_events cfg rds) b = true.
Proof.
  revert b; induction rds as [|rd rds IH]; intros b Hne; [congruence|].
  rewrite set_registers_events_cons, cs_after_app.
  destruct rds as [|rd' rds].
  - unfold set_registers_events. cbn [flat_map]. unfold cs_after, run_bus. cbn [fold_left].
    apply set_register_releases.
  - apply IH. discriminate.
Qed.

Lemma for_uint16_done color fuel :
  forall i bound s s',
    for_uint16 fuel i bound (ili9225_spi_write16 (address_of color) 1) s = Done tt s' ->
    exists k,
      s' = after (repeat (spi_write16_blocking (spi (ili9225_cfg s)) [color]) k) s.
Proof.
  induction fuel as [|fuel IH]; intros i bound s s' H; simpl in H; [discriminate|].
  destruct (i <? bound).
  - erewrite bind_done in H by apply ili9225_spi_write16_run. cbv beta in H.
    apply IH in H. destruct H as [k ->].
    exists (S k). now rewrite after_after.
  - injection H as <-. exists O. now rewrite after_nil.
Qed.

Lemma fill_rect_done x y w h color s s' :
  ili9225_fill_rect x y w h color s = Done tt s' ->
  exists k,
    s' = after ((set_registers_events (ili9225_cfg s) (rect_batch x y w h)
                 ++ write_pixels_start_events (ili9225_cfg s)
                 ++ repeat (spi_write16_blocking (spi (ili9225_cfg s)) [color]) k)
                ++ [ gpio_put (gpio_cs (ili9225_cfg s)) true ]) s.
Proof.
  unfold ili9225_fill_rect. generalize uint16_fuel. intros fuel H.
  do 7 (erewrite bind_done in H by apply set_register_run; cbv beta in H).
  erewrite bind_done in H by apply write_register_run; cbv beta in H.
  erewrite bind_done in H by apply ili9225_set_rs_run; cbv beta in H.
  erewrite bind_done in H by apply ili9225_set_cs_run; cbv beta in H.
  unfold bind at 1 in H.
  match type of H with
  | match ?m ?st with _ => _ end = _ => destruct (m st) as [[] s1 | s1 |] eqn:E
  end; try discriminate.
  apply for_uint16_done in E. destruct E as [k ->].
  rewrite ili9225_set_cs_run in H. injection H as <-.
  exists k. rewrite !after_after. reflexivity.
Qed.

Lemma raise_keeps_cs_high cfg gpio b :
  cs_level b = true -> cs_level (bus_step cfg b (gpio_put gpio true)) = true.
Proof.
  intros Hb. unfold bus_step.
  destruct (gpio =? gpio_rs cfg), (gpio =? gpio_cs cfg);
    unfold drive_cs, drive_rs; cbn [cs_level]; rewrite ?Hb; cbn [cs_level]; congruence.
Qed.

Lemma startup_releases config b : cs_after config (startup_events config) b = true.
Proof.
  unfold startup_events. rewrite !app_assoc.
  rewrite cs_after_app. unfold cs_after at 1, run_bus at 1. cbn [fold_left].
  apply raise_keeps_cs_high.
  rewrite run_bus_app. unfold run_bus at 1. cbn [fold_left bus_step].
  rewrite run_bus_app. apply set_register_releases.
Qed.

Lemma done_inj {A} (m : M A) s a s1 s' :
  m s = Done a s' -> m s = Done a s1 -> s' = s1.
Proof. intros H1 H2. rewrite H1 in H2. now injection H2. Qed.

Lemma perform_eq call :
  perform call =
  match call with
  | call_init config => ili9225_init config ;; ret tt
  | call_set_dma_irq_handler num cb => ili9225_set_dma_irq_handler num cb
  | call_dma_write data len => ili9225_dma_write data len
  | call_set_window hs he vs ve => ili9225_set_window hs he vs ve
  | call_set_x x => ili9225_set_x x
  | call_set_address x y => ili9225_set_address x y
  | call_write_pixels pixels nmemb => ili9225_write_pixels pixels nmemb
  | call_write_pixels_start => ili9225_write_pixels_start
  | call_write_pixels_end => ili9225_write_pixels_end
  | call_display_control invert colour_mode => ili9225_display_control invert colour_mode
  | call_power_control drive_power sleep => ili9225_power_control drive_power sleep
  | call_set_gate_scan hs he => ili9225_set_gate_scan hs he
  | call_set_drive_freq f => ili9225_set_drive_freq f
  | call_exit => ili9225_exit
  | call_fill_rect x y w h color => ili9225_fill_rect x y w h color
  | call_fill color => ili9225_fill color
  | call_pixel x y color => ili9225_pixel x y color
  | call_blit fbuf x y w h => ili9225_blit fbuf x y w h
  end.
Proof. reflexivity. Qed.

Lemma bind_done_inv {A B} (m : M A) (k : A -> M B) s b s' :
  bind m k s = Done b s' -> exists a s1, m s = Done a s1 /\ k a s1 = Done b s'.
Proof.
  unfold bind. destruct (m s) as [a s1 | s1 |]; try discriminate.
  intros H. now exists a, s1.
Qed.

Lemma fill_eq color : ili9225_fill color = ili9225_fill_rect 0 0 220 176 color.
Proof. reflexivity. Qed.

Lemma init_releases config s r s' b :
  ili9225_init config s = Done r s' ->
  cs_after (ili9225_cfg s') (new_events s s') b = true.
Proof.
  intros Hcall. rewrite init_run in Hcall. cbv zeta in Hcall.
  assert (Hn : forall c0 evs,
             new_events s (set_c c0 (after evs (set_ili9225_cfg config s))) = evs).
  { intros. apply (new_events_after evs (set_ili9225_cfg config s)). }
  assert (Hc : forall c0 evs,
             ili9225_cfg (set_c c0 (after evs (set_ili9225_cfg config s))) = config)
    by reflexivity.
  destruct MK_ILI9225_READ_AVAILABLE.
  - match type of Hcall with
    | Done _ (set_c ?c0 (after ?e2 (after ?e1 ?s0))) = _ =>
        assert (Hs : s' = set_c c0 (after (e1 ++ e2) s0))
          by (rewrite <- after_after; congruence)
    end.
    clear Hcall. rewrite Hs, Hn, Hc.
    change [spi_read16 ?v; gpio_put (gpio_cs config) true]
      with ([spi_read16 v] ++ [gpio_put (gpio_cs config) true]).
    rewrite !app_assoc. apply released_by_raise.
  - assert (Hs : s' = set_c (init_dma_config config (dma_tx s))
                        (after (startup_events config) (set_ili9225_cfg config s)))
      by congruence.
    clear Hcall. rewrite Hs, Hn, Hc. apply startup_releases.
Qed.

Lemma batch_releases (m : M unit) rds s s' b :
  rds <> [] ->
  m s = Done tt (after (set_registers_events (ili9225_cfg s) rds) s) ->
  m s = Done tt s' ->
  cs_after (ili9225_cfg s') (new_events s s') b = true.
Proof.
  intros Hne Hrun Hcall. rewrite (done_inj _ _ _ _ _ Hcall Hrun).
  rewrite new_events_after. now apply set_registers_release.
Qed.

Lemma raise_releases (m : M unit) evs s s' b :
  m s = Done tt (after (evs ++ [gpio_put (gpio_cs (ili9225_cfg s)) true]) s) ->
  m s = Done tt s' ->
  cs_after (ili9225_cfg s') (new_events s s') b = true.
Proof.
  intros Hrun Hcall. rewrite (done_inj _ _ _ _ _ Hcall Hrun).
  rewrite new_events_after. apply released_by_raise.
Qed.

Lemma nothing_keeps_cs (m : M unit) s s' b :
  m s = Done tt s ->
  m s = Done tt s' ->
  cs_level b = true ->
  cs_after (ili9225_cfg s') (new_events s s') b = true.
Proof.
  intros Hrun Hcall Hb. rewrite (done_inj _ _ _ _ _ Hcall Hrun).
  unfold new_events. now rewrite skipn_all.
Qed.

Lemma registration_keeps_cs num cb s s' b :
  ili9225_set_dma_irq_handler num cb s = Done tt s' ->
  cs_level b = true ->
  cs_after (ili9225_cfg s') (new_events s s') b = true.
Proof.
  intros Hcall Hb.
  destruct (Z.eq_dec num DMA_IRQ_0) as [E0 | N0];
    [| destruct (Z.eq_dec num DMA_IRQ_1) as [E1 | N1]].
  - destruct (set_dma_irq_handler_run num cb s (or_introl E0)) as (en & Hen & R).
    rewrite (done_inj _ _ _ _ _ Hcall R).
    rewrite (new_events_after _ (set_f_dma_finish_callback cb (set_dma_irq num s))
             : new_events s _ = _).
    destruct Hen as [-> | ->]; exact Hb.
  - destruct (set_dma_irq_handler_run num cb s (or_intror E1)) as (en & Hen & R).
    rewrite (done_inj _ _ _ _ _ Hcall R).
    rewrite (new_events_after _ (set_f_dma_finish_callback cb (set_dma_irq num s))
             : new_events s _ = _).
    destruct Hen as [-> | ->]; exact Hb.
  - eapply nothing_keeps_cs; [|exact Hcall|exact Hb].
    now apply set_dma_irq_handler_other.
Qed.

Lemma set_window_releases hor_start hor_end vert_start vert_end s s' b :
  ili9225_set_window hor_start hor_end vert_start vert_end s = Done tt s' ->
  cs_after (ili9225_cfg s') (new_events s s') b = true.
Proof.
  intros Hcall.
  apply (batch_releases (ili9225_set_window hor_start hor_end vert_start vert_end)
           [ (MK_ILI9225_REG_HORI_WIN_ADDR1, hor_end);
             (MK_ILI9225_REG_HORI_WIN_ADDR2, hor_start);
             (MK_ILI9225_REG_VERT_WIN_ADDR1, vert_end);
             (MK_ILI9225_REG_VERT_WIN_ADDR2, vert_start);
             (MK_ILI9225_REG_RAM_ADDR_SET1, hor_start);
             (MK_ILI9225_REG_RAM_ADDR_SET2, vert_start) ]);
    [discriminate | | exact Hcall].
  unfold ili9225_set_window in *.
  destruct (hor_start <? hor_end); [|discriminate Hcall].
  destruct (hor_end <? SCREEN_SIZE_X); [|discriminate Hcall].
  destruct (vert_start <? vert_end); [|discriminate Hcall].
  destruct (vert_end <? SCREEN_SIZE_Y); [|discriminate Hcall].
  reflexivity.
Qed.

Lemma write_pixels_releases pixels nmemb s s' b :
  ili9225_write_pixels pixels nmemb s = Done tt s' ->
  cs_after (ili9225_cfg s') (new_events s s') b = true.
Proof.
  intros Hcall.
  apply (raise_releases (ili9225_write_pixels pixels nmemb)
           (write_pixels_start_events (ili9225_cfg s)
            ++ [spi_write16_blocking (spi (ili9225_cfg s)) (words_at pixels nmemb)]));
    [| exact Hcall].
  unfold ili9225_write_pixels in *.
  destruct pixels as [buf|]; [|discriminate Hcall].
  destruct (0 <? nmemb); [|discriminate Hcall].
  reflexivity.
Qed.

Lemma fill_rect_releases x y w h color s s' b :
  ili9225_fill_rect x y w h color s = Done tt s' ->
  cs_after (ili9225_cfg s') (new_events s s') b = true.
Proof.
  intros Hcall. apply fill_rect_done in Hcall. destruct Hcall as [k ->].
  rewrite new_events_after. apply released_by_raise.
Qed.

Lemma blit_releases fbuf x y w h s s' b :
  ili9225_blit fbuf x y w h s = Done tt s' ->
  cs_after (ili9225_cfg s') (new_events s s') b = true.
Proof.
  intros Hcall.
  apply (raise_releases (ili9225_blit fbuf x y w h)
           (set_registers_events (ili9225_cfg s) (rect_batch x y w h)
            ++ write_pixels_start_events (ili9225_cfg s)
            ++ [spi_write16_blocking (spi (ili9225_cfg s)) (words_at fbuf (w * h))]));
    [| exact Hcall].
  rewrite blit_run. unfold blit_events. now rewrite <- !app_assoc.
Qed.

Lemma api_calls_release call s s' b :
  keeps_bus call = false ->
  perform call s = Done tt s' ->
  cs_level b = true ->
  cs_after (ili9225_cfg s') (new_events s s') b = true.
Proof.
  intros Hkeep Hcall Hb. rewrite perform_eq in Hcall.
  destruct call; try discriminate Hkeep; cbv beta iota in Hcall.
  - apply bind_done_inv in Hcall. destruct Hcall as (r & s1 & E & Hret).
    injection Hret as <-. exact (init_releases _ _ _ _ _ E).
  - exact (registration_keeps_cs _ _ _ _ _ Hcall Hb).
  - exact (set_window_releases _ _ _ _ _ _ _ Hcall).
  - apply (batch_releases _ [ (MK_ILI9225_REG_RAM_ADDR_SET1, x) ] _ _ _
             ltac:(discriminate) eq_refl Hcall).
  - apply (batch_releases _ [ (MK_ILI9225_REG_RAM_ADDR_SET1, x);
                              (MK_ILI9225_REG_RAM_ADDR_SET2, y) ] _ _ _
             ltac:(discriminate) eq_refl Hcall).
  - exact (write_pixels_releases _ _ _ _ _ Hcall).
  - exact (raise_releases _ [] _ _ _ eq_refl Hcall).
  - unfold ili9225_display_control in Hcall. cbv zeta in Hcall.
    match type of Hcall with
    | set_register ?reg ?dat s = _ =>
        apply (batch_releases _ [ (reg, dat) ] _ _ _ ltac:(discriminate) eq_refl Hcall)
    end.
  - unfold ili9225_power_control in Hcall. cbv zeta in Hcall.
    match type of Hcall with
    | set_register ?reg ?dat s = _ =>
        apply (batch_releases _ [ (reg, dat) ] _ _ _ ltac:(discriminate) eq_refl Hcall)
    end.
  - unfold ili9225_set_gate_scan in Hcall. cbv zeta in Hcall.
    match type of Hcall with
    | (set_register ?r1 ?d1 ;; set_register ?r2 ?d2) s = _ =>
        apply (batch_releases _ [ (r1, d1); (r2, d2) ] _ _ _
                 ltac:(discriminate) eq_refl Hcall)
    end.
  - unfold ili9225_set_drive_freq in Hcall. cbv zeta in Hcall.
    match type of Hcall with
    | set_register ?reg ?dat s = _ =>
        apply (batch_releases _ [ (reg, dat) ] _ _ _ ltac:(discriminate) eq_refl Hcall)
    end.
  - exact (nothing_keeps_cs _ _ _ _ eq_refl Hcall Hb).
  - exact (fill_rect_releases _ _ _ _ _ _ _ _ Hcall).
  - rewrite fill_eq in Hcall. exact (fill_rect_releases _ _ _ _ _ _ _ _ Hcall).
  - apply (batch_releases _ [ (MK_ILI9225_REG_RAM_ADDR_SET1, y);
                              (MK_ILI9225_REG_RAM_ADDR_SET2, to_uint16 (219 - x));
                              (MK_ILI9225_REG_GRAM_RW, color) ] _ _ _
             ltac:(discriminate) eq_refl Hcall).
  - exact (blit_releases _ _ _ _ _ _ _ _ Hcall).
Qed.

Lemma cs_low_after_fall cfg b :
  cs_level (bus_step cfg b (gpio_put (gpio_cs cfg) false)) = false.
Proof.
  unfold bus_step. rewrite Z.eqb_refl.
  destruct (gpio_cs cfg =? gpio_rs cfg); unfold drive_cs, drive_rs; cbn [cs_level];
    destruct (cs_level b) eqn:E; cbn [cs_level]; congruence.
Qed.

(** X10. [ili9225_dma_write] keeps the bus.  The only word the processor
    itself sends is the GRAM register index: the pixels are left to the
    channel.  When the call returns CS is low, on any board and whatever
    CS was before, and it is the next rise of CS (the handler's, or
    [ili9225_write_pixels_end]) that ends the transfer. *)
Theorem dma_write_keeps_the_bus data len s b :
  let cfg := ili9225_cfg s in
  let evs :=
    [ gpio_put (gpio_rs cfg) false; gpio_put (gpio_cs cfg) false;
      spi_write16_blocking (spi cfg) [MK_ILI9225_REG_GRAM_RW];
      gpio_put (gpio_cs cfg) true;
      gpio_put (gpio_rs cfg) true; gpio_put (gpio_cs cfg) false;
      dma_channel_configure (dma_tx s) (c s) (spi cfg) data len false;
      dma_start_channel_mask (to_unsigned (Z.shiftl 1 (dma_tx s))) ] in
  ili9225_dma_write data len s = Done tt (after evs s) /\
  filter is_spi_write16 evs = [ spi_write16_blocking (spi cfg) [MK_ILI9225_REG_GRAM_RW] ] /\
  cs_after cfg evs b = false /\
  cs_after cfg (evs ++ [ gpio_put (gpio_cs cfg) true ]) b = true.
Proof.
  intros cfg evs. split; [reflexivity|]. split; [reflexivity|]. split.
  - unfold cs_after.
    change evs with
      (([ gpio_put (gpio_rs cfg) false; gpio_put (gpio_cs cfg) false;
          spi_write16_blocking (spi cfg) [MK_ILI9225_REG_GRAM_RW];
          gpio_put (gpio_cs cfg) true; gpio_put (gpio_rs cfg) true ]
        ++ [ gpio_put (gpio_cs cfg) false ])
       ++ [ dma_channel_configure (dma_tx s) (c s) (spi cfg) data len false;
            dma_start_channel_mask (to_unsigned (Z.shiftl 1 (dma_tx s))) ]).
    rewrite run_bus_app. unfold run_bus at 1. cbn [fold_left bus_step].
    rewrite run_bus_app. apply cs_low_after_fall.
  - apply released_by_raise.
Qed.

(** X11. [ili9225_init] leaves the channel configuration that every later
    [ili9225_dma_write] programs: 16-bit transfers, paced by the transmit
    request of the configured SPI, written to that SPI, not started by the
    configuration itself. *)
Theorem dma_write_after_init_is_paced_by_spi config data len s :
  let channel := mk_dma_config DMA_SIZE_16 (DREQ_SPI (spi config) true) (dma_tx s) in
  exists result s1,
    ili9225_init config s = Done result s1 /\
    c s1 = channel /\
    ili9225_dma_write data len s1
    = Done tt
        (after (write_register_events config MK_ILI9225_REG_GRAM_RW
                ++ [ gpio_put (gpio_rs config) true; gpio_put (gpio_cs config) false;
                     dma_channel_configure (dma_tx s) channel (spi config) data len false;
                     dma_start_channel_mask (to_unsigned (Z.shiftl 1 (dma_tx s))) ]) s1).
Proof.
  intros channel. rewrite init_run. cbv zeta.
  destruct MK_ILI9225_READ_AVAILABLE; eexists; eexists;
    (split; [reflexivity|]; split; [reflexivity|]); rewrite dma_write_run; reflexivity.
Qed.

(** ** Reading *)

Lemma read_data_run s :
  let cfg := ili9225_cfg s in
  let value :=
    to_uint16 (chip_answer
                 (trace s ++ [ gpio_put (gpio_rs cfg) true; gpio_put (gpio_cs cfg) false ])) in
  read_data s
  = Done value
      (after [ gpio_put (gpio_rs cfg) true; gpio_put (gpio_cs cfg) false;
               spi_read16 value; gpio_put (gpio_cs cfg) true ] s).
Proof.
  cbv zeta. unfold read_data, ili9225_spi_read16.
  step ili9225_set_rs_run. step ili9225_set_cs_run.
  unfold bind, get, sdk, modify, ret, ili9225_set_cs.
  rewrite !after_after, trace_after. reflexivity.
Qed.

(** X12. In a build with read support, [get_register reg] selects [reg]
    in one transfer and reads one word in the next; what it returns is
    that word, a [uint16_t]. *)
Theorem get_register_reads_the_selected_register reg s :
  let cfg := ili9225_cfg s in
  gpio_cs cfg <> gpio_rs cfg ->
  let request :=
    [ gpio_put (gpio_rs cfg) false; gpio_put (gpio_cs cfg) false;
      spi_write16_blocking (spi cfg) [reg]; gpio_put (gpio_cs cfg) true;
      gpio_put (gpio_rs cfg) true; gpio_put (gpio_cs cfg) false ] in
  let value := to_uint16 (chip_answer (trace s ++ request)) in
  let evs := request ++ [ spi_read16 value; gpio_put (gpio_cs cfg) true ] in
  get_register reg s = Done value (after evs s) /\
  0 <= value < 65536 /\
  transfers cfg evs = [ [Index reg]; [Read reg value] ].
Proof.
  intros cfg H request value evs.
  split; [|split].
  - unfold get_register.
    step write_register_run. rewrite read_data_run.
    cbn [ili9225_cfg after]. rewrite !after_after, !trace_after, <- !app_assoc.
    reflexivity.
  - unfold value, to_uint16. change (2 ^ 16) with 65536. apply Z.mod_pos_bound. lia.
  - unfold transfers, idle_bus.
    change evs with (read_request_events cfg reg
                     ++ [spi_read16 value; gpio_put (gpio_cs cfg) true]).
    unfold read_request_events.
    rewrite <- app_assoc, run_bus_app, run_bus_write_register by assumption.
    change ([gpio_put (gpio_rs cfg) true; gpio_put (gpio_cs cfg) false]
            ++ [spi_read16 value; gpio_put (gpio_cs cfg) true])
      with ([gpio_put (gpio_rs cfg) true; gpio_put (gpio_cs cfg) false]
            ++ [spi_read16 value] ++ [gpio_put (gpio_cs cfg) true]).
    rewrite run_bus_app, run_bus_open by assumption.
    rewrite run_bus_app. unfold run_bus at 2. cbn [fold_left bus_step cs_level].
    cbn [rs_level index_reg current closed app].
    rewrite run_bus_close by assumption. reflexivity.
Qed.

(** X13. In a build with read support, [ili9225_read_driving_line]
    returns the upper byte of the word it reads, a value below 256.  It sends no register index: [read_data]
    drives RS high again before the read, so the word comes, inside one
    CS-low span, from whatever register was selected last. *)
Theorem read_driving_line_reads_the_current_register s r i cl :
  let cfg := ili9225_cfg s in
  gpio_cs cfg <> gpio_rs cfg ->
  let before :=
    [ gpio_put (gpio_rs cfg) false; gpio_put (gpio_cs cfg) false;
      gpio_put (gpio_rs cfg) true; gpio_put (gpio_cs cfg) false ] in
  let word := to_uint16 (chip_answer (trace s ++ before)) in
  let evs :=
    before ++ [ spi_read16 word; gpio_put (gpio_cs cfg) true; gpio_put (gpio_cs cfg) true ] in
  ili9225_read_driving_line s = Done (Z.shiftr word 8) (after evs s) /\
  Z.shiftr word 8 = word / 256 /\
  0 <= Z.shiftr word 8 < 256 /\
  filter is_spi_write16 evs = [] /\
  closed (run_bus cfg evs (mk_bus true r i [] cl)) = cl ++ [ [Read i word] ].
Proof.
  intros cfg H before word evs.
  assert (Hword : 0 <= word < 65536).
  { unfold word, to_uint16. change (2 ^ 16) with 65536. apply Z.mod_pos_bound. lia. }
  assert (Hshift : Z.shiftr word 8 = word / 256).
  { rewrite Z.shiftr_div_pow2 by lia. reflexivity. }
  split; [|split; [exact Hshift|split; [|split]]].
  - unfold ili9225_read_driving_line.
    step ili9225_set_rs_run. step ili9225_set_cs_run.
    step read_data_run. step ili9225_set_cs_run.
    unfold ret. cbn [ili9225_cfg after].
    rewrite !after_after, !trace_after, <- ?app_assoc.
    reflexivity.
  - rewrite Hshift. split.
    + apply Z.div_pos; lia.
    + apply Z.div_lt_upper_bound; lia.
  - reflexivity.
  - destruct (pins_eqb _ H) as [Hcr Hrc].
    unfold evs, before, run_bus. cbn [app fold_left bus_step].
    repeat (rewrite ?Z.eqb_refl, ?Hcr, ?Hrc;
            cbn [drive_rs drive_cs cs_level rs_level index_reg current closed app]).
    reflexivity.
Qed.

(** ** Control registers *)

Lemma lor_shifted_low x b :
  0 <= b < 256 -> Z.lor (Z.shiftl x 8) b = x * 256 + b.
Proof.
  intros Hb.
  assert (Hland : Z.land (Z.shiftl x 8) b = 0).
  { apply Z.bits_inj'. intros n Hn.
    rewrite Z.land_spec, Z.bits_0, Z.shiftl_spec by lia.
    destruct (Z.lt_ge_cases n 8) as [Hlt | Hge].
    - rewrite Z.testbit_neg_r by lia. reflexivity.
    - replace b with (b mod 2 ^ 8) by (apply Z.mod_small; change (2 ^ 8) with 256; lia).
      rewrite Z.mod_pow2_bits_high by lia. apply andb_false_r. }
  rewrite <- Z.lxor_lor, <- Z.add_nocarry_lxor by exact Hland.
  rewrite Z.shiftl_mul_pow2 by lia. reflexivity.
Qed.

(** X14. [ili9225_display_control] writes one word to register 07h.
    Whatever its arguments the display stays on (D = 11b) with the gate
    driver on (GON); REV follows [invert] and CL the colour mode, so the
    word is [0x13 + 4 * invert + 8 * mode]. *)
Theorem display_control_keeps_the_display_on invert colour_mode s :
  let cfg := ili9225_cfg s in
  gpio_cs cfg <> gpio_rs cfg ->
  let dat := 0x0013 + 4 * Z_of_bool invert + 8 * color_mode_value colour_mode in
  let evs := set_register_events cfg MK_ILI9225_REG_DISPLAY_CTRL dat in
  ili9225_display_control invert colour_mode s = Done tt (after evs s) /\
  register_writes cfg evs = [ (MK_ILI9225_REG_DISPLAY_CTRL, dat) ] /\
  Z.land dat 3 = 3 /\ Z.testbit dat 4 = true /\
  Z.testbit dat 2 = invert /\
  Z.testbit dat 3 = (match colour_mode with
                     | ILI9225_COLOR_MODE_FULL => false
                     | ILI9225_COLOR_MODE_8COLOR => true
                     end).
Proof.
  intros cfg H dat evs.
  assert (Hw : register_writes cfg evs = [ (MK_ILI9225_REG_DISPLAY_CTRL, dat) ]).
  { unfold register_writes.
    change evs with (set_registers_events cfg [ (MK_ILI9225_REG_DISPLAY_CTRL, dat) ]).
    rewrite transfers_set_registers by assumption. apply written_batch. }
  split; [|split; [exact Hw|]];
    unfold evs, dat; clear; destruct invert, colour_mode; repeat split.
Qed.

(** X15. [ili9225_set_drive_freq] uses the low four bits of [f] only:
    register 0Fh receives [256 * (f mod 16) + 1], the frequency field with
    the oscillator enable bit set, and [f] and [f + 16] give the same
    word. *)
Theorem set_drive_freq_masks_four_bits f s :
  let cfg := ili9225_cfg s in
  gpio_cs cfg <> gpio_rs cfg ->
  let dat := 256 * (f mod 16) + 1 in
  let evs := set_register_events cfg MK_ILI9225_REG_OSC_CTRL dat in
  ili9225_set_drive_freq f s = Done tt (after evs s) /\
  ili9225_set_drive_freq (f + 16) s = Done tt (after evs s) /\
  register_writes cfg evs = [ (MK_ILI9225_REG_OSC_CTRL, dat) ] /\
  1 <= dat <= 0x0F01.
Proof.
  intros cfg H dat evs.
  assert (Hm : 0 <= f mod 16 < 16) by (apply Z.mod_pos_bound; lia).
  assert (Hword : forall g, g mod 16 = f mod 16 ->
            to_uint16 (Z.lor (to_uint16 (Z.shiftl (to_uint16 (Z.land g 0x000F)) 8)) 1) = dat).
  { intros g Hg.
    change 0x000F with (Z.ones 4). rewrite Z.land_ones by lia.
    change (2 ^ 4) with 16. rewrite Hg.
    rewrite (to_uint16_small (f mod 16)) by lia.
    rewrite Z.shiftl_mul_pow2 by lia. change (2 ^ 8) with 256.
    rewrite (to_uint16_small (f mod 16 * 256)) by lia.
    rewrite <- (Z.shiftl_mul_pow2 _ 8) by lia.
    rewrite lor_shifted_low by lia.
    rewrite to_uint16_small by lia. unfold dat. lia. }
  split; [|split; [|split]].
  - unfold ili9225_set_drive_freq. cbv zeta. rewrite (Hword f eq_refl). reflexivity.
  - unfold ili9225_set_drive_freq. cbv zeta. rewrite (Hword (f + 16)); [reflexivity|].
    replace (f + 16) with (f + 1 * 16) by lia. apply Z.mod_add. lia.
  - unfold register_writes.
    change evs with (set_registers_events cfg [ (MK_ILI9225_REG_OSC_CTRL, dat) ]).
    rewrite transfers_set_registers by assumption. apply written_batch.
  - unfold dat. lia.
Qed.

(** X16. [ili9225_power_control], for a byte [drive_power], packs its
    two arguments into register 10h without loss: the upper byte of the
    word is [drive_power], bit 0 is [sleep].  Bit 1, deep standby, is
    never set. *)
Theorem power_control_packs_its_arguments drive_power sleep s :
  let cfg := ili9225_cfg s in
  gpio_cs cfg <> gpio_rs cfg ->
  is_uint8 drive_power ->
  let dat := 256 * drive_power + Z_of_bool sleep in
  let evs := set_register_events cfg MK_ILI9225_REG_PWR_CTRL1 dat in
  ili9225_power_control drive_power sleep s = Done tt (after evs s) /\
  register_writes cfg evs = [ (MK_ILI9225_REG_PWR_CTRL1, dat) ] /\
  dat / 256 = drive_power /\
  Z.testbit dat 0 = sleep /\
  Z.testbit dat 1 = false.
Proof.
  intros cfg H Hp dat evs. unfold is_uint8 in Hp. change (2 ^ 8) with 256 in Hp.
  assert (Hs : 0 <= Z_of_bool sleep < 2) by (destruct sleep; simpl; lia).
  assert (Hword : to_uint16 (Z.lor (to_uint16 (Z.shiftl drive_power 8)) (Z_of_bool sleep))
                  = dat).
  { rewrite Z.shiftl_mul_pow2 by lia. change (2 ^ 8) with 256.
    rewrite (to_uint16_small (drive_power * 256)) by lia.
    rewrite <- (Z.shiftl_mul_pow2 _ 8) by lia.
    rewrite lor_shifted_low by lia.
    rewrite to_uint16_small by lia. unfold dat. lia. }
  split; [|split; [|split; [|split]]].
  - unfold ili9225_power_control. cbv zeta. rewrite Hword. reflexivity.
  - unfold register_writes.
    change evs with (set_registers_events cfg [ (MK_ILI9225_REG_PWR_CTRL1, dat) ]).
    rewrite transfers_set_registers by assumption. apply written_batch.
  - unfold dat. symmetry. apply Z.div_unique with (r := Z_of_bool sleep); lia.
  - unfold dat. rewrite Z.bit0_odd.
    replace (256 * drive_power + Z_of_bool sleep)
      with (Z_of_bool sleep + 2 * (128 * drive_power)) by lia.
    rewrite Z.odd_add_mul_2. now destruct sleep.
  - unfold dat.
    replace (256 * drive_power + Z_of_bool sleep)
      with (Z_of_bool sleep + (64 * drive_power) * 2 ^ 2) by lia.
    rewrite <- (Z.mod_pow2_bits_low _ 2) by lia.
    rewrite Z.mod_add by lia.
    destruct sleep; reflexivity.
Qed.


(** ** Text *)

Lemma store_app {A} (pre : list A) i v x rest :
  length pre = i -> store i v (pre ++ x :: rest) = pre ++ v :: rest.
Proof.
  revert i; induction pre as [|p pre IH]; intros i Hi; subst i; [reflexivity|].
  cbn [length app store]. now rewrite IH.
Qed.

Lemma top_bit_test row : (Z.land row 128 =? 0) = negb (Z.testbit row 7).
Proof.
  assert (Hbits : forall n, 0 <= n ->
            Z.testbit (Z.land row 128) n = Z.testbit row 7 && (7 =? n)).
  { intros n Hn. rewrite Z.land_spec. change 128 with (2 ^ 7).
    rewrite Z.pow2_bits_eqb by lia.
    destruct (Z.eqb_spec 7 n) as [<- | _]; [reflexivity | now rewrite !andb_false_r]. }
  destruct (Z.testbit row 7) eqn:E; cbn [negb].
  - replace (Z.land row 128) with 128; [reflexivity|].
    apply Z.bits_inj'. intros n Hn. rewrite Hbits by assumption.
    change 128 with (2 ^ 7). now rewrite Z.pow2_bits_eqb by lia.
  - replace (Z.land row 128) with 0; [reflexivity|].
    apply Z.bits_inj'. intros n Hn. rewrite Hbits by assumption. now rewrite Z.bits_0.
Qed.

Lemma shifted_row_bit row k :
  1 <= k < 8 -> Z.testbit (to_uint8 (Z.shiftl row 1)) k = Z.testbit row (k - 1).
Proof.
  intros Hk. unfold to_uint8.
  rewrite Z.mod_pow2_bits_low by lia. now rewrite Z.shiftl_spec by lia.
Qed.

Lemma letter_row_spec n : forall x y row color bgcolor pre cells post,
  0 <= y * 8 + x ->
  length pre = Z.to_nat (y * 8 + x) ->
  length cells = n ->
  (n <= 8)%nat ->
  letter_row n x y row color bgcolor (pre ++ cells ++ post)
  = pre
    ++ map (fun j => if Z.testbit row (7 - Z.of_nat j) then color else bgcolor) (seq 0 n)
    ++ post.
Proof.
  induction n as [|n IH]; intros x y row color bgcolor pre cells post Hpos Hpre Hcells Hn.
  - destruct cells; [reflexivity | discriminate Hcells].
  - destruct cells as [|c0 cells]; [discriminate Hcells|].
    injection Hcells as Hcells.
    cbn [letter_row]. rewrite top_bit_test.
    replace (if negb (Z.testbit row 7)
             then store (Z.to_nat (y * 8 + x)) bgcolor (pre ++ (c0 :: cells) ++ post)
             else store (Z.to_nat (y * 8 + x)) color (pre ++ (c0 :: cells) ++ post))
      with ((pre ++ [if Z.testbit row 7 then color else bgcolor]) ++ cells ++ post).
    2:{ cbn [app]. rewrite <- app_assoc. cbn [app].
        destruct (Z.testbit row 7); cbn [negb];
          now rewrite store_app by exact Hpre. }
    rewrite IH; [| lia | rewrite length_app; cbn [length]; lia | exact Hcells | lia].
    rewrite <- app_assoc. cbn [app seq map]. f_equal. f_equal. f_equal.
    rewrite <- seq_shift, map_map. apply map_ext_in. intros j Hj.
    apply in_seq in Hj.
    rewrite shifted_row_bit by lia.
    replace (7 - Z.of_nat j - 1) with (7 - Z.of_nat (S j)) by lia. reflexivity.
Qed.

Lemma letter_lines_spec n : forall y letter color bgcolor pre cells post,
  0 <= y ->
  length pre = Z.to_nat (y * 8) ->
  length cells = (8 * n)%nat ->
  letter_lines n y letter color bgcolor (pre ++ cells ++ post)
  = pre
    ++ flat_map (fun k => row_pixels (nth k letter 0) color bgcolor) (seq (Z.to_nat y) n)
    ++ post.
Proof.
  induction n as [|n IH]; intros y letter color bgcolor pre cells post Hy Hpre Hcells.
  - destruct cells; [reflexivity | discriminate Hcells].
  - cbn [letter_lines]. cbv zeta.
    rewrite <- (firstn_skipn 8 cells), <- app_assoc.
    rewrite letter_row_spec;
      [| lia | now rewrite Z.add_0_r | rewrite firstn_length_le; lia | lia].
    rewrite app_assoc.
    rewrite IH; [| lia | | rewrite length_skipn; lia].
    2:{ rewrite length_app, length_map, length_seq. lia. }
    rewrite <- app_assoc. cbn [seq flat_map].
    replace (Z.to_nat (y + 1)) with (S (Z.to_nat y)) by lia.
    rewrite <- !app_assoc. reflexivity.
Qed.

Lemma letter_rows_length l : length (letter_rows l) = 8%nat.
Proof. destruct l as [[] [] [] [] [] [] [] []]; reflexivity. Qed.

Lemma glyph_length l color bgcolor : length (glyph l color bgcolor) = 64%nat.
Proof.
  unfold glyph. pose proof (letter_rows_length l) as H.
  destruct (letter_rows l) as [|r0 [|r1 [|r2 [|r3 [|r4 [|r5 [|r6 [|r7 [|]]]]]]]]];
    try discriminate H.
  reflexivity.
Qed.

Lemma get_letter_glyph cells rest l color bgcolor :
  length cells = 64%nat ->
  ili9225_get_letter (cells ++ rest) l color bgcolor = glyph l color bgcolor ++ rest.
Proof.
  intros Hcells. unfold ili9225_get_letter.
  change (cells ++ rest) with ([] ++ cells ++ rest).
  rewrite (letter_lines_spec 8 0 (letter_rows l) color bgcolor [] cells rest);
    [| lia | reflexivity | exact Hcells].
  unfold glyph. pose proof (letter_rows_length l) as H.
  destruct (letter_rows l) as [|r0 [|r1 [|r2 [|r3 [|r4 [|r5 [|r6 [|r7 [|]]]]]]]]];
    try discriminate H.
  reflexivity.
Qed.

(** X17. [ili9225_get_letter] writes the first 64 words of [fbuf] and
    nothing else: afterwards they hold the glyph of [l], line by line with
    bit 7 of each row leftmost, [color] where the bit is set and [bgcolor]
    where it is not.  What the array held before does not show, so the
    uninitialised local array of [ili9225_text] is harmless. *)
Theorem get_letter_writes_the_whole_cell cells rest l color bgcolor :
  length cells = 64%nat ->
  ili9225_get_letter (cells ++ rest) l color bgcolor = glyph l color bgcolor ++ rest /\
  length (glyph l color bgcolor) = 64%nat /\
  (forall x y, (x < 8)%nat -> (y < 8)%nat ->
     nth (y * 8 + x) (ili9225_get_letter (cells ++ rest) l color bgcolor) 0
     = if Z.testbit (nth y (letter_rows l) 0) (7 - Z.of_nat x) then color else bgcolor).
Proof.
  intros Hcells. split; [now apply get_letter_glyph|]. split; [apply glyph_length|].
  intros x y Hx Hy. rewrite get_letter_glyph by assumption.
  rewrite app_nth1 by (rewrite glyph_length; lia).
  unfold glyph. pose proof (letter_rows_length l) as H.
  destruct (letter_rows l) as [|r0 [|r1 [|r2 [|r3 [|r4 [|r5 [|r6 [|r7 [|]]]]]]]]];
    try discriminate H.
  clear H.
  do 8 (destruct y as [|y]; [do 8 (destruct x as [|x]; [reflexivity|]); lia |]).
  lia.
Qed.




Lemma nth_all (a : list Z) n :
  length a = n -> map (fun i => nth i a 0) (seq 0 n) = a.
Proof.
  revert n; induction a as [|v a IH]; intros n Hn; subst n; [reflexivity|].
  cbn [length seq map nth]. f_equal.
  rewrite <- seq_shift, map_map. cbn [nth]. now apply IH.
Qed.

Lemma blit_glyph_run l x y color bgcolor s :
  ili9225_blit (pointer_to (glyph l color bgcolor)) x y 8 8 s
  = Done tt (after (glyph_events (ili9225_cfg s) l x y color bgcolor) s).
Proof.
  rewrite blit_run. unfold blit_events, glyph_events, pointer_to, words_at, read_words.
  change (Z.to_nat (8 * 8)) with 64%nat.
  now rewrite (nth_all (glyph l color bgcolor) 64) by apply glyph_length.
Qed.

Lemma flat_map_seq_succ {A} (f : nat -> list A) n :
  flat_map f (seq 0 (S n)) = f 0%nat ++ flat_map (fun k => f (S k)) (seq 0 n).
Proof.
  cbn [seq flat_map]. f_equal.
  rewrite <- seq_shift, !flat_map_concat_map, map_map. reflexivity.
Qed.

(** The loop from character [i] and column [x <= 216] on: [n] bounds the
    glyphs that still fit. *)
Lemma text_loop_run s y color bgcolor n : forall fuel i x fbuf st,
  (n < fuel)%nat ->
  0 <= i -> i + Z.of_nat n <= 256 ->
  0 <= x -> 216 - 8 * Z.of_nat n < x <= 216 ->
  length fbuf = 64%nat ->
  text_loop fuel s i x y color bgcolor fbuf st
  = Done tt
      (after
         (flat_map (fun k => glyph_events (ili9225_cfg st) (char_at s (i + Z.of_nat k))
                               (x + 8 * Z.of_nat k) y color bgcolor)
            (seq 0 (Z.to_nat (Z.min (Z.of_nat (strlen s) - i) ((216 - x) / 8 + 1)))))
         st).
Proof.
  induction n as [|n IH]; intros fuel i x fbuf st Hfuel Hi Hin Hx0 Hx Hbuf; [lia|].
  destruct fuel as [|fuel]; [lia|].
  cbn [text_loop].
  destruct (Z.ltb_spec i (Z.of_nat (strlen s))) as [Hlt | Hge].
  2:{ replace (Z.to_nat _) with 0%nat by (Z.div_mod_to_equations; lia).
      unfold ret. cbn [seq flat_map]. now rewrite after_nil. }
  cbv zeta.
  rewrite <- (app_nil_r fbuf), get_letter_glyph, app_nil_r by exact Hbuf.
  step blit_glyph_run.
  replace (to_uint8 (x + 8)) with (x + 8)
    by (unfold to_uint8; symmetry; apply Z.mod_small; change (2 ^ 8) with 256; lia).
  change (27 * 8) with 216.
  destruct (Z.ltb_spec 216 (x + 8)) as [Hlast | Hmore].
  - replace (Z.to_nat _) with 1%nat by (Z.div_mod_to_equations; lia).
    unfold ret. cbn [seq flat_map]. rewrite app_nil_r.
    now rewrite Z.mul_0_r, !Z.add_0_r.
  - replace (to_uint8 (i + 1)) with (i + 1)
      by (unfold to_uint8; symmetry; apply Z.mod_small; change (2 ^ 8) with 256; lia).
    rewrite IH; [| lia | lia | lia | lia | lia | apply glyph_length].
    rewrite after_after. cbn [ili9225_cfg after].
    replace (Z.to_nat (Z.min (Z.of_nat (strlen s) - i) ((216 - x) / 8 + 1)))
      with (S (Z.to_nat (Z.min (Z.of_nat (strlen s) - (i + 1))
                           ((216 - (x + 8)) / 8 + 1))))
      by (Z.div_mod_to_equations; lia).
    rewrite flat_map_seq_succ.
    rewrite Z.mul_0_r, !Z.add_0_r.
    do 3 f_equal. apply flat_map_ext. intros k.
    f_equal; [f_equal|]; lia.
Qed.

Lemma enough_fuel_for_text : (29 < uint16_fuel)%nat.
Proof. unfold uint16_fuel. change (2 ^ 16 + 1) with 65537. lia. Qed.

Lemma text_run s x y color bgcolor fbuf st :
  0 <= x <= 216 ->
  length fbuf = 64%nat ->
  ili9225_text s x y color bgcolor fbuf st
  = Done tt
      (after
         (flat_map (fun k => glyph_events (ili9225_cfg st) (char_at s (Z.of_nat k))
                               (x + 8 * Z.of_nat k) y color bgcolor)
            (seq 0 (Z.to_nat (Z.min (Z.of_nat (strlen s)) ((216 - x) / 8 + 1)))))
         st).
Proof.
  intros Hx Hbuf. unfold ili9225_text.
  rewrite (text_loop_run s y color bgcolor 28);
    [| pose proof enough_fuel_for_text; lia | lia | lia | lia | lia | exact Hbuf].
  rewrite Z.sub_0_r. reflexivity.
Qed.

(** X20. [ili9225_text] from a column [x <= 216] returns, and draws the
    characters of [s] from left to right, character [k] as an 8 x 8 glyph
    at column [x + 8 * k] of line [y], until the string ends or the next
    column would lie beyond 216: [min (strlen s) ((216 - x) / 8 + 1)]
    glyphs, never more than 28; the rest of a longer string is dropped. *)
Theorem text_draws_left_to_right s x y color bgcolor fbuf st :
  let cfg := ili9225_cfg st in
  0 <= x <= 27 * 8 ->
  length fbuf = 64%nat ->
  let n := Z.min (Z.of_nat (strlen s)) ((27 * 8 - x) / 8 + 1) in
  ili9225_text s x y color bgcolor fbuf st
  = Done tt
      (after
         (flat_map (fun k => glyph_events cfg (char_at s (Z.of_nat k))
                               (x + 8 * Z.of_nat k) y color bgcolor)
            (seq 0 (Z.to_nat n)))
         st) /\
  n <= 28.
Proof.
  intros cfg Hx Hbuf n. change (27 * 8) with 216 in *. split.
  - now apply text_run.
  - unfold n. Z.div_mod_to_equations; lia.
Qed.

(** X21. [ili9225_text] from a column beyond 216 still draws the first
    character of a string that is not empty, at [x].  From 217 to 247 it stops there.  From 248 on the
    [uint8_t] column wraps: [x + 8] becomes [x - 248], which passes the
    test, and the rest of the string follows from the left edge. *)
Theorem text_beyond_the_last_column_wraps ch rest x y color bgcolor fbuf st :
  let cfg := ili9225_cfg st in
  let s := String.String ch rest in
  ch <> Ascii.zero ->
  27 * 8 < x < 256 ->
  length fbuf = 64%nat ->
  let n := Z.min (Z.of_nat (strlen rest)) ((27 * 8 - (x - 248)) / 8 + 1) in
  ili9225_text s x y color bgcolor fbuf st
  = Done tt
      (after
         (glyph_events cfg ch x y color bgcolor
          ++ (if x <? 248 then []
              else flat_map (fun k => glyph_events cfg (char_at rest (Z.of_nat k))
                                        (x - 248 + 8 * Z.of_nat k) y color bgcolor)
                     (seq 0 (Z.to_nat n))))
         st).
Proof.
  intros cfg s Hch Hx Hbuf n. change (27 * 8) with 216 in *.
  assert (Hlen : strlen s = S (strlen rest)).
  { unfold s. cbn [strlen]. apply Ascii.eqb_neq in Hch. now rewrite Hch. }
  unfold ili9225_text.
  pose proof enough_fuel_for_text as Hfuel.
  destruct uint16_fuel as [|fuel]; [lia|].
  cbn [text_loop].
  destruct (Z.ltb_spec 0 (Z.of_nat (strlen s))) as [_ | Hge];
    [| lia].
  cbv zeta. change (char_at s 0) with ch.
  rewrite <- (app_nil_r fbuf), get_letter_glyph, app_nil_r by exact Hbuf.
  step blit_glyph_run.
  change (27 * 8) with 216.
  destruct (Z.ltb_spec x 248) as [Hlow | Hhigh].
  - replace (to_uint8 (x + 8)) with (x + 8)
      by (unfold to_uint8; symmetry; apply Z.mod_small; change (2 ^ 8) with 256; lia).
    destruct (Z.ltb_spec 216 (x + 8)) as [_ | Hmore]; [| lia].
    unfold ret. now rewrite app_nil_r.
  - replace (to_uint8 (x + 8)) with (x - 248)
      by (unfold to_uint8; apply Z.mod_unique with (q := 1); change (2 ^ 8) with 256; lia).
    destruct (Z.ltb_spec 216 (x - 248)) as [Hlast | _]; [lia|].
    change (to_uint8 (0 + 1)) with 1.
    rewrite (text_loop_run s y color bgcolor 28);
      [| lia | lia | lia | lia | lia | apply glyph_length].
    rewrite after_after. cbn [ili9225_cfg after].
    replace (Z.of_nat (strlen s) - 1) with (Z.of_nat (strlen rest))
      by lia.
    do 3 f_equal. apply flat_map_ext. intros k.
    f_equal. unfold char_at, s.
    replace (Z.to_nat (1 + Z.of_nat k)) with (S k) by lia.
    now rewrite Nat2Z.id.
Qed.


(** *** The text on the bus *)

Lemma run_bus_glyph cfg l x y color bgcolor r i cl :
  gpio_cs cfg <> gpio_rs cfg ->
  run_bus cfg (glyph_events cfg l x y color bgcolor) (mk_bus true r i [] cl)
  = mk_bus true true MK_ILI9225_REG_GRAM_RW []
      (cl ++ batch_transfers (rect_batch x y 8 8)
          ++ [ [Index MK_ILI9225_REG_GRAM_RW];
               map (Write MK_ILI9225_REG_GRAM_RW) (glyph l color bgcolor) ]).
Proof.
  intros H. unfold glyph_events.
  rewrite run_bus_app, run_bus_set_registers by assumption.
  rewrite run_bus_app, run_bus_write_pixels_start by assumption.
  change [spi_write16_blocking (spi cfg) (glyph l color bgcolor); gpio_put (gpio_cs cfg) true]
    with ([spi_write16_blocking (spi cfg) (glyph l color bgcolor)]
          ++ [gpio_put (gpio_cs cfg) true]).
  rewrite run_bus_app, run_bus_burst, run_bus_close by assumption.
  cbn [app]. now rewrite <- !app_assoc.
Qed.

Lemma run_bus_glyphs cfg y color bgcolor (letter : nat -> Ascii.ascii) (column : nat -> Z) ks :
  gpio_cs cfg <> gpio_rs cfg ->
  forall r i cl, exists r' i',
    run_bus cfg
      (flat_map (fun k => glyph_events cfg (letter k) (column k) y color bgcolor) ks)
      (mk_bus true r i [] cl)
    = mk_bus true r' i' []
        (cl ++ flat_map (fun k => batch_transfers (rect_batch (column k) y 8 8)
                                  ++ [ [Index MK_ILI9225_REG_GRAM_RW];
                                       map (Write MK_ILI9225_REG_GRAM_RW)
                                         (glyph (letter k) color bgcolor) ]) ks).
Proof.
  intros H. induction ks as [|k ks IH]; intros r i cl.
  - exists r, i. cbn [flat_map]. now rewrite app_nil_r.
  - cbn [flat_map]. rewrite run_bus_app, run_bus_glyph by assumption.
    destruct (IH true MK_ILI9225_REG_GRAM_RW
                (cl ++ batch_transfers (rect_batch (column k) y 8 8)
                    ++ [ [Index MK_ILI9225_REG_GRAM_RW];
                         map (Write MK_ILI9225_REG_GRAM_RW)
                           (glyph (letter k) color bgcolor) ]))
      as (r' & i' & ->).
    exists r', i'. now rewrite <- !app_assoc.
Qed.

Lemma transfers_glyphs cfg y color bgcolor (letter : nat -> Ascii.ascii) (column : nat -> Z) ks :
  gpio_cs cfg <> gpio_rs cfg ->
  transfers cfg (flat_map (fun k => glyph_events cfg (letter k) (column k) y color bgcolor) ks)
  = flat_map (fun k => batch_transfers (rect_batch (column k) y 8 8)
                       ++ [ [Index MK_ILI9225_REG_GRAM_RW];
                            map (Write MK_ILI9225_REG_GRAM_RW)
                              (glyph (letter k) color bgcolor) ]) ks.
Proof.
  intros H. unfold transfers, idle_bus.
  destruct (run_bus_glyphs cfg y color bgcolor letter column ks H false 0 [])
    as (r' & i' & ->).
  reflexivity.
Qed.

Lemma gram_words_glyphs y color bgcolor (letter : nat -> Ascii.ascii) (column : nat -> Z) ks :
  flat_map gram_word
    (concat (flat_map (fun k => batch_transfers (rect_batch (column k) y 8 8)
                                ++ [ [Index MK_ILI9225_REG_GRAM_RW];
                                     map (Write MK_ILI9225_REG_GRAM_RW)
                                       (glyph (letter k) color bgcolor) ]) ks))
  = flat_map (fun k => glyph (letter k) color bgcolor) ks.
Proof.
  induction ks as [|k ks IH]; [reflexivity|].
  cbn [flat_map]. rewrite !concat_app, !flat_map_app, IH.
  destruct (gram_words_batch (rect_batch (column k) y 8 8) eq_refl) as [-> _].
  cbn [concat app flat_map gram_word]. rewrite app_nil_r, gram_words_map. reflexivity.
Qed.

Lemma writes_to_glyphs reg y color bgcolor (letter : nat -> Ascii.ascii) (column : nat -> Z) ks :
  reg <> MK_ILI9225_REG_GRAM_RW ->
  writes_to reg
    (flat_map (flat_map written)
       (flat_map (fun k => batch_transfers (rect_batch (column k) y 8 8)
                           ++ [ [Index MK_ILI9225_REG_GRAM_RW];
                                map (Write MK_ILI9225_REG_GRAM_RW)
                                  (glyph (letter k) color bgcolor) ]) ks))
  = flat_map (fun k => writes_to reg (rect_batch (column k) y 8 8)) ks.
Proof.
  intros Hreg. induction ks as [|k ks IH]; [reflexivity|].
  cbn [flat_map]. rewrite !flat_map_app, !writes_to_app, IH, written_batch.
  cbn [flat_map written app]. rewrite app_nil_r, written_map.
  rewrite writes_to_map_other by congruence. now rewrite app_nil_r.
Qed.

Lemma flat_map_singleton {A B} (f : A -> B) l : flat_map (fun a => [f a]) l = map f l.
Proof. induction l as [|a l IH]; [reflexivity|]. cbn [flat_map map app]. now rewrite IH. Qed.

Lemma glyphs_length color bgcolor (letter : nat -> Ascii.ascii) ks :
  length (flat_map (fun k => glyph (letter k) color bgcolor) ks) = (64 * length ks)%nat.
Proof.
  induction ks as [|k ks IH]; [reflexivity|].
  cbn [flat_map length]. rewrite length_app, glyph_length, IH. lia.
Qed.

(** X22. What the panel receives from [ili9225_text] started at a column
    [x <= 216]: for each character drawn, in order, a window on line [y]
    whose vertical bounds are written as [219 - column] and the [uint16_t]
    value of [212 - column], then the 64 words of the glyph; and nothing
    else goes to GRAM. *)
Theorem text_reaches_the_panel_glyph_by_glyph s x y color bgcolor fbuf st :
  let cfg := ili9225_cfg st in
  gpio_cs cfg <> gpio_rs cfg ->
  0 <= x <= 27 * 8 ->
  length fbuf = 64%nat ->
  let n := Z.to_nat (Z.min (Z.of_nat (strlen s)) ((27 * 8 - x) / 8 + 1)) in
  let column k := x + 8 * Z.of_nat k in
  exists evs,
    ili9225_text s x y color bgcolor fbuf st = Done tt (after evs st) /\
    flat_map gram_word (concat (transfers cfg evs))
    = flat_map (fun k => glyph (char_at s (Z.of_nat k)) color bgcolor) (seq 0 n) /\
    length (flat_map gram_word (concat (transfers cfg evs))) = (64 * n)%nat /\
    writes_to MK_ILI9225_REG_VERT_WIN_ADDR1 (register_writes cfg evs)
    = map (fun k => 219 - column k) (seq 0 n) /\
    writes_to MK_ILI9225_REG_VERT_WIN_ADDR2 (register_writes cfg evs)
    = map (fun k => to_uint16 (212 - column k)) (seq 0 n) /\
    writes_to MK_ILI9225_REG_HORI_WIN_ADDR2 (register_writes cfg evs) = repeat y n.
Proof.
  intros cfg H Hx Hbuf n column. change (27 * 8) with 216 in *.
  eexists. split; [apply text_run; assumption|].
  fold n. unfold register_writes.
  rewrite (transfers_glyphs (ili9225_cfg st) y color bgcolor
             (fun k => char_at s (Z.of_nat k)) (fun k => x + 8 * Z.of_nat k)) by assumption.
  rewrite gram_words_glyphs, glyphs_length, length_seq.
  rewrite !writes_to_glyphs by discriminate.
  split; [reflexivity|]. split; [reflexivity|]. split; [|split].
  - rewrite (flat_map_ext _ (fun k => [to_uint16 (219 - column k)])).
    + rewrite flat_map_singleton. apply map_ext_in. intros k Hk.
      apply in_seq in Hk. apply to_uint16_small.
      unfold column, n in *. Z.div_mod_to_equations; lia.
    + intros k.
      destruct (writes_to_rect_batch (x + 8 * Z.of_nat k) y 8 8) as [-> _].
      reflexivity.
  - rewrite (flat_map_ext _ (fun k => [to_uint16 (212 - column k)])).
    + apply flat_map_singleton.
    + intros k.
      destruct (writes_to_rect_batch (x + 8 * Z.of_nat k) y 8 8) as [_ ->].
      unfold column. do 2 f_equal. lia.
  - rewrite (flat_map_ext _ (fun k => [y])).
    + now rewrite flat_map_singleton, map_const, length_seq.
    + intros k.
      destruct (writes_to_rect_batch_all (x + 8 * Z.of_nat k) y 8 8) as (_ & _ & -> & _).
      reflexivity.
Qed.

(** X23. The test [x > 27 * 8] of [ili9225_text] lets a last column through,
    between 213 and 216, where an 8-pixel glyph does not fit on the
    220-pixel axis.  When the string is long enough to reach such a column
    (from [x = 0], with 28 characters), the window written for that glyph
    starts below zero: the second vertical-window register receives
    [65748 - column], a value of at least 65532, not a line of the
    panel. *)
Theorem text_overhangs_the_right_edge s x y color bgcolor fbuf st :
  let cfg := ili9225_cfg st in
  gpio_cs cfg <> gpio_rs cfg ->
  0 <= x <= 27 * 8 ->
  length fbuf = 64%nat ->
  (27 * 8 - x) mod 8 < 4 ->
  (27 * 8 - x) / 8 < Z.of_nat (strlen s) ->
  let column := 27 * 8 - (27 * 8 - x) mod 8 in
  exists evs,
    ili9225_text s x y color bgcolor fbuf st = Done tt (after evs st) /\
    212 < column <= 216 /\
    In (65748 - column)
       (writes_to MK_ILI9225_REG_VERT_WIN_ADDR2 (register_writes cfg evs)) /\
    SCREEN_SIZE_Y <= 65532 <= 65748 - column.
Proof.
  intros cfg H Hx Hbuf Hmod Hlen column. change (27 * 8) with 216 in *.
  assert (Hcol : 212 < column <= 216).
  { unfold column. pose proof (Z.mod_pos_bound (216 - x) 8). lia. }
  eexists. split; [apply text_run; assumption|].
  split; [exact Hcol|]. split; [|unfold SCREEN_SIZE_Y; lia].
  unfold register_writes.
  rewrite (transfers_glyphs (ili9225_cfg st) y color bgcolor
             (fun k => char_at s (Z.of_nat k)) (fun k => x + 8 * Z.of_nat k)) by assumption.
  rewrite writes_to_glyphs by discriminate.
  apply in_flat_map. exists (Z.to_nat ((216 - x) / 8)). split.
  - apply in_seq. Z.div_mod_to_equations; lia.
  - destruct (writes_to_rect_batch (x + 8 * Z.of_nat (Z.to_nat ((216 - x) / 8))) y 8 8)
      as [_ ->].
    left. unfold to_uint16. change (2 ^ 16) with 65536.
    symmetry. apply Z.mod_unique with (q := -1); unfold column;
      Z.div_mod_to_equations; lia.
Qed.


(** ** Streaming pixels *)

Lemma stream_run (chunks : list (buffer * Z)) : forall s,
  fold_right (fun ch rest => ili9225_spi_write16 (Some (fst ch)) (snd ch) ;; rest)
    ili9225_write_pixels_end chunks s
  = Done tt
      (after (map (fun ch => spi_write16_blocking (spi (ili9225_cfg s))
                               (read_words (fst ch) (snd ch))) chunks
              ++ [ gpio_put (gpio_cs (ili9225_cfg s)) true ]) s).
Proof.
  induction chunks as [|ch chunks IH]; intros s; [reflexivity|].
  cbn [fold_right map]. step ili9225_spi_write16_run.
  rewrite IH, after_after. reflexivity.
Qed.

Lemma run_bus_bursts cfg inst (chunks : list (buffer * Z)) : forall i cur cl,
  run_bus cfg
    (map (fun ch => spi_write16_blocking inst (read_words (fst ch) (snd ch))) chunks)
    (mk_bus false true i cur cl)
  = mk_bus false true i
      (cur ++ map (Write i) (flat_map (fun ch => read_words (fst ch) (snd ch)) chunks)) cl.
Proof.
  induction chunks as [|ch chunks IH]; intros i cur cl.
  - cbn [map flat_map]. now rewrite app_nil_r.
  - cbn [map flat_map].
    change (spi_write16_blocking inst (read_words (fst ch) (snd ch)) :: ?l)
      with ([spi_write16_blocking inst (read_words (fst ch) (snd ch))] ++ l).
    rewrite run_bus_app, run_bus_burst, IH, map_app, app_assoc. reflexivity.
Qed.

(** X24. Pixels streamed between [ili9225_write_pixels_start] and
    [ili9225_write_pixels_end], in any number of [ili9225_spi_write16]
    calls, reach the panel as one GRAM transfer that carries the chunks in
    order; with a single chunk the three calls do exactly what
    [ili9225_write_pixels] does. *)
Theorem streamed_chunks_form_one_transfer (chunks : list (buffer * Z)) s :
  let cfg := ili9225_cfg s in
  gpio_cs cfg <> gpio_rs cfg ->
  let stream :=
    ili9225_write_pixels_start ;;
    fold_right (fun ch rest => ili9225_spi_write16 (Some (fst ch)) (snd ch) ;; rest)
      ili9225_write_pixels_end chunks in
  let words := flat_map (fun ch => read_words (fst ch) (snd ch)) chunks in
  exists evs,
    stream s = Done tt (after evs s) /\
    transfers cfg evs
    = [ [Index MK_ILI9225_REG_GRAM_RW]; map (Write MK_ILI9225_REG_GRAM_RW) words ] /\
    (forall buf nmemb, chunks = [ (buf, nmemb) ] -> 0 < nmemb ->
       ili9225_write_pixels (Some buf) nmemb s = stream s).
Proof.
  intros cfg H stream words.
  exists (write_pixels_start_events cfg
          ++ map (fun ch => spi_write16_blocking (spi cfg) (read_words (fst ch) (snd ch)))
               chunks
          ++ [ gpio_put (gpio_cs cfg) true ]).
  assert (Hrun : stream s
                 = Done tt
                     (after (write_pixels_start_events cfg
                             ++ map (fun ch => spi_write16_blocking (spi cfg)
                                                 (read_words (fst ch) (snd ch))) chunks
                             ++ [ gpio_put (gpio_cs cfg) true ]) s)).
  { unfold stream. step write_pixels_start_run.
    rewrite stream_run, after_after. reflexivity. }
  split; [exact Hrun|]. split.
  - unfold transfers, idle_bus.
    rewrite run_bus_app, run_bus_write_pixels_start by assumption.
    rewrite run_bus_app, run_bus_bursts, run_bus_close by assumption.
    reflexivity.
  - intros buf nmemb -> Hn. rewrite Hrun.
    unfold ili9225_write_pixels, assert. cbn [is_null negb].
    destruct (Z.ltb_spec 0 nmemb) as [_ | Hle]; [reflexivity | lia].
Qed.

(** X25. [ili9225_set_gate_scan] counts in units of eight lines: for
    [hor_end] below 2048 the driver output control register receives
    [0x0100 + hor_end / 8] and the gate scan control register
    [hor_start / 8], in that order. *)
Theorem set_gate_scan_counts_in_eights hor_start hor_end s :
  let cfg := ili9225_cfg s in
  gpio_cs cfg <> gpio_rs cfg ->
  0 <= hor_start < 65536 ->
  0 <= hor_end < 2048 ->
  let batch := [ (MK_ILI9225_REG_DRIVER_OUTPUT_CTRL, 0x0100 + hor_end / 8);
                 (MK_ILI9225_REG_GATE_SCAN_CTRL, hor_start / 8) ] in
  ili9225_set_gate_scan hor_start hor_end s
  = Done tt (after (set_registers_events cfg batch) s) /\
  register_writes cfg (set_registers_events cfg batch) = batch.
Proof.
  intros cfg H Hs He batch.
  assert (H1 : to_uint16 (Z.lor 0x0100 (hor_end / 8)) = 0x0100 + hor_end / 8).
  { change 0x0100 with (Z.shiftl 1 8) at 1.
    rewrite lor_shifted_low by (Z.div_mod_to_equations; lia).
    apply to_uint16_small. Z.div_mod_to_equations; lia. }
  assert (H2 : to_uint16 (hor_start / 8) = hor_start / 8).
  { apply to_uint16_small. Z.div_mod_to_equations; lia. }
  split.
  - unfold ili9225_set_gate_scan. cbv zeta. rewrite H1, H2. reflexivity.
  - unfold register_writes. rewrite transfers_set_registers by assumption.
    apply written_batch.
Qed.

(** ** tests/hello-display *)

Lemma fill_run color s :
  ili9225_fill color s
  = Done tt (after (fill_rect_events (ili9225_cfg s) 0 0 220 176 color) s).
Proof. rewrite fill_eq. apply fill_rect_run. lia. Qed.

Lemma hello_display_round_run s :
  hello_display_round s = Done tt (after (hello_display_round_events (ili9225_cfg s)) s).
Proof.
  unfold hello_display_round, hello_display_round_events.
  step fill_run. erewrite bind_done by reflexivity. cbv beta.
  step fill_run. unfold sdk, modify.
  rewrite !after_after. cbn [ili9225_cfg after]. reflexivity.
Qed.

Lemma hello_display_rounds_run n : forall s,
  hello_display_rounds n s
  = Done tt (after (concat (repeat (hello_display_round_events (ili9225_cfg s)) n)) s).
Proof.
  induction n as [|n IH]; intros s.
  - cbn [hello_display_rounds repeat concat]. unfold ret. now rewrite after_nil.
  - cbn [hello_display_rounds repeat concat]. step hello_display_round_run.
    rewrite IH, after_after. reflexivity.
Qed.

Lemma run_bus_fill_rect cfg x y w h color r i cl :
  gpio_cs cfg <> gpio_rs cfg ->
  run_bus cfg (fill_rect_events cfg x y w h color) (mk_bus true r i [] cl)
  = mk_bus true true MK_ILI9225_REG_GRAM_RW []
      (cl ++ batch_transfers (rect_batch x y w h)
          ++ [ [Index MK_ILI9225_REG_GRAM_RW];
               repeat (Write MK_ILI9225_REG_GRAM_RW color) (Z.to_nat (w * h)) ]).
Proof.
  intros H. unfold fill_rect_events.
  rewrite run_bus_app, run_bus_set_registers by assumption.
  rewrite run_bus_app, run_bus_write_pixels_start by assumption.
  rewrite run_bus_app, run_bus_repeat, run_bus_close by assumption.
  cbn [app]. now rewrite <- !app_assoc.
Qed.

Lemma gram_words_fill_rect x y w h color :
  flat_map gram_word
    (concat (batch_transfers (rect_batch x y w h)
             ++ [ [Index MK_ILI9225_REG_GRAM_RW];
                  repeat (Write MK_ILI9225_REG_GRAM_RW color) (Z.to_nat (w * h)) ]))
  = repeat color (Z.to_nat (w * h)).
Proof.
  rewrite concat_app, flat_map_app.
  destruct (gram_words_batch (rect_batch x y w h) eq_refl) as [-> _].
  cbn [concat app flat_map gram_word]. now rewrite app_nil_r, gram_words_repeat.
Qed.

Lemma run_bus_sleep cfg ms b : run_bus cfg [sleep_ms ms] b = b.
Proof. reflexivity. Qed.

Lemma delays_app evs1 evs2 : delays (evs1 ++ evs2) = delays evs1 ++ delays evs2.
Proof. apply flat_map_app. Qed.

Lemma delays_set_registers cfg rds : delays (set_registers_events cfg rds) = [].
Proof. induction rds as [|rd rds IH]; [reflexivity|]. exact IH. Qed.

Lemma delays_fill_rect cfg x y w h color : delays (fill_rect_events cfg x y w h color) = [].
Proof.
  unfold fill_rect_events. rewrite !delays_app, delays_set_registers.
  cbn [app]. replace (delays (repeat _ _)) with (@nil Z); [reflexivity|].
  induction (Z.to_nat (w * h)) as [|n IH]; [reflexivity | exact IH].
Qed.

(** X26. tests/hello-display: each of the first [n] rounds of the loop of
    [main] returns, and the panel receives, round after round, a full
    frame of 220 x 176 black words and then a full frame of white ones,
    with one second of delay after each frame. *)
Theorem hello_display_alternates_frames n s :
  let cfg := ili9225_cfg s in
  gpio_cs cfg <> gpio_rs cfg ->
  let frame color := repeat color (Z.to_nat (220 * 176)) in
  exists evs,
    hello_display_rounds n s = Done tt (after evs s) /\
    flat_map gram_word (concat (transfers cfg evs))
    = concat (repeat (frame 0x0000 ++ frame 0xffff) n) /\
    delays evs = repeat 1000 (2 * n).
Proof.
  intros cfg H frame.
  exists (concat (repeat (hello_display_round_events cfg) n)).
  split; [apply hello_display_rounds_run|]. split.
  - unfold transfers, idle_bus.
    assert (Hbus : forall r i cl, exists r' i' cl',
              run_bus cfg (concat (repeat (hello_display_round_events cfg) n))
                (mk_bus true r i [] cl) = mk_bus true r' i' [] (cl ++ cl') /\
              flat_map gram_word (concat cl')
              = concat (repeat (frame 0x0000 ++ frame 0xffff) n)).
    { induction n as [|n IH]; intros r i cl.
      - exists r, i, []. cbn [repeat concat]. now rewrite app_nil_r.
      - cbn [repeat concat]. unfold hello_display_round_events at 1.
        rewrite <- !app_assoc.
        rewrite run_bus_app, run_bus_fill_rect by assumption.
        rewrite run_bus_app, run_bus_sleep.
        rewrite run_bus_app, run_bus_fill_rect by assumption.
        rewrite run_bus_app, run_bus_sleep.
        set (black := batch_transfers (rect_batch 0 0 220 176)
                      ++ [ [Index MK_ILI9225_REG_GRAM_RW];
                           repeat (Write MK_ILI9225_REG_GRAM_RW 0x0000)
                             (Z.to_nat (220 * 176)) ]).
        set (white := batch_transfers (rect_batch 0 0 220 176)
                      ++ [ [Index MK_ILI9225_REG_GRAM_RW];
                           repeat (Write MK_ILI9225_REG_GRAM_RW 0xffff)
                             (Z.to_nat (220 * 176)) ]).
        destruct (IH true MK_ILI9225_REG_GRAM_RW ((cl ++ black) ++ white))
          as (r' & i' & cl' & -> & Hwords).
        exists r', i', (black ++ white ++ cl'). split.
        + rewrite <- !app_assoc. reflexivity.
        + rewrite (concat_app black), flat_map_app, (concat_app white), flat_map_app.
          unfold black, white. rewrite !gram_words_fill_rect, Hwords.
          unfold frame. rewrite <- ?app_assoc. reflexivity. }
    destruct (Hbus false 0 []) as (r' & i' & cl' & -> & Hwords). exact Hwords.
  - induction n as [|n IH]; [reflexivity|].
    cbn [repeat concat]. unfold hello_display_round_events at 1.
    rewrite !delays_app, !delays_fill_rect, IH.
    replace (2 * S n)%nat with (S (S (2 * n))) by lia. reflexivity.
Qed.


(** ** The DMA channel *)

Lemma after_keeps_channel (m : M unit) evs s s' :
  m s = Done tt (after evs s) -> m s = Done tt s' -> dma_tx s' = dma_tx s.
Proof. intros Hrun Hcall. now rewrite (done_inj _ _ _ _ _ Hcall Hrun). Qed.

Lemma init_keeps_channel config s r s' :
  ili9225_init config s = Done r s' -> dma_tx s' = dma_tx s.
Proof.
  intros Hcall. rewrite init_run in Hcall. cbv zeta in Hcall.
  destruct MK_ILI9225_READ_AVAILABLE; injection Hcall as _ <-; reflexivity.
Qed.

Lemma registration_keeps_channel num cb s s' :
  ili9225_set_dma_irq_handler num cb s = Done tt s' -> dma_tx s' = dma_tx s.
Proof.
  intros Hcall.
  destruct (Z.eq_dec num DMA_IRQ_0) as [E0 | N0];
    [| destruct (Z.eq_dec num DMA_IRQ_1) as [E1 | N1]].
  - destruct (set_dma_irq_handler_run num cb s (or_introl E0)) as (en & _ & Hrun).
    now rewrite (done_inj _ _ _ _ _ Hcall Hrun).
  - destruct (set_dma_irq_handler_run num cb s (or_intror E1)) as (en & _ & Hrun).
    now rewrite (done_inj _ _ _ _ _ Hcall Hrun).
  - rewrite set_dma_irq_handler_other in Hcall by assumption. now injection Hcall as <-.
Qed.

Lemma set_window_keeps_channel hor_start hor_end vert_start vert_end s s' :
  ili9225_set_window hor_start hor_end vert_start vert_end s = Done tt s' ->
  dma_tx s' = dma_tx s.
Proof.
  intros Hcall.
  apply (after_keeps_channel (ili9225_set_window hor_start hor_end vert_start vert_end)
           (set_registers_events (ili9225_cfg s)
              [ (MK_ILI9225_REG_HORI_WIN_ADDR1, hor_end);
                (MK_ILI9225_REG_HORI_WIN_ADDR2, hor_start);
                (MK_ILI9225_REG_VERT_WIN_ADDR1, vert_end);
                (MK_ILI9225_REG_VERT_WIN_ADDR2, vert_start);
                (MK_ILI9225_REG_RAM_ADDR_SET1, hor_start);
                (MK_ILI9225_REG_RAM_ADDR_SET2, vert_start) ]));
    [| exact Hcall].
  unfold ili9225_set_window in *.
  destruct (hor_start <? hor_end); [|discriminate Hcall].
  destruct (hor_end <? SCREEN_SIZE_X); [|discriminate Hcall].
  destruct (vert_start <? vert_end); [|discriminate Hcall].
  destruct (vert_end <? SCREEN_SIZE_Y); [|discriminate Hcall].
  reflexivity.
Qed.

Lemma write_pixels_keeps_channel pixels nmemb s s' :
  ili9225_write_pixels pixels nmemb s = Done tt s' -> dma_tx s' = dma_tx s.
Proof.
  intros Hcall.
  apply (after_keeps_channel (ili9225_write_pixels pixels nmemb)
           (write_pixels_start_events (ili9225_cfg s)
            ++ [ spi_write16_blocking (spi (ili9225_cfg s)) (words_at pixels nmemb);
                 gpio_put (gpio_cs (ili9225_cfg s)) true ]));
    [| exact Hcall].
  unfold ili9225_write_pixels in *.
  destruct pixels as [buf|]; [|discriminate Hcall].
  destruct (0 <? nmemb); [|discriminate Hcall].
  reflexivity.
Qed.

Lemma fill_rect_keeps_channel x y w h color s s' :
  ili9225_fill_rect x y w h color s = Done tt s' -> dma_tx s' = dma_tx s.
Proof. intros Hcall. apply fill_rect_done in Hcall as [k ->]. reflexivity. Qed.

Lemma perform_keeps_channel call s s' :
  perform call s = Done tt s' -> dma_tx s' = dma_tx s.
Proof.
  intros Hcall. rewrite perform_eq in Hcall.
  destruct call; cbv beta iota in Hcall.
  - apply bind_done_inv in Hcall. destruct Hcall as (r & s1 & E & Hret).
    injection Hret as <-. exact (init_keeps_channel _ _ _ _ E).
  - exact (registration_keeps_channel _ _ _ _ Hcall).
  - exact (after_keeps_channel _ _ _ _ (dma_write_run _ _ _) Hcall).
  - exact (set_window_keeps_channel _ _ _ _ _ _ Hcall).
  - exact (after_keeps_channel _ (set_registers_events (ili9225_cfg s)
             [ (MK_ILI9225_REG_RAM_ADDR_SET1, x) ]) _ _ eq_refl Hcall).
  - exact (after_keeps_channel _ (set_registers_events (ili9225_cfg s)
             [ (MK_ILI9225_REG_RAM_ADDR_SET1, x);
               (MK_ILI9225_REG_RAM_ADDR_SET2, y) ]) _ _ eq_refl Hcall).
  - exact (write_pixels_keeps_channel _ _ _ _ Hcall).
  - exact (after_keeps_channel _ _ _ _ (write_pixels_start_run _) Hcall).
  - exact (after_keeps_channel _ [ gpio_put (gpio_cs (ili9225_cfg s)) true ] _ _
             eq_refl Hcall).
  - unfold ili9225_display_control in Hcall. cbv zeta in Hcall.
    match type of Hcall with
    | set_register ?reg ?dat s = _ =>
        exact (after_keeps_channel _ (set_registers_events (ili9225_cfg s) [ (reg, dat) ])
                 _ _ eq_refl Hcall)
    end.
  - unfold ili9225_power_control in Hcall. cbv zeta in Hcall.
    match type of Hcall with
    | set_register ?reg ?dat s = _ =>
        exact (after_keeps_channel _ (set_registers_events (ili9225_cfg s) [ (reg, dat) ])
                 _ _ eq_refl Hcall)
    end.
  - unfold ili9225_set_gate_scan in Hcall. cbv zeta in Hcall.
    match type of Hcall with
    | (set_register ?r1 ?d1 ;; set_register ?r2 ?d2) s = _ =>
        exact (after_keeps_channel _
                 (set_registers_events (ili9225_cfg s) [ (r1, d1); (r2, d2) ])
                 _ _ eq_refl Hcall)
    end.
  - unfold ili9225_set_drive_freq in Hcall. cbv zeta in Hcall.
    match type of Hcall with
    | set_register ?reg ?dat s = _ =>
        exact (after_keeps_channel _ (set_registers_events (ili9225_cfg s) [ (reg, dat) ])
                 _ _ eq_refl Hcall)
    end.
  - now injection Hcall as <-.
  - exact (fill_rect_keeps_channel _ _ _ _ _ _ _ Hcall).
  - rewrite fill_eq in Hcall. exact (fill_rect_keeps_channel _ _ _ _ _ _ _ Hcall).
  - exact (after_keeps_channel _ (set_registers_events (ili9225_cfg s)
             [ (MK_ILI9225_REG_RAM_ADDR_SET1, y);
               (MK_ILI9225_REG_RAM_ADDR_SET2, to_uint16 (219 - x));
               (MK_ILI9225_REG_GRAM_RW, color) ]) _ _ eq_refl Hcall).
  - exact (after_keeps_channel _ _ _ _ (blit_run _ _ _ _ _ _) Hcall).
Qed.

Lemma handler_keeps_channel s s' :
  _ili9225_dma_finish_callback s = Done tt s' -> dma_tx s' = dma_tx s.
Proof.
  intros Hrun. rewrite dma_finish_callback_run in Hrun. cbv zeta in Hrun.
  destruct (dma_irq s =? DMA_IRQ_0); [now injection Hrun as <-|].
  destruct (dma_irq s =? DMA_IRQ_1); now injection Hrun as <-.
Qed.

(** X27. The driver never claims a DMA channel: no function assigns
    [dma_tx], so in every state the program can reach it still holds the
    zero of a C static, and every [ili9225_dma_write] programs and starts
    channel 0 (mask 1), whichever channels the rest of the program
    uses. *)
Theorem driver_always_uses_channel_zero s data len :
  reachable s ->
  let cfg := ili9225_cfg s in
  dma_tx s = 0 /\
  ili9225_dma_write data len s
  = Done tt
      (after (write_pixels_start_events cfg
              ++ [ dma_channel_configure 0 (c s) (spi cfg) data len false;
                   dma_start_channel_mask 1 ]) s).
Proof.
  intros Hreach cfg.
  assert (Hzero : dma_tx s = 0).
  { clear data len cfg.
    induction Hreach as [| call s s' Hr IH Hcall | s s' Hr IH Hin Hrun].
    - reflexivity.
    - now rewrite (perform_keeps_channel _ _ _ Hcall).
    - now rewrite (handler_keeps_channel _ _ Hrun). }
  split; [exact Hzero|].
  rewrite dma_write_run, Hzero. reflexivity.
Qed.


(** ** Who gives the bus back *)

Lemma read_driving_line_run s :
  let cfg := ili9225_cfg s in
  exists word,
    ili9225_read_driving_line s
    = Done (Z.shiftr word 8)
        (after ([ gpio_put (gpio_rs cfg) false; gpio_put (gpio_cs cfg) false;
                  gpio_put (gpio_rs cfg) true; gpio_put (gpio_cs cfg) false;
                  spi_read16 word; gpio_put (gpio_cs cfg) true ]
                ++ [ gpio_put (gpio_cs cfg) true ]) s).
Proof.
  intros cfg. eexists. unfold ili9225_read_driving_line.
  step ili9225_set_rs_run. step ili9225_set_cs_run.
  step read_data_run. step ili9225_set_cs_run.
  unfold ret. cbn [ili9225_cfg after].
  rewrite !after_after, !trace_after, <- ?app_assoc.
  reflexivity.
Qed.

Lemma blit_events_released cfg fbuf x y w h pre b :
  cs_after cfg (pre ++ blit_events cfg fbuf x y w h) b = true.
Proof.
  unfold blit_events.
  change [spi_write16_blocking (spi cfg) (words_at fbuf (w * h)); gpio_put (gpio_cs cfg) true]
    with ([spi_write16_blocking (spi cfg) (words_at fbuf (w * h))]
          ++ [gpio_put (gpio_cs cfg) true]).
  rewrite !app_assoc. apply released_by_raise.
Qed.

Lemma cfg_after evs s : ili9225_cfg (after evs s) = ili9225_cfg s.
Proof. reflexivity. Qed.

Lemma text_loop_eq fuel s i x y color bgcolor fbuf :
  text_loop (S fuel) s i x y color bgcolor fbuf
  = if i <? Z.of_nat (strlen s) then
      ili9225_blit (pointer_to (ili9225_get_letter fbuf (char_at s i) color bgcolor))
        x y 8 8 ;;
      if 27 * 8 <? to_uint8 (x + 8) then ret tt
      else text_loop fuel s (to_uint8 (i + 1)) (to_uint8 (x + 8)) y color bgcolor
             (ili9225_get_letter fbuf (char_at s i) color bgcolor)
    else ret tt.
Proof. reflexivity. Qed.

(** What the loop adds to a trace that left CS high leaves CS high. *)
Lemma text_loop_releases s y color bgcolor fuel : forall i x fbuf st st',
  text_loop fuel s i x y color bgcolor fbuf st = Done tt st' ->
  exists evs,
    st' = after evs st /\
    forall pre b,
      cs_after (ili9225_cfg st) pre b = true ->
      cs_after (ili9225_cfg st) (pre ++ evs) b = true.
Proof.
  induction fuel as [|fuel IH]; intros i x fbuf st st' Hrun; [discriminate Hrun|].
  rewrite text_loop_eq in Hrun.
  destruct (i <? Z.of_nat (strlen s)).
  - generalize dependent (ili9225_get_letter fbuf (char_at s i) color bgcolor).
    intros fb Hrun.
    apply bind_done_inv in Hrun. destruct Hrun as (u & s1 & E & Hrest).
    rewrite blit_run in E. injection E as _ <-.
    destruct (27 * 8 <? to_uint8 (x + 8)).
    + injection Hrest as <-.
      exists (blit_events (ili9225_cfg st) (pointer_to fb) x y 8 8).
      split; [reflexivity|].
      intros pre b _. apply blit_events_released.
    + apply IH in Hrest. destruct Hrest as (evs & -> & Hrel).
      rewrite cfg_after in Hrel.
      exists (blit_events (ili9225_cfg st) (pointer_to fb) x y 8 8 ++ evs).
      split; [now rewrite after_after|].
      intros pre b _. rewrite app_assoc. apply Hrel. apply blit_events_released.
  - injection Hrun as <-. exists []. split; [now rewrite after_nil|].
    intros pre b Hb. now rewrite app_nil_r.
Qed.

Lemma text_releases s x y color bgcolor fbuf st st' b :
  ili9225_text s x y color bgcolor fbuf st = Done tt st' ->
  cs_level b = true ->
  cs_after (ili9225_cfg st') (new_events st st') b = true.
Proof.
  unfold ili9225_text. generalize uint16_fuel. intros fuel Hrun Hb.
  apply text_loop_releases in Hrun. destruct Hrun as (evs & -> & Hrel).
  rewrite new_events_after, cfg_after.
  apply (Hrel [] b). exact Hb.
Qed.

Lemma done_state_inj {A} (m : M A) s a a' s1 s2 :
  m s = Done a s1 -> m s = Done a' s2 -> s1 = s2.
Proof. intros H1 H2. rewrite H1 in H2. now injection H2. Qed.

Lemma idle_call_keeps_cs (m : M unit) e s s' b :
  m s = Done tt (after [e] s) ->
  (forall cfg, bus_step cfg b e = b) ->
  m s = Done tt s' ->
  cs_level b = true ->
  cs_after (ili9225_cfg s') (new_events s s') b = true.
Proof.
  intros Hrun Hstep Hcall Hb. rewrite (done_inj _ _ _ _ _ Hcall Hrun).
  rewrite new_events_after. unfold cs_after, run_bus. cbn [fold_left].
  now rewrite Hstep.
Qed.

(** X9. Every function ili9225.c exports gives the bus back, apart from
    the four that are there to drive one pin ([ili9225_set_cs],
    [ili9225_set_rs], [ili9225_set_rst], [ili9225_set_led]) and the two
    that open a transfer for someone else to close
    ([ili9225_write_pixels_start] and [ili9225_dma_write]): if CS was high
    when the call started, CS is high when it returns.  This holds for
    every pin assignment, and for [ili9225_init] with the configuration
    it installs.  The pin setters have to be left out: from the same
    state, [ili9225_set_cs false] returns with CS low. *)
Theorem synchronous_calls_release_the_bus f s s' b :
  drives_a_pin_or_keeps_bus f = false ->
  run_function f s = Done tt s' ->
  cs_level b = true ->
  cs_after (ili9225_cfg s') (new_events s s') b = true /\
  exists s0,
    run_function (fn_set_cs false) s = Done tt s0 /\
    cs_after (ili9225_cfg s0) (new_events s s0) b = false.
Proof.
  intros Hkeep Hcall Hb. split.
  - destruct f; try discriminate Hkeep; cbn [run_function drives_a_pin_or_keeps_bus] in *.
    + exact (api_calls_release _ _ _ _ Hkeep Hcall Hb).
    + apply (idle_call_keeps_cs _ _ _ _ _ (ili9225_spi_write16_run halfwords len s));
        try assumption.
      intros cfg. cbn [bus_step]. now rewrite Hb.
    + apply (idle_call_keeps_cs (ili9225_delay_ms ms) (sleep_ms ms) _ _ _ eq_refl);
        try assumption.
      reflexivity.
    + apply bind_done_inv in Hcall. destruct Hcall as (line & s1 & E & Hret).
      injection Hret as <-.
      destruct (read_driving_line_run s) as (word & Hrun).
      rewrite (done_state_inj _ _ _ _ _ _ E Hrun).
      rewrite new_events_after, cfg_after. apply released_by_raise.
    + injection Hcall as <-. unfold new_events. now rewrite skipn_all.
    + exact (text_releases _ _ _ _ _ _ _ _ _ Hcall Hb).
  - exists (after [ gpio_put (gpio_cs (ili9225_cfg s)) false ] s).
    split; [reflexivity|].
    rewrite new_events_after. unfold cs_after, run_bus. cbn [fold_left].
    apply cs_low_after_fall.
Qed.

End Driver.

(** ** The identification check, by build *)

(** C2. With read support compiled in, [ili9225_init] selects the driver
    code register, reads one word [id] and returns [0x9225 - id] as an
    [unsigned]: the plain difference when [id] is at most [0x9225], that
    difference wrapped by [2 ^ 32] when it is larger.  The result is zero
    exactly when the panel answers [0x9225]. *)
Theorem init_returns_identification_difference chip_answer config s :
  let asked :=
    trace s
    ++ startup_events config
    ++ [ gpio_put (gpio_rs config) false; gpio_put (gpio_cs config) false;
         spi_write16_blocking (spi config) [MK_ILI9225_REG_DRIVER_CODE_READ];
         gpio_put (gpio_cs config) true;
         gpio_put (gpio_rs config) true; gpio_put (gpio_cs config) false ] in
  let id := to_uint16 (chip_answer asked) in
  let result := to_unsigned (0x9225 - id) in
  exists s',
    ili9225_init true chip_answer config s = Done result s' /\
    trace s' = asked ++ [ spi_read16 id; gpio_put (gpio_cs config) true ] /\
    (result = 0 <-> id = 0x9225) /\
    (id <> 0x9225 -> result <> 0) /\
    (id <= 0x9225 -> result = 0x9225 - id) /\
    (0x9225 < id -> result = 0x9225 - id + 2 ^ 32).
Proof.
  intros asked id result.
  assert (Hid : 0 <= id < 65536).
  { unfold id, to_uint16. change (2 ^ 16) with 65536. apply Z.mod_pos_bound. lia. }
  assert (Hsmall : id <= 0x9225 -> result = 0x9225 - id).
  { intros Hle. unfold result, to_unsigned. apply Z.mod_small.
    change (2 ^ 32) with 4294967296. lia. }
  assert (Hwrap : 0x9225 < id -> result = 0x9225 - id + 2 ^ 32).
  { intros Hgt. unfold result, to_unsigned. change (2 ^ 32) with 4294967296.
    symmetry. apply Z.mod_unique with (q := -1); lia. }
  assert (Hzero : result = 0 <-> id = 0x9225).
  { destruct (Z.le_gt_cases id 0x9225) as [Hle | Hgt].
    - rewrite (Hsmall Hle). lia.
    - rewrite (Hwrap Hgt). change (2 ^ 32) with 4294967296. lia. }
  eexists. split; [|split].
  - rewrite init_run. cbv zeta.
    rewrite trace_after.
    change (trace (set_ili9225_cfg config s)) with (trace s).
    reflexivity.
  - change (trace (set_c ?c ?s)) with (trace s).
    rewrite !trace_after.
    change (trace (set_ili9225_cfg config s)) with (trace s).
    unfold id, asked. rewrite <- !app_assoc. reflexivity.
  - repeat split; try tauto; assumption.
Qed.

(** C10. Without read support, the default of ili9225.h,
    [ili9225_init] returns 0 for every configuration, every state and
    every panel: it runs the start-up sequence and stops there, and
    nothing is read from the bus. *)
Theorem init_without_read_returns_zero chip_answer config s :
  exists s',
    ili9225_init false chip_answer config s = Done 0 s' /\
    trace s' = trace s ++ startup_events config /\
    filter is_spi_read16 (startup_events config) = [].
Proof.
  eexists. split; [|split].
  - rewrite init_run. reflexivity.
  - change (trace (set_c ?c ?s)) with (trace s).
    rewrite trace_after. reflexivity.
  - reflexivity.
Qed.

(** ** The model at work on the board of the tests *)

Example board_init_delays :
  delays (trace (exec (ili9225_init true (fun _ => 0x9225) lcd_config) power_on))
  = [1; 10; 50; 40; 10; 50; 50; 50].
Proof. vm_compute. reflexivity. Qed.

Example right_chip_accepted :
  exists s, ili9225_init true (fun _ => 0x9225) lcd_config power_on = Done 0 s.
Proof. eexists. vm_compute. reflexivity. Qed.

Example wrong_chip_reported :
  exists s, ili9225_init true (fun _ => 0x9226) lcd_config power_on = Done 4294967295 s.
Proof. eexists. vm_compute. reflexivity. Qed.

Example wrong_chip_unnoticed_without_read :
  exists s, ili9225_init false (fun _ => 0x9226) lcd_config power_on = Done 0 s.
Proof. eexists. vm_compute. reflexivity. Qed.

Example window_one_too_wide :
  ili9225_set_window 0 176 0 219 lcd_driver = AssertionFailed lcd_driver.
Proof. reflexivity. Qed.

Example pixel_at_the_origin :
  register_writes lcd_config (trace (exec (ili9225_pixel 0 0 0xF800) lcd_driver))
  = [ (0x20, 0); (0x21, 219); (0x22, 0xF800) ].
Proof. vm_compute. reflexivity. Qed.

Example pixel_off_screen :
  register_writes lcd_config (trace (exec (ili9225_pixel 220 3 5) lcd_driver))
  = [ (0x20, 3); (0x21, 65535); (0x22, 5) ].
Proof. vm_compute. reflexivity. Qed.

Example blit_past_the_edge :
  writes_to MK_ILI9225_REG_VERT_WIN_ADDR2
    (register_writes lcd_config
       (trace (exec (ili9225_blit (Some ramp) 100 0 200 1) lcd_driver)))
  = [65456].
Proof. vm_compute. reflexivity. Qed.

Example full_screen_fill_returns :
  match ili9225_fill 0x0000 lcd_driver with
  | Done _ _ => True
  | _ => False
  end.
Proof. vm_compute. exact I. Qed.

Example counter_never_reaches_65536 :
  for_uint16 uint16_fuel 0 65536 (ret tt) power_on = OutOfFuel.
Proof. vm_compute. reflexivity. Qed.

Example handler_without_a_line_is_silent :
  trace (exec (_ili9225_dma_finish_callback 11 12) power_on) = [ gpio_put 0 true ].
Proof. vm_compute. reflexivity. Qed.

(** ** The theorems at work on the board of the tests *)

Lemma lcd_pins : gpio_cs (ili9225_cfg lcd_driver) <> gpio_rs (ili9225_cfg lcd_driver).
Proof. vm_compute. discriminate. Defined.

Lemma set_register_address_then_data_witness :
  gpio_cs (ili9225_cfg lcd_driver) <> gpio_rs (ili9225_cfg lcd_driver) /\
  set_register 0x36 175 lcd_driver
  = Done tt (after (set_register_events lcd_config 0x36 175) lcd_driver) /\
  transfers lcd_config (set_register_events lcd_config 0x36 175)
  = [[Index 0x36]; [Write 0x36 175]].
Proof.
  split; [exact lcd_pins|].
  destruct (set_register_address_then_data 0x36 175 lcd_driver lcd_pins)
    as (_ & _ & Hrun & Hbus).
  split; [exact Hrun | exact Hbus].
Defined.

Lemma set_window_checked_before_writes_witness :
  gpio_cs (ili9225_cfg lcd_driver) <> gpio_rs (ili9225_cfg lcd_driver) /\
  (0 < 175 < SCREEN_SIZE_X /\ 0 < 219 < SCREEN_SIZE_Y) /\
  ili9225_set_window 0 175 0 219 lcd_driver
  = Done tt
      (after (set_registers_events lcd_config
                [ (0x36, 175); (0x37, 0); (0x38, 219); (0x39, 0); (0x20, 0); (0x21, 0) ])
         lcd_driver) /\
  ~ (10 < 5 < SCREEN_SIZE_X /\ 0 < 219 < SCREEN_SIZE_Y) /\
  ili9225_set_window 10 5 0 219 lcd_driver = AssertionFailed lcd_driver.
Proof.
  assert (Hgood : 0 < 175 < SCREEN_SIZE_X /\ 0 < 219 < SCREEN_SIZE_Y)
    by (unfold SCREEN_SIZE_X, SCREEN_SIZE_Y; lia).
  assert (Hbad : ~ (10 < 5 < SCREEN_SIZE_X /\ 0 < 219 < SCREEN_SIZE_Y)) by lia.
  split; [exact lcd_pins|]. split; [exact Hgood|].
  split.
  - exact (proj1 (proj1 (set_window_checked_before_writes 0 175 0 219 lcd_driver lcd_pins)
                    Hgood)).
  - split; [exact Hbad|].
    exact (proj2 (set_window_checked_before_writes 10 5 0 219 lcd_driver lcd_pins) Hbad).
Defined.

Lemma set_address_and_pixel_conventions_witness :
  gpio_cs (ili9225_cfg lcd_driver) <> gpio_rs (ili9225_cfg lcd_driver) /\
  is_uint8 5 /\ is_uint8 7 /\
  register_writes lcd_config (set_registers_events lcd_config [ (0x20, 5); (0x21, 7) ])
  = [ (0x20, 5); (0x21, 7) ] /\
  ili9225_pixel 5 7 0xF800 lcd_driver
  = Done tt
      (after (set_registers_events lcd_config [ (0x20, 7); (0x21, 214); (0x22, 0xF800) ])
         lcd_driver) /\
  (5, 7) <> (7, to_uint16 (219 - 5)).
Proof.
  assert (H5 : is_uint8 5) by (unfold is_uint8; lia).
  assert (H7 : is_uint8 7) by (unfold is_uint8; lia).
  split; [exact lcd_pins|]. split; [exact H5|]. split; [exact H7|].
  destruct (set_address_and_pixel_conventions 5 7 0xF800 lcd_driver lcd_pins H5 H7)
    as (_ & Haddr & Hpixel & _ & _ & _ & Hdiff).
  split; [exact Haddr|]. split; [exact Hpixel | exact Hdiff].
Defined.

Lemma write_pixels_one_data_transfer_witness :
  gpio_cs (ili9225_cfg lcd_driver) <> gpio_rs (ili9225_cfg lcd_driver) /\
  0 < 3 /\
  exists evs,
    ili9225_write_pixels (Some ramp) 3 lcd_driver = Done tt (after evs lcd_driver) /\
    filter data_phase (transfers lcd_config evs)
    = [ [ Write 0x22 0; Write 0x22 1; Write 0x22 2 ] ].
Proof.
  split; [exact lcd_pins|]. split; [lia|].
  destruct (write_pixels_one_data_transfer ramp 3 lcd_driver lcd_pins ltac:(lia))
    as (Hrun & _ & _ & Hone).
  eexists. split; [exact Hrun | exact Hone].
Defined.

Lemma rect_vertical_window_inverted_witness :
  gpio_cs (ili9225_cfg lcd_driver) <> gpio_rs (ili9225_cfg lcd_driver) /\
  0 <= 10 < SCREEN_SIZE_Y /\ is_uint8 8 /\
  writes_to MK_ILI9225_REG_VERT_WIN_ADDR1
    (register_writes lcd_config (fill_rect_events lcd_config 10 20 8 8 0)) = [209] /\
  writes_to MK_ILI9225_REG_VERT_WIN_ADDR2
    (register_writes lcd_config (blit_events lcd_config (Some ramp) 10 20 8 8)) = [202].
Proof.
  assert (Hx : 0 <= 10 < SCREEN_SIZE_Y) by (unfold SCREEN_SIZE_Y; lia).
  assert (H8 : is_uint8 8) by (unfold is_uint8; lia).
  split; [exact lcd_pins|]. split; [exact Hx|]. split; [exact H8|].
  destruct (rect_vertical_window_inverted (Some ramp) 10 20 8 8 0 lcd_driver
              lcd_pins Hx H8 H8)
    as (_ & _ & Hfill & _ & _ & Hblit & _).
  split; [exact Hfill | exact Hblit].
Defined.

Lemma fill_full_screen_one_transfer_witness :
  gpio_cs (ili9225_cfg lcd_driver) <> gpio_rs (ili9225_cfg lcd_driver) /\
  exists evs,
    ili9225_fill 0xFFFF lcd_driver = Done tt (after evs lcd_driver) /\
    flat_map gram_word (concat (transfers (ili9225_cfg lcd_driver) evs))
    = repeat 0xFFFF (Z.to_nat (220 * 176)).
Proof.
  split; [exact lcd_pins|].
  destruct (fill_full_screen_one_transfer 0xFFFF lcd_driver lcd_pins)
    as (_ & Hfill & Hwords & _).
  eexists. split; [exact Hfill | exact Hwords].
Defined.

Lemma dma_completion_calls_back_once_witness :
  let s := hello_dma_boot false (fun _ => 0) 11 12 7 in
  reachable false (fun _ => 0) 11 12 s /\
  handler_installed s = true /\
  exists s1 acknowledge,
    ili9225_dma_write (Some ramp) (220 * 176) s = Done tt s1 /\
    _ili9225_dma_finish_callback 11 12 s1
    = Done tt
        (after [ gpio_put 17 true; dma_channel_set_irq0_enabled 0 true;
                 acknowledge; call_user 7 ] s1).
Proof.
  intros s.
  assert (Hreach : reachable false (fun _ => 0) 11 12 s).
  { apply reach_call with (call := call_set_dma_irq_handler 11 7)
                          (s := exec (ili9225_init false (fun _ => 0) lcd_config) power_on).
    - apply reach_call with (call := call_init lcd_config) (s := power_on).
      + apply reach_power_on.
      + vm_compute. reflexivity.
    - vm_compute. reflexivity. }
  assert (Hinst : handler_installed s = true) by (vm_compute; reflexivity).
  split; [exact Hreach|]. split; [exact Hinst|].
  destruct (dma_completion_calls_back_once false (fun _ => 0) 11 12
              (Some ramp) (220 * 176) s Hreach Hinst)
    as (s1 & acknowledge & Hwrite & _ & _ & Hhandler & _).
  exists s1, acknowledge. split; [exact Hwrite | exact Hhandler].
Defined.


(** ** The further properties at work on the board of the tests *)

Lemma fill_rect_sends_w_times_h_witness :
  gpio_cs (ili9225_cfg lcd_driver) <> gpio_rs (ili9225_cfg lcd_driver) /\
  is_uint8 3 /\ is_uint8 2 /\
  ili9225_fill_rect 10 20 3 2 0xF800 lcd_driver
  = Done tt (after (fill_rect_events lcd_config 10 20 3 2 0xF800) lcd_driver) /\
  flat_map gram_word
    (concat (transfers lcd_config (fill_rect_events lcd_config 10 20 3 2 0xF800)))
  = repeat 0xF800 (Z.to_nat (3 * 2)).
Proof.
  assert (H3 : is_uint8 3) by (unfold is_uint8; lia).
  assert (H2 : is_uint8 2) by (unfold is_uint8; lia).
  split; [exact lcd_pins|]. split; [exact H3|]. split; [exact H2|].
  destruct (fill_rect_sends_w_times_h 10 20 3 2 0xF800 lcd_driver lcd_pins H3 H2)
    as (Hrun & Hwords & _).
  split; [exact Hrun | exact Hwords].
Defined.

Lemma blit_sends_the_framebuffer_witness :
  gpio_cs (ili9225_cfg lcd_driver) <> gpio_rs (ili9225_cfg lcd_driver) /\
  0 < 2 * 2 /\
  flat_map gram_word
    (concat (transfers lcd_config (blit_events lcd_config (Some ramp) 10 20 2 2)))
  = map ramp (seq 0 (Z.to_nat (2 * 2))).
Proof.
  assert (H4 : 0 < 2 * 2) by lia.
  split; [exact lcd_pins|]. split; [exact H4|].
  destruct (blit_sends_the_framebuffer ramp 10 20 2 2 lcd_driver lcd_pins H4)
    as (_ & Hwords & _).
  exact Hwords.
Defined.

Lemma fill_rect_window_on_screen_witness :
  gpio_cs (ili9225_cfg lcd_driver) <> gpio_rs (ili9225_cfg lcd_driver) /\
  (10 + 8 <= SCREEN_SIZE_Y /\ 20 + 8 <= SCREEN_SIZE_X) /\
  exists evs,
    ili9225_fill_rect 10 20 8 8 0 lcd_driver = Done tt (after evs lcd_driver) /\
    writes_to MK_ILI9225_REG_HORI_WIN_ADDR1 (register_writes lcd_config evs) = [20 + 8 - 1] /\
    writes_to MK_ILI9225_REG_VERT_WIN_ADDR2 (register_writes lcd_config evs)
    = [219 - (10 + 8 - 1)].
Proof.
  assert (Hx : 10 + 8 <= SCREEN_SIZE_Y) by (unfold SCREEN_SIZE_Y; lia).
  assert (Hy : 20 + 8 <= SCREEN_SIZE_X) by (unfold SCREEN_SIZE_X; lia).
  split; [exact lcd_pins|]. split; [exact (conj Hx Hy)|].
  destruct (fill_rect_window_on_screen 10 20 8 8 0 lcd_driver lcd_pins
              ltac:(lia) ltac:(lia) ltac:(lia) ltac:(lia) Hx Hy)
    as (evs & Hrun & _ & Hhe & Hvs & _).
  exists evs. split; [exact Hrun|]. split; [exact Hhe | exact Hvs].
Defined.

Lemma pixel_is_fill_rect_without_window_witness :
  gpio_cs (ili9225_cfg lcd_driver) <> gpio_rs (ili9225_cfg lcd_driver) /\
  exists pixel_evs rect_evs,
    ili9225_pixel 5 7 0xF800 lcd_driver = Done tt (after pixel_evs lcd_driver) /\
    ili9225_fill_rect 5 7 1 1 0xF800 lcd_driver = Done tt (after rect_evs lcd_driver) /\
    filter touches_window (register_writes lcd_config pixel_evs) = [].
Proof.
  split; [exact lcd_pins|].
  destruct (pixel_is_fill_rect_without_window 5 7 0xF800 lcd_driver lcd_pins)
    as (pixel_evs & rect_evs & Hpixel & Hrect & Hnone & _).
  exists pixel_evs, rect_evs. split; [exact Hpixel|]. split; [exact Hrect | exact Hnone].
Defined.

Lemma write_pixels_rejects_null_and_empty_witness :
  (Some ramp = None \/ 0 <= 0) /\
  ili9225_write_pixels (Some ramp) 0 lcd_driver = AssertionFailed lcd_driver.
Proof.
  assert (H : Some ramp = None \/ 0 <= 0) by (right; lia).
  split; [exact H|].
  exact (write_pixels_rejects_null_and_empty (Some ramp) 0 lcd_driver H).
Defined.

Lemma registration_on_unknown_line_is_ignored_witness :
  13 <> 11 /\ 13 <> 12 /\
  ili9225_set_dma_irq_handler 11 12 13 7 power_on = Done tt power_on.
Proof.
  assert (H0 : 13 <> 11) by lia.
  assert (H1 : 13 <> 12) by lia.
  split; [exact H0|]. split; [exact H1|].
  exact (registration_on_unknown_line_is_ignored 11 12 13 7 power_on H0 H1).
Defined.

Lemma second_registration_replaces_the_first_witness :
  (11 = 11 \/ 11 = 12) /\ (12 = 11 \/ 12 = 12) /\
  exists s2 s3,
    dma_irq s2 = 12 /\ f_dma_finish_callback s2 = 8 /\
    _ili9225_dma_finish_callback 11 12 s2 = Done tt s3 /\
    filter is_call_user (new_events s2 s3) = [ call_user 8 ].
Proof.
  assert (H1 : 11 = 11 \/ 11 = 12) by (left; reflexivity).
  assert (H2 : 12 = 11 \/ 12 = 12) by (right; reflexivity).
  split; [exact H1|]. split; [exact H2|].
  destruct (second_registration_replaces_the_first 11 12 11 7 12 8 power_on H1 H2)
    as (s1 & s2 & s3 & _ & _ & Hirq & Hcb & Hrun & Hcalls).
  exists s2, s3. split; [exact Hirq|]. split; [exact Hcb|]. split; [exact Hrun | exact Hcalls].
Defined.

Lemma handler_acknowledges_the_registered_line_witness :
  11 <> 12 /\ (12 = 11 \/ 12 = 12) /\
  exists s1,
    ili9225_set_dma_irq_handler 11 12 12 7 power_on = Done tt s1 /\
    _ili9225_dma_finish_callback 11 12 s1
    = Done tt
        (after [ gpio_put 0 true; dma_channel_set_irq0_enabled 0 true;
                 dma_hw_ints1 1; call_user 7 ] s1).
Proof.
  assert (H0 : 11 <> 12) by lia.
  assert (H1 : 12 = 11 \/ 12 = 12) by (right; reflexivity).
  split; [exact H0|]. split; [exact H1|].
  destruct (handler_acknowledges_the_registered_line 11 12 12 7 power_on H0 H1)
    as (s1 & Hreg & Hrun).
  exists s1. split; [exact Hreg | exact Hrun].
Defined.

Lemma synchronous_calls_release_the_bus_witness :
  let s' :=
    after (set_registers_events lcd_config [ (0x20, 7); (0x21, 214); (0x22, 0xF800) ])
      lcd_driver in
  drives_a_pin_or_keeps_bus (fn_call (call_pixel 5 7 0xF800)) = false /\
  run_function false (fun _ => 0) 11 12 (fn_call (call_pixel 5 7 0xF800)) lcd_driver
  = Done tt s' /\
  cs_level idle_bus = true /\
  cs_after lcd_config (new_events lcd_driver s') idle_bus = true.
Proof.
  intros s'.
  assert (Hkeep : drives_a_pin_or_keeps_bus (fn_call (call_pixel 5 7 0xF800)) = false)
    by reflexivity.
  assert (Hcall : run_function false (fun _ => 0) 11 12 (fn_call (call_pixel 5 7 0xF800))
                    lcd_driver
                  = Done tt s') by (vm_compute; reflexivity).
  assert (Hidle : cs_level idle_bus = true) by reflexivity.
  split; [exact Hkeep|]. split; [exact Hcall|]. split; [exact Hidle|].
  exact (proj1 (synchronous_calls_release_the_bus false (fun _ => 0) 11 12
                  (fn_call (call_pixel 5 7 0xF800)) lcd_driver s' idle_bus
                  Hkeep Hcall Hidle)).
Defined.

Lemma get_register_reads_the_selected_register_witness :
  gpio_cs (ili9225_cfg lcd_driver) <> gpio_rs (ili9225_cfg lcd_driver) /\
  exists evs,
    get_register (fun _ => 0x9225) 0x00 lcd_driver = Done 0x9225 (after evs lcd_driver) /\
    transfers lcd_config evs = [ [Index 0x00]; [Read 0x00 0x9225] ].
Proof.
  split; [exact lcd_pins|].
  destruct (get_register_reads_the_selected_register (fun _ => 0x9225) 0x00 lcd_driver
              lcd_pins)
    as (Hrun & _ & Hbus).
  eexists. split; [exact Hrun | exact Hbus].
Defined.

Lemma read_driving_line_reads_the_current_register_witness :
  gpio_cs (ili9225_cfg lcd_driver) <> gpio_rs (ili9225_cfg lcd_driver) /\
  exists evs,
    ili9225_read_driving_line (fun _ => 0x1234) lcd_driver
    = Done 0x12 (after evs lcd_driver) /\
    closed (run_bus lcd_config evs (mk_bus true true 0x0F [] []))
    = [ [Read 0x0F 0x1234] ].
Proof.
  split; [exact lcd_pins|].
  destruct (read_driving_line_reads_the_current_register (fun _ => 0x1234) lcd_driver
              true 0x0F [] lcd_pins)
    as (Hrun & _ & _ & _ & Hbus).
  eexists. split; [exact Hrun | exact Hbus].
Defined.

Lemma display_control_keeps_the_display_on_witness :
  gpio_cs (ili9225_cfg lcd_driver) <> gpio_rs (ili9225_cfg lcd_driver) /\
  ili9225_display_control true ILI9225_COLOR_MODE_FULL lcd_driver
  = Done tt (after (set_register_events lcd_config MK_ILI9225_REG_DISPLAY_CTRL 0x0017)
               lcd_driver).
Proof.
  split; [exact lcd_pins|].
  destruct (display_control_keeps_the_display_on true ILI9225_COLOR_MODE_FULL lcd_driver
              lcd_pins)
    as (Hrun & _).
  exact Hrun.
Defined.

Lemma set_drive_freq_masks_four_bits_witness :
  gpio_cs (ili9225_cfg lcd_driver) <> gpio_rs (ili9225_cfg lcd_driver) /\
  ili9225_set_drive_freq 0x1F lcd_driver
  = Done tt (after (set_register_events lcd_config MK_ILI9225_REG_OSC_CTRL 0x0F01)
               lcd_driver).
Proof.
  split; [exact lcd_pins|].
  destruct (set_drive_freq_masks_four_bits 0x1F lcd_driver lcd_pins) as (Hrun & _).
  exact Hrun.
Defined.

Lemma power_control_packs_its_arguments_witness :
  gpio_cs (ili9225_cfg lcd_driver) <> gpio_rs (ili9225_cfg lcd_driver) /\
  is_uint8 0x0A /\
  ili9225_power_control 0x0A true lcd_driver
  = Done tt (after (set_register_events lcd_config MK_ILI9225_REG_PWR_CTRL1 0x0A01)
               lcd_driver).
Proof.
  assert (Hp : is_uint8 0x0A) by (unfold is_uint8; lia).
  split; [exact lcd_pins|]. split; [exact Hp|].
  destruct (power_control_packs_its_arguments 0x0A true lcd_driver lcd_pins Hp)
    as (Hrun & _).
  exact Hrun.
Defined.

Lemma get_letter_writes_the_whole_cell_witness :
  length (repeat 0xFFFF 64) = 64%nat /\
  ili9225_get_letter (repeat 0xFFFF 64 ++ [7]) "A"%char 1 0 = glyph "A"%char 1 0 ++ [7].
Proof.
  assert (H : length (repeat 0xFFFF 64) = 64%nat) by reflexivity.
  split; [exact H|].
  exact (proj1 (get_letter_writes_the_whole_cell (repeat 0xFFFF 64) [7] "A"%char 1 0 H)).
Defined.


Lemma text_draws_left_to_right_witness :
  0 <= 8 <= 27 * 8 /\ length (repeat 0 64) = 64%nat /\
  ili9225_text "Hi"%string 8 16 1 0 (repeat 0 64) lcd_driver
  = Done tt
      (after (flat_map (fun k => glyph_events lcd_config (char_at "Hi"%string (Z.of_nat k))
                                   (8 + 8 * Z.of_nat k) 16 1 0)
                (seq 0 (Z.to_nat (Z.min (Z.of_nat (strlen "Hi"%string))
                                    ((27 * 8 - 8) / 8 + 1)))))
         lcd_driver).
Proof.
  assert (Hx : 0 <= 8 <= 27 * 8) by lia.
  assert (Hbuf : length (repeat 0 64) = 64%nat) by reflexivity.
  split; [exact Hx|]. split; [exact Hbuf|].
  exact (proj1 (text_draws_left_to_right "Hi"%string 8 16 1 0 (repeat 0 64) lcd_driver
                  Hx Hbuf)).
Defined.

Lemma text_beyond_the_last_column_wraps_witness :
  "H"%char <> Ascii.zero /\
  27 * 8 < 250 < 256 /\ length (repeat 0 64) = 64%nat /\
  ili9225_text "Hi"%string 250 16 1 0 (repeat 0 64) lcd_driver
  = Done tt
      (after (glyph_events lcd_config "H"%char 250 16 1 0
              ++ (if 250 <? 248 then []
                  else flat_map (fun k => glyph_events lcd_config
                                            (char_at "i"%string (Z.of_nat k))
                                            (250 - 248 + 8 * Z.of_nat k) 16 1 0)
                         (seq 0 (Z.to_nat (Z.min (Z.of_nat (strlen "i"%string))
                                             ((27 * 8 - (250 - 248)) / 8 + 1))))))
         lcd_driver).
Proof.
  assert (Hch : "H"%char <> Ascii.zero) by discriminate.
  assert (Hx : 27 * 8 < 250 < 256) by lia.
  assert (Hbuf : length (repeat 0 64) = 64%nat) by reflexivity.
  split; [exact Hch|]. split; [exact Hx|]. split; [exact Hbuf|].
  exact (text_beyond_the_last_column_wraps "H"%char "i"%string 250 16 1 0 (repeat 0 64)
           lcd_driver Hch Hx Hbuf).
Defined.

Lemma text_reaches_the_panel_glyph_by_glyph_witness :
  gpio_cs (ili9225_cfg lcd_driver) <> gpio_rs (ili9225_cfg lcd_driver) /\
  0 <= 8 <= 27 * 8 /\ length (repeat 0 64) = 64%nat /\
  exists evs,
    ili9225_text "Hi"%string 8 16 1 0 (repeat 0 64) lcd_driver
    = Done tt (after evs lcd_driver) /\
    flat_map gram_word (concat (transfers lcd_config evs))
    = flat_map (fun k => glyph (char_at "Hi"%string (Z.of_nat k)) 1 0)
        (seq 0 (Z.to_nat (Z.min (Z.of_nat (strlen "Hi"%string))
                            ((27 * 8 - 8) / 8 + 1)))).
Proof.
  assert (Hx : 0 <= 8 <= 27 * 8) by lia.
  assert (Hbuf : length (repeat 0 64) = 64%nat) by reflexivity.
  split; [exact lcd_pins|]. split; [exact Hx|]. split; [exact Hbuf|].
  destruct (text_reaches_the_panel_glyph_by_glyph "Hi"%string 8 16 1 0 (repeat 0 64)
              lcd_driver lcd_pins Hx Hbuf)
    as (evs & Hrun & Hwords & _).
  exists evs. split; [exact Hrun | exact Hwords].
Defined.

Lemma text_overhangs_the_right_edge_witness :
  gpio_cs (ili9225_cfg lcd_driver) <> gpio_rs (ili9225_cfg lcd_driver) /\
  0 <= 216 <= 27 * 8 /\ length (repeat 0 64) = 64%nat /\
  (27 * 8 - 216) mod 8 < 4 /\
  (27 * 8 - 216) / 8 < Z.of_nat (strlen "A"%string) /\
  exists evs,
    ili9225_text "A"%string 216 0 1 0 (repeat 0 64) lcd_driver
    = Done tt (after evs lcd_driver) /\
    In 65532 (writes_to MK_ILI9225_REG_VERT_WIN_ADDR2 (register_writes lcd_config evs)).
Proof.
  assert (Hx : 0 <= 216 <= 27 * 8) by lia.
  assert (Hbuf : length (repeat 0 64) = 64%nat) by reflexivity.
  assert (Hmod : (27 * 8 - 216) mod 8 < 4) by reflexivity.
  assert (Hlen : (27 * 8 - 216) / 8 < Z.of_nat (strlen "A"%string)) by reflexivity.
  split; [exact lcd_pins|]. split; [exact Hx|]. split; [exact Hbuf|].
  split; [exact Hmod|]. split; [exact Hlen|].
  destruct (text_overhangs_the_right_edge "A"%string 216 0 1 0 (repeat 0 64) lcd_driver
              lcd_pins Hx Hbuf Hmod Hlen)
    as (evs & Hrun & _ & Hin & _).
  exists evs. split; [exact Hrun | exact Hin].
Defined.

Lemma streamed_chunks_form_one_transfer_witness :
  gpio_cs (ili9225_cfg lcd_driver) <> gpio_rs (ili9225_cfg lcd_driver) /\
  exists evs,
    bind ili9225_write_pixels_start
      (fun _ => bind (ili9225_spi_write16 (Some ramp) 2)
         (fun _ => bind (ili9225_spi_write16 (Some ramp) 3)
            (fun _ => ili9225_write_pixels_end))) lcd_driver
    = Done tt (after evs lcd_driver) /\
    transfers lcd_config evs
    = [ [Index 0x22];
        [ Write 0x22 0; Write 0x22 1; Write 0x22 0; Write 0x22 1; Write 0x22 2 ] ].
Proof.
  split; [exact lcd_pins|].
  destruct (streamed_chunks_form_one_transfer [ (ramp, 2); (ramp, 3) ]
              lcd_driver lcd_pins)
    as (evs & Hrun & Hbus & _).
  exists evs. split; [exact Hrun | exact Hbus].
Defined.

Lemma set_gate_scan_counts_in_eights_witness :
  gpio_cs (ili9225_cfg lcd_driver) <> gpio_rs (ili9225_cfg lcd_driver) /\
  0 <= 0 < 65536 /\ 0 <= 224 < 2048 /\
  ili9225_set_gate_scan 0 224 lcd_driver
  = Done tt
      (after (set_registers_events lcd_config
                [ (MK_ILI9225_REG_DRIVER_OUTPUT_CTRL, 0x011C);
                  (MK_ILI9225_REG_GATE_SCAN_CTRL, 0) ])
         lcd_driver).
Proof.
  assert (Hs : 0 <= 0 < 65536) by lia.
  assert (He : 0 <= 224 < 2048) by lia.
  split; [exact lcd_pins|]. split; [exact Hs|]. split; [exact He|].
  exact (proj1 (set_gate_scan_counts_in_eights 0 224 lcd_driver lcd_pins Hs He)).
Defined.

Lemma hello_display_alternates_frames_witness :
  gpio_cs (ili9225_cfg lcd_driver) <> gpio_rs (ili9225_cfg lcd_driver) /\
  exists evs,
    hello_display_rounds 2 lcd_driver = Done tt (after evs lcd_driver) /\
    delays evs = repeat 1000 (2 * 2).
Proof.
  split; [exact lcd_pins|].
  destruct (hello_display_alternates_frames 2 lcd_driver lcd_pins)
    as (evs & Hrun & _ & Hdelays).
  exists evs. split; [exact Hrun | exact Hdelays].
Defined.

Lemma driver_always_uses_channel_zero_witness :
  let s := hello_dma_boot false (fun _ => 0) 11 12 7 in
  reachable false (fun _ => 0) 11 12 s /\
  dma_tx s = 0 /\
  ili9225_dma_write (Some ramp) (220 * 176) s
  = Done tt
      (after (write_pixels_start_events (ili9225_cfg s)
              ++ [ dma_channel_configure 0 (c s) (spi (ili9225_cfg s)) (Some ramp)
                     (220 * 176) false;
                   dma_start_channel_mask 1 ]) s).
Proof.
  intros s.
  assert (Hreach : reachable false (fun _ => 0) 11 12 s).
  { apply reach_call with (call := call_set_dma_irq_handler 11 7)
                          (s := exec (ili9225_init false (fun _ => 0) lcd_config) power_on).
    - apply reach_call with (call := call_init lcd_config) (s := power_on).
      + apply reach_power_on.
      + vm_compute. reflexivity.
    - vm_compute. reflexivity. }
  split; [exact Hreach|].
  exact (driver_always_uses_channel_zero false (fun _ => 0) 11 12 s (Some ramp) (220 * 176)
           Hreach).
Defined.
